(** * Material cross-reference engine of [app.py]

    A shallow embedding of the three pieces of logic in [src/app.py]:
    the filter [analyze_material_data], the prompt composers
    ([create_analysis_prompt] and the general prompt built in [main]) and
    the client [ask_llm_simple], together with the pieces of pandas and of
    Python's [re] module that they call.

    Conventions of the model.
    - Python [str] values are Rocq strings read as sequences of code
      points below 256 (Latin-1); text outside that range is not covered.
    - pandas is the 2.x line: [astype(str)] turns a missing value into the
      text [nan] (or [NaT]) and the result is an object column of [str].
    - DataFrames are objects: the code holds references into a heap and
      every pandas call that builds a frame allocates a new one.
    - An outcome is [Some (Ok v)], [Some (Raise e)] or [None]; [None] means
      that the run left the modelled fragment (regular-expression syntax
      that is not modelled, a dangling reference), and nothing is claimed
      about Python in that case. *)

From Stdlib Require Import List String Ascii ZArith Bool Arith Lia.
From Stdlib Require Import DecimalString.
Import ListNotations.

Local Open Scope string_scope.
Local Open Scope list_scope.
Local Open Scope nat_scope.

(* ================================================================= *)
(** ** Text *)

Definition chars (s : string) : list ascii := list_ascii_of_string s.

(** [str.lower] on one code point below 256: A-Z and the Latin-1 capitals
    U+00C0..U+00DE (the multiplication sign U+00D7 apart) move up by 32. *)
Definition py_lower (c : ascii) : ascii :=
  let n := nat_of_ascii c in
  if ((65 <=? n) && (n <=? 90))
     || ((192 <=? n) && (n <=? 222) && negb (n =? 215))
  then ascii_of_nat (n + 32)
  else c.

Definition ascii_alnum (c : ascii) : bool :=
  let n := nat_of_ascii c in
  ((48 <=? n) && (n <=? 57)) || ((65 <=? n) && (n <=? 90))
  || ((97 <=? n) && (n <=? 122)).

(** [SPECIAL_CHARS] of the [re] parser. *)
Definition special_chars : list ascii := chars ".\[{()*+?^$|".

Definition is_special (c : ascii) : bool :=
  existsb (Ascii.eqb c) special_chars.

(** A token that the [re] parser reads as a plain sequence of literals. *)
Definition is_literal (t : string) : bool :=
  forallb (fun c => negb (is_special c)) (chars t).

(** Case-insensitive substring test, the reading of "contains" that the
    specification uses. *)
Fixpoint prefix_ci (p s : list ascii) : bool :=
  match p, s with
  | [], _ => true
  | _ :: _, [] => false
  | a :: p', b :: s' => Ascii.eqb (py_lower a) (py_lower b) && prefix_ci p' s'
  end.

Fixpoint infix_ci (p s : list ascii) : bool :=
  prefix_ci p s ||
  match s with
  | [] => false
  | _ :: s' => infix_ci p s'
  end.

Definition contains_ci (t s : string) : bool := infix_ci (chars t) (chars s).

(* ================================================================= *)
(** ** Python's [re]: the modelled fragment

    Literals, [.], backslash before a non-alphanumeric character, groups,
    [|], and the quantifiers [*], [+], [?] (greedy or lazy: for a search
    that only reports whether a match exists they agree).  Character sets,
    counted repeats, anchors, [(?...)] extensions, backslash before a
    letter or digit and possessive quantifiers are left out: the parser
    answers [NotModelled] on them. *)

Inductive char_set : Type :=
| Literal (ignorecase : bool) (c : ascii)
| AnyButNewline
| AnyChar.

Definition newline : ascii := ascii_of_nat 10.

Definition char_set_mem (cs : char_set) (x : ascii) : bool :=
  match cs with
  | Literal true c => Ascii.eqb (py_lower x) (py_lower c)
  | Literal false c => Ascii.eqb x c
  | AnyButNewline => negb (Ascii.eqb x newline)
  | AnyChar => true
  end.

Inductive regex : Type :=
| Fail
| Empty
| Chars (cs : char_set)
| Seq (r1 r2 : regex)
| Branch (r1 r2 : regex)
| Repeat (r : regex).

Inductive parsed : Type :=
| Pattern (r : regex)
| SyntaxError
| NotModelled.

(** One open group (or the top level): the branches closed by [|] so far
    and the items of the branch being read, both newest first.  An item
    remembers whether it is already a repeat. *)
Record frame : Type := {
  alts : list regex;
  cur : list (regex * bool)
}.

Definition empty_frame : frame := {| alts := []; cur := [] |}.

Definition seq_of (items : list (regex * bool)) : regex :=
  fold_left (fun acc it => Seq (fst it) acc) items Empty.

Definition close (f : frame) : regex :=
  fold_left (fun acc b => Branch b acc) (alts f) (seq_of (cur f)).

Definition push (r : regex) (f : frame) : frame :=
  {| alts := alts f; cur := (r, false) :: cur f |}.

Definition quantify (q : ascii) (r : regex) : regex :=
  if Ascii.eqb q "*" then Repeat r
  else if Ascii.eqb q "+" then Seq r (Repeat r)
  else Branch Empty r.

Fixpoint parse (ignorecase : bool) (p : list ascii) (top : frame)
    (stack : list frame) : parsed :=
  match p with
  | [] =>
      match stack with
      | [] => Pattern (close top)
      | _ :: _ => SyntaxError            (* missing ), unterminated subpattern *)
      end
  | c :: rest =>
      if Ascii.eqb c "\" then
        match rest with
        | [] => SyntaxError              (* bad escape (end of pattern) *)
        | e :: rest' =>
            if ascii_alnum e then NotModelled
            else parse ignorecase rest' (push (Chars (Literal ignorecase e)) top) stack
        end
      else if Ascii.eqb c "." then
        parse ignorecase rest (push (Chars AnyButNewline) top) stack
      else if Ascii.eqb c "(" then
        match rest with
        | "?"%char :: _ => NotModelled
        | _ => parse ignorecase rest empty_frame (top :: stack)
        end
      else if Ascii.eqb c ")" then
        match stack with
        | [] => SyntaxError              (* unbalanced parenthesis *)
        | outer :: stack' => parse ignorecase rest (push (close top) outer) stack'
        end
      else if Ascii.eqb c "|" then
        parse ignorecase rest {| alts := seq_of (cur top) :: alts top; cur := [] |} stack
      else if Ascii.eqb c "*" || Ascii.eqb c "+" || Ascii.eqb c "?" then
        match cur top with
        | [] => SyntaxError              (* nothing to repeat *)
        | (_, true) :: _ => SyntaxError  (* multiple repeat *)
        | (r, false) :: items =>
            let top' := {| alts := alts top; cur := (quantify c r, true) :: items |} in
            match rest with
            | "?"%char :: rest' => parse ignorecase rest' top' stack
            | "+"%char :: _ => NotModelled
            | _ => parse ignorecase rest top' stack
            end
        end
      else if is_special c then NotModelled     (* [ { ^ $ *)
      else parse ignorecase rest (push (Chars (Literal ignorecase c)) top) stack
  end.

(** Matching by derivatives. *)
Fixpoint nullable (r : regex) : bool :=
  match r with
  | Fail => false
  | Empty => true
  | Chars _ => false
  | Seq a b => nullable a && nullable b
  | Branch a b => nullable a || nullable b
  | Repeat _ => true
  end.

Fixpoint deriv (x : ascii) (r : regex) : regex :=
  match r with
  | Fail => Fail
  | Empty => Fail
  | Chars cs => if char_set_mem cs x then Empty else Fail
  | Seq a b =>
      if nullable a then Branch (Seq (deriv x a) b) (deriv x b)
      else Seq (deriv x a) b
  | Branch a b => Branch (deriv x a) (deriv x b)
  | Repeat a => Seq (deriv x a) (Repeat a)
  end.

Fixpoint fullmatch (r : regex) (s : list ascii) : bool :=
  match s with
  | [] => nullable r
  | x :: s' => fullmatch (deriv x r) s'
  end.

(** [pattern.search(s) is not None]: some substring of [s] matches. *)
Definition anything : regex := Repeat (Chars AnyChar).

Definition re_search (r : regex) (s : string) : bool :=
  fullmatch (Seq anything (Seq r anything)) (chars s).


(* ================================================================= *)
(** ** Outcomes of Python code *)

Inductive result (E A : Type) : Type :=
| Ok (a : A)
| Raise (e : E).
Arguments Ok {E A} a.
Arguments Raise {E A} e.

(** The one exception the filter can meet: [re.error], from [re.compile]. *)
Inductive regex_error : Type := re_error.

Definition outcome (A : Type) : Type := option (result regex_error A).

(** [re.compile(pat, flags)], with [flags] either 0 or [re.IGNORECASE]. *)
Definition re_compile (pat : string) (ignorecase : bool) : outcome regex :=
  match parse ignorecase (chars pat) empty_frame [] with
  | Pattern r => Some (Ok r)
  | SyntaxError => Some (Raise re_error)
  | NotModelled => None
  end.

(* ================================================================= *)
(** ** pandas values *)

(** A cell of a frame read by [read_excel].  A float and a timestamp carry
    the text Python prints for them (float formatting is outside the
    model); [CNaN] is the missing value of a blank cell, [CNaT] the missing
    timestamp. *)
Inductive cell : Type :=
| CStr (s : string)
| CInt (z : Z)
| CFloat (text : string)
| CBool (b : bool)
| CTimestamp (text repr : string)
| CNaN
| CNaT.

Definition Series : Type := list cell.

(** Columns are named by strings; rows are kept in index order, each with
    one cell per column. *)
Record DataFrame : Type := {
  columns : list string;
  rows : list (list cell)
}.

Definition nrows (df : DataFrame) : nat := List.length (rows df).
Definition ncols (df : DataFrame) : nat := List.length (columns df).

Definition py_bool (b : bool) : string := if b then "True" else "False".

Definition py_int (z : Z) : string := NilZero.string_of_int (Z.to_int z).

(** The text [astype(str)] leaves in place of a cell (pandas 2.x). *)
Definition cell_str (c : cell) : string :=
  match c with
  | CStr s => s
  | CInt z => py_int z
  | CFloat text => text
  | CBool b => py_bool b
  | CTimestamp text _ => text
  | CNaN => "nan"
  | CNaT => "NaT"
  end.

(** [pd.isna] *)
Definition isna (c : cell) : bool :=
  match c with
  | CNaN | CNaT => true
  | _ => false
  end.

Definition astype_str (df : DataFrame) : DataFrame :=
  {| columns := columns df;
     rows := map (map (fun c => CStr (cell_str c))) (rows df) |}.

Definition column (j : nat) (df : DataFrame) : Series :=
  map (fun r => nth j r CNaN) (rows df).

Definition of_columns (names : list string) (n : nat) (cols : list Series)
    : DataFrame :=
  {| columns := names;
     rows := map (fun i => map (fun col => nth i col CNaN) cols) (seq 0 n) |}.

Definition is_str (c : cell) : bool :=
  match c with CStr _ | CNaN => true | _ => false end.

(** [x.str.contains(pat, case=case, na=na)] on an object Series of strings
    and missing values; [regex=True] is the default, so [pat] is compiled.
    Other cells are outside the model. *)
Definition str_contains (x : Series) (pat : string) (case na : bool)
    : outcome Series :=
  if forallb is_str x then
    match re_compile pat (negb case) with
    | Some (Ok re) =>
        Some (Ok (map (fun c => match c with
                                | CStr s => CBool (re_search re s)
                                | _ => CBool na
                                end) x))
    | Some (Raise e) => Some (Raise e)
    | None => None
    end
  else None.

Fixpoint collect {A : Type} (l : list (outcome A)) : outcome (list A) :=
  match l with
  | [] => Some (Ok [])
  | o :: l' =>
      match o with
      | Some (Ok a) =>
          match collect l' with
          | Some (Ok r) => Some (Ok (a :: r))
          | other => other
          end
      | Some (Raise e) => Some (Raise e)
      | None => None
      end
  end.

(** [df.apply(func)] for a [func] that goes through the [.str] accessor.
    When an axis is empty pandas takes [apply_empty_result]: the trial call
    of [func] on an empty float Series fails inside its own [try] and a
    copy of the frame comes back.  Otherwise [func] runs on each column in
    turn and the results are put side by side. *)
Definition frame_apply (func : Series -> outcome Series) (df : DataFrame)
    : outcome DataFrame :=
  if (nrows df =? 0) || (ncols df =? 0) then Some (Ok df)
  else
    match collect (map (fun j => func (column j df)) (seq 0 (ncols df))) with
    | Some (Ok cols) => Some (Ok (of_columns (columns df) (nrows df) cols))
    | Some (Raise e) => Some (Raise e)
    | None => None
    end.

Definition is_bool (c : cell) : bool :=
  match c with CBool _ => true | _ => false end.

Definition truth (c : cell) : bool :=
  match c with CBool b => b | _ => false end.

(** [df.any(axis=1)] on a frame of booleans. *)
Definition any_axis1 (df : DataFrame) : outcome Series :=
  if forallb (forallb is_bool) (rows df)
  then Some (Ok (map (fun r => CBool (existsb truth r)) (rows df)))
  else None.

Fixpoint select (mask : Series) (rs : list (list cell)) : list (list cell) :=
  match mask, rs with
  | m :: mask', r :: rs' => if truth m then r :: select mask' rs' else select mask' rs'
  | _, _ => []
  end.

(** [df[mask]] for a boolean Series on the index of [df]. *)
Definition getitem_mask (df : DataFrame) (mask : Series) : outcome DataFrame :=
  if (List.length mask =? nrows df) && forallb is_bool mask
  then Some (Ok {| columns := columns df; rows := select mask (rows df) |})
  else None.

Definition head (n : nat) (df : DataFrame) : DataFrame :=
  {| columns := columns df; rows := firstn n (rows df) |}.

(** Python dictionaries keyed by strings, in insertion order. *)
Definition dict (V : Type) : Type := list (string * V).

Fixpoint dict_set {V : Type} (k : string) (v : V) (d : dict V) : dict V :=
  match d with
  | [] => [(k, v)]
  | (k', v') :: d' =>
      if String.eqb k k' then (k', v) :: d' else (k', v') :: dict_set k v d'
  end.

Fixpoint dict_get {V : Type} (k : string) (d : dict V) : option V :=
  match d with
  | [] => None
  | (k', v') :: d' => if String.eqb k k' then Some v' else dict_get k d'
  end.

Definition dict_of_items {V : Type} (items : list (string * V)) : dict V :=
  fold_left (fun d kv => dict_set (fst kv) (snd kv) d) items [].

Definition record : Type := dict cell.

Definition record_of (names : list string) (r : list cell) : record :=
  dict_of_items (combine names r).

(** [df.to_dict('records')] *)
Definition to_dict_records (df : DataFrame) : list record :=
  map (record_of (columns df)) (rows df).

(* ================================================================= *)
(** ** Frames as objects *)

Definition ref : Type := nat.
Definition heap : Type := list DataFrame.

Definition M (A : Type) : Type := heap -> option (result regex_error A * heap).

Definition ret {A : Type} (a : A) : M A := fun h => Some (Ok a, h).

Definition bind {A B : Type} (m : M A) (k : A -> M B) : M B :=
  fun h =>
    match m h with
    | Some (Ok a, h') => k a h'
    | Some (Raise e, h') => Some (Raise e, h')
    | None => None
    end.

Notation "x <- m ;; k" := (bind m (fun x => k))
  (at level 61, m at next level, right associativity).

Definition lift {A : Type} (o : outcome A) : M A :=
  fun h => match o with
           | Some r => Some (r, h)
           | None => None
           end.

Definition load (r : ref) : M DataFrame :=
  fun h => match nth_error h r with
           | Some d => Some (Ok d, h)
           | None => None
           end.

Definition new (d : DataFrame) : M ref :=
  fun h => Some (Ok (List.length h), h ++ [d]).

Definition df_astype_str (df : ref) : M ref :=
  d <- load df ;; new (astype_str d).

Definition df_apply (df : ref) (func : Series -> outcome Series) : M ref :=
  d <- load df ;; d' <- lift (frame_apply func d) ;; new d'.

Definition df_any_axis1 (df : ref) : M Series :=
  d <- load df ;; lift (any_axis1 d).

Definition df_getitem (df : ref) (mask : Series) : M ref :=
  d <- load df ;; d' <- lift (getitem_mask d mask) ;; new d'.

Definition df_len (df : ref) : M Z :=
  d <- load df ;; ret (Z.of_nat (nrows d)).

Definition df_shape (df : ref) : M (Z * Z) :=
  d <- load df ;; ret (Z.of_nat (nrows d), Z.of_nat (ncols d)).

Definition df_columns (df : ref) : M (list string) :=
  d <- load df ;; ret (columns d).

Definition df_head (n : nat) (df : ref) : M ref :=
  d <- load df ;; new (head n d).

Definition df_to_dict_records (df : ref) : M (list record) :=
  d <- load df ;; ret (to_dict_records d).

(* ================================================================= *)
(** ** The filter: [analyze_material_data] *)

(** [str(material_code)] for a token that is a [str] already. *)
Definition py_str (s : string) : string := s.

(** The value stored under ['sales'], ['production'] or ['reservations']:
    a dictionary with the two keys ['count'] and ['data']. *)
Record match_set : Type := {
  count : Z;
  data : list record
}.

(** [df[df.astype(str).apply(lambda x: x.str.contains(str(material_code),
    case=False, na=False)).any(axis=1)]], the expression the source
    repeats for each of the three tables. *)
Definition matching_rows (material_code : string) (df : ref) : M ref :=
  as_text <- df_astype_str df ;;
  hits <- df_apply as_text
            (fun x => str_contains x (py_str material_code) false false) ;;
  mask <- df_any_axis1 hits ;;
  df_getitem df mask.

(** One of the three blocks of the function body, which differ only in
    the table and the key. *)
Definition table_entry (material_code : string) (df : ref) : M match_set :=
  table_data <- matching_rows material_code df ;;
  n <- df_len table_data ;;
  n' <- df_len table_data ;;
  records <- (if (0 <? n')%Z then df_to_dict_records table_data else ret []) ;;
  ret {| count := n; data := records |}.

Definition analyze_material_data (material_code : string)
    (sales_df production_df reservations_df : option ref)
    : M (dict match_set) :=
  let analysis_data : dict match_set := [] in
  analysis_data <-
    match sales_df with
    | Some df =>
        entry <- table_entry material_code df ;;
        ret (dict_set "sales" entry analysis_data)
    | None => ret analysis_data
    end ;;
  analysis_data <-
    match production_df with
    | Some df =>
        entry <- table_entry material_code df ;;
        ret (dict_set "production" entry analysis_data)
    | None => ret analysis_data
    end ;;
  analysis_data <-
    match reservations_df with
    | Some df =>
        entry <- table_entry material_code df ;;
        ret (dict_set "reservations" entry analysis_data)
    | None => ret analysis_data
    end ;;
  ret analysis_data.


(* ================================================================= *)
(** ** What Python prints: [repr] *)

Definition double_quote : ascii := ascii_of_nat 34.

Definition hex_digit (n : nat) : ascii :=
  nth n (chars "0123456789abcdef") "0"%char.

(** [str.isprintable] on one code point below 256. *)
Definition printable (c : ascii) : bool :=
  let n := nat_of_ascii c in
  ((32 <=? n) && (n <? 127)) || ((161 <=? n) && negb (n =? 173)).

Definition repr_char (quote c : ascii) : list ascii :=
  let n := nat_of_ascii c in
  if Ascii.eqb c quote || Ascii.eqb c "\" then ["\"%char; c]
  else if n =? 9 then ["\"%char; "t"%char]
  else if n =? 10 then ["\"%char; "n"%char]
  else if n =? 13 then ["\"%char; "r"%char]
  else if printable c then [c]
  else ["\"%char; "x"%char; hex_digit (n / 16); hex_digit (n mod 16)].

(** [repr] of a [str]: single quotes unless the text has a single quote
    and no double quote. *)
Definition py_repr (s : string) : string :=
  let cs := chars s in
  let quote :=
    if existsb (Ascii.eqb "'") cs && negb (existsb (Ascii.eqb double_quote) cs)
    then double_quote else "'"%char in
  string_of_list_ascii (quote :: flat_map (repr_char quote) cs ++ [quote]).

(** [repr] of the value [to_dict] boxes a cell into. *)
Definition py_repr_cell (c : cell) : string :=
  match c with
  | CStr s => py_repr s
  | CInt z => py_int z
  | CFloat text => text
  | CBool b => py_bool b
  | CTimestamp _ repr => repr
  | CNaN => "nan"
  | CNaT => "NaT"
  end.

Definition py_repr_list (items : list string) : string :=
  String.concat EmptyString ["["; String.concat ", " items; "]"].

Definition py_repr_names (names : list string) : string :=
  py_repr_list (map py_repr names).

Definition py_repr_record (r : record) : string :=
  String.concat EmptyString
    ["{";
     String.concat ", "
       (map (fun kv => String.concat EmptyString
                         [py_repr (fst kv); ": "; py_repr_cell (snd kv)]) r);
     "}"].

Definition py_repr_records (rs : list record) : string :=
  py_repr_list (map py_repr_record rs).

(* ================================================================= *)
(** ** The prompt composers *)

(** [analysis_data.get(key, {}).get('count', 0)] *)
Definition get_count (key : string) (analysis_data : dict match_set) : Z :=
  match dict_get key analysis_data with
  | Some entry => count entry
  | None => 0%Z
  end.

(** [analysis_data.get(key, {}).get('data', [])] *)
Definition get_data (key : string) (analysis_data : dict match_set)
    : list record :=
  match dict_get key analysis_data with
  | Some entry => data entry
  | None => []
  end.

(** [df.head(5).to_dict('records') if df is not None else []] *)
Definition head_sample (df : option ref) : M (list record) :=
  match df with
  | Some df => first_rows <- df_head 5 df ;; df_to_dict_records first_rows
  | None => ret []
  end.

(** [list(df.columns) if df is not None else []] *)
Definition columns_or_empty (df : option ref) : M (list string) :=
  match df with
  | Some df => df_columns df
  | None => ret []
  end.

(** The field glossary, the same text in both prompts. *)
Definition glossary : string :=
"FIELD DEFINITIONS FOR CONTEXT:

RESERVATIONS DATA (RESB table):
- RSPOS: Reservation Item
- AUFNR: Production Order Number (The key link!)
- MATNR: Component Material (the one being consumed)
- BDMNG: Reserved Quantity
- MEINS: Unit of Measure for the component

PRODUCTION DATA (AFKO table):
- AUFNR: Production Order Number (links with reservations)
- PLNBEZ: Material to be Produced (the finished product)
- GAMNG: Total order quantity (of the finished product)
- GMEIN: Unit of Measure for the order (of the finished product)
- GSTRP: Basic start date
- GLTRP: Basic finish date

SALES DATA (VBAP table):
- VBELN: Sales Document Number (sales order)
- POSNR: Sales Document Item
- MATNR: Material Number
- KWMENG: Sales Quantity (of the finished product)
- VRKME: Sales Unit of Measure
- NETWR: Net value of the item

".

(** The f-string of [create_analysis_prompt], with its fields evaluated. *)
Definition analysis_prompt_text (material_code : string)
    (analysis_data : dict match_set)
    (sales_columns : list string) (sales_sample : list record)
    (production_columns : list string) (production_sample : list record)
    (reservations_columns : list string) (reservations_sample : list record)
    : string :=
  String.concat EmptyString
    [
     "
You are an expert SAP data analyst specializing in supply chain and production analysis. 

";
     glossary;
     "ANALYSIS REQUEST FOR MATERIAL: ";
     material_code;
     "

CURRENT DATASET INFORMATION:

SALES DATA (";
     py_int (get_count "sales" analysis_data);
     " records found for material ";
     material_code;
     "):
Available columns: ";
     py_repr_names sales_columns;
     "
Sample of full dataset (first 5 rows): ";
     py_repr_records sales_sample;
     "
Filtered data for material ";
     material_code;
     ": ";
     py_repr_records (get_data "sales" analysis_data);
     "

PRODUCTION DATA (";
     py_int (get_count "production" analysis_data);
     " records found for material ";
     material_code;
     "):
Available columns: ";
     py_repr_names production_columns;
     "
Sample of full dataset (first 5 rows): ";
     py_repr_records production_sample;
     "
Filtered data for material ";
     material_code;
     ": ";
     py_repr_records (get_data "production" analysis_data);
     "

RESERVATIONS DATA (";
     py_int (get_count "reservations" analysis_data);
     " records found for material ";
     material_code;
     "):
Available columns: ";
     py_repr_names reservations_columns;
     "
Sample of full dataset (first 5 rows): ";
     py_repr_records reservations_sample;
     "
Filtered data for material ";
     material_code;
     ": ";
     py_repr_records (get_data "reservations" analysis_data);
     "

Please provide a comprehensive analysis including:
1. Summary of sales performance and quantities for this material
2. Production orders status and quantities (linking via AUFNR when possible)
3. Reservation status and component consumption
4. Cross-reference analysis: How do sales orders relate to production orders and material reservations?
5. Risk analysis: Could sales orders be affected by reservation shortages or production delays?
6. Timeline analysis using start dates (GSTRP) and finish dates (GLTRP)
7. Recommendations for supply chain optimization

Focus on the relationships between AUFNR (production orders), MATNR (materials), quantities (BDMNG, GAMNG, KWMENG), and dates.
"
    ].

Definition create_analysis_prompt (material_code : string)
    (analysis_data : dict match_set)
    (sales_df production_df reservations_df : option ref) : M string :=
  sales_sample <- head_sample sales_df ;;
  production_sample <- head_sample production_df ;;
  reservations_sample <- head_sample reservations_df ;;
  sales_columns <- columns_or_empty sales_df ;;
  production_columns <- columns_or_empty production_df ;;
  reservations_columns <- columns_or_empty reservations_df ;;
  ret (analysis_prompt_text material_code analysis_data
         sales_columns sales_sample
         production_columns production_sample
         reservations_columns reservations_sample).

(** The f-string [general_prompt] of [main], with its fields evaluated. *)
Definition general_prompt_text (user_query : string)
    (sales_shape : Z * Z) (sales_columns : list string) (sales_sample : list record)
    (production_shape : Z * Z) (production_columns : list string)
    (production_sample : list record)
    (reservations_shape : Z * Z) (reservations_columns : list string)
    (reservations_sample : list record) : string :=
  String.concat EmptyString
    [
     "
You are an expert SAP data analyst specializing in supply chain and production analysis.

";
     glossary;
     "CURRENT DATASETS:

SALES DATA: ";
     py_int (fst sales_shape);
     " rows, ";
     py_int (snd sales_shape);
     " columns
Available columns: ";
     py_repr_names sales_columns;
     "
Sample data (first 5 rows): ";
     py_repr_records sales_sample;
     "

PRODUCTION DATA: ";
     py_int (fst production_shape);
     " rows, ";
     py_int (snd production_shape);
     " columns
Available columns: ";
     py_repr_names production_columns;
     "
Sample data (first 5 rows): ";
     py_repr_records production_sample;
     "

RESERVATIONS DATA: ";
     py_int (fst reservations_shape);
     " rows, ";
     py_int (snd reservations_shape);
     " columns
Available columns: ";
     py_repr_names reservations_columns;
     "
Sample data (first 5 rows): ";
     py_repr_records reservations_sample;
     "

USER QUESTION: ";
     user_query;
     "

Please provide a comprehensive analysis and answer based on:
1. The SAP field definitions above
2. The actual data structure and sample records
3. Relationships between tables (especially via AUFNR and MATNR)
4. Focus on quantities, dates, and business implications
5. Include specific recommendations and insights where appropriate

Analyze the data relationships and provide actionable insights for supply chain optimization.
"
    ].

(** The fields of one table in [general_prompt], in the order the f-string
    evaluates them. *)
Definition table_summary (df : ref) : M ((Z * Z) * list string * list record) :=
  rows_count <- df_shape df ;;
  shape <- df_shape df ;;
  names <- df_columns df ;;
  first_rows <- df_head 5 df ;;
  sample <- df_to_dict_records first_rows ;;
  ret ((fst rows_count, snd shape), names, sample).

(** The "General Query" branch of [main] up to the call of the client; the
    three tables are present there, [main] returns before otherwise. *)
Definition general_prompt (user_query : string)
    (sales_df production_df reservations_df : ref) : M string :=
  sales <- table_summary sales_df ;;
  production <- table_summary production_df ;;
  reservations <- table_summary reservations_df ;;
  ret (general_prompt_text user_query
         (fst (fst sales)) (snd (fst sales)) (snd sales)
         (fst (fst production)) (snd (fst production)) (snd production)
         (fst (fst reservations)) (snd (fst reservations)) (snd reservations)).

(* ================================================================= *)
(** ** The client: [ask_llm_simple] *)

(** An exception raised by the service is kept by its description, the
    text of [str(e)]. *)
Definition exception : Type := string.

Definition try_except {E A : Type} (body : result E A)
    (handler : E -> result E A) : result E A :=
  match body with
  | Ok a => Ok a
  | Raise e => handler e
  end.

Section Client.

Variables client llm : Type.

(** [get_proxy_client], [ChatOpenAI(proxy_model_name=..., proxy_client=...)]
    and [llm.invoke(prompt).content]: the service, which the code cannot
    see into. *)
Variable get_proxy_client : string -> result exception client.
Variable ChatOpenAI : string -> client -> result exception llm.
Variable invoke_content : llm -> string -> result exception string.

(** The module-level [try]: the global [proxy_client]. *)
Definition init_proxy_client : option client :=
  match get_proxy_client "gen-ai-hub" with
  | Ok c => Some c
  | Raise _ => None
  end.

Definition unavailable : string :=
  "GenAI Hub is not available. Please check your configuration.".

Definition ask_llm_simple (proxy_client : option client) (prompt : string)
    : result exception string :=
  match proxy_client with
  | None => Ok unavailable
  | Some pc =>
      try_except
        (match ChatOpenAI "gpt-5" pc with
         | Ok model =>
             match invoke_content model prompt with
             | Ok response => Ok response
             | Raise e => Raise e
             end
         | Raise e => Raise e
         end)
        (fun e => Ok (String.concat EmptyString ["Error querying LLM: "; e]))
  end.

End Client.

(* ================================================================= *)
(** ** What a pattern denotes *)

Definition push_literals (ignorecase : bool) (p : list ascii) (f : frame) : frame :=
  fold_left (fun f c => push (Chars (Literal ignorecase c)) f) p f.

Inductive Matches : regex -> list ascii -> Prop :=
| MEmpty : Matches Empty []
| MChars cs x : char_set_mem cs x = true -> Matches (Chars cs) [x]
| MSeq a b s t : Matches a s -> Matches b t -> Matches (Seq a b) (s ++ t)
| MLeft a b s : Matches a s -> Matches (Branch a b) s
| MRight a b s : Matches b s -> Matches (Branch a b) s
| MDone a : Matches (Repeat a) []
| MMore a s t : Matches a s -> Matches (Repeat a) t -> Matches (Repeat a) (s ++ t).

(** The pattern a literal token compiles to under [re.IGNORECASE]. *)
Definition literal_pattern (t : list ascii) : regex :=
  fold_right (fun c acc => Seq (Chars (Literal true c)) acc) Empty t.

(* ================================================================= *)
(** ** Notions used to state the properties *)

(** A frame as pandas keeps it: one cell per column in every row, and,
    as [read_excel] returns it, no column name twice. *)
Definition rectangular (df : DataFrame) : bool :=
  forallb (fun r => List.length r =? ncols df) (rows df).

Fixpoint distinct (names : list string) : bool :=
  match names with
  | [] => true
  | n :: names' => negb (existsb (String.eqb n) names') && distinct names'
  end.

Definition frame_ok (df : DataFrame) : bool :=
  rectangular df && distinct (columns df).

(** The table behind an argument that is [None] or a reference. *)
Definition deref (h : heap) (df : option ref) : option DataFrame :=
  match df with
  | Some l => nth_error h l
  | None => None
  end.

(** The argument is [None] or refers to a frame of the heap. *)
Definition live (h : heap) (df : option ref) : bool :=
  match df with
  | Some l => l <? List.length h
  | None => true
  end.

Definition valid_ref (h : heap) (df : option ref) : bool :=
  match df with
  | Some l =>
      match nth_error h l with
      | Some d => frame_ok d
      | None => false
      end
  | None => true
  end.

(** Some cell of the row, as text, is found by the compiled pattern. *)
Definition row_hit (re : regex) (r : list cell) : bool :=
  existsb (fun c => re_search re (cell_str c)) r.

(** The rows the filter keeps for a token. *)
Definition selected (t : string) (r : list cell) : bool :=
  match re_compile t true with
  | Some (Ok re) => row_hit re r
  | _ => false
  end.

(** The frame of booleans that [apply] builds on a frame with cells. *)
Definition hit_frame (re : regex) (df : DataFrame) : DataFrame :=
  {| columns := columns df;
     rows := map (map (fun c => CBool (re_search re (cell_str c)))) (rows df) |}.

Definition no_cells (df : DataFrame) : bool :=
  (nrows df =? 0) || (ncols df =? 0).

(** What [matching_rows] computes, as a function of the table alone. *)
Definition matching (t : string) (df : DataFrame) : outcome DataFrame :=
  if no_cells df then Some (Ok {| columns := columns df; rows := [] |})
  else
    match re_compile t true with
    | Some (Ok re) =>
        Some (Ok {| columns := columns df; rows := filter (row_hit re) (rows df) |})
    | Some (Raise e) => Some (Raise e)
    | None => None
    end.

Definition entry_of (t : string) (df : DataFrame) : outcome match_set :=
  match matching t df with
  | Some (Ok d) =>
      Some (Ok {| count := Z.of_nat (nrows d); data := to_dict_records d |})
  | Some (Raise e) => Some (Raise e)
  | None => None
  end.

Definition add_entry (t key : string) (table : option DataFrame)
    (acc : outcome (dict match_set)) : outcome (dict match_set) :=
  match acc with
  | Some (Ok analysis_data) =>
      match table with
      | Some d =>
          match entry_of t d with
          | Some (Ok e) => Some (Ok (dict_set key e analysis_data))
          | Some (Raise x) => Some (Raise x)
          | None => None
          end
      | None => Some (Ok analysis_data)
      end
  | other => other
  end.

Definition analysis_of (t : string) (sales production reservations : option DataFrame)
    : outcome (dict match_set) :=
  add_entry t "reservations" reservations
    (add_entry t "production" production
       (add_entry t "sales" sales (Some (Ok [])))).

(** A run from heap [h] ends with the outcome [o] and only adds frames. *)
Definition runs {A : Type} (m : M A) (h : heap) (o : outcome A) : Prop :=
  match o with
  | Some r => exists g, m h = Some (r, h ++ g)
  | None => m h = None
  end.

(** [l] is [m] with some elements left out, the others in place. *)
Inductive Subseq {A : Type} : list A -> list A -> Prop :=
| SubNil : Subseq [] []
| SubKeep x l m : Subseq l m -> Subseq (x :: l) (x :: m)
| SubDrop x l m : Subseq l m -> Subseq l (x :: m).

(** Some cell of the record, as text, contains the token whatever the case. *)
Definition record_contains (t : string) (r : record) : Prop :=
  exists k v, In (k, v) r /\ contains_ci t (cell_str v) = true.

(** The scenario of the specification, and two one-cell tables. *)
Definition scenario_sales : DataFrame :=
  {| columns := ["MATNR"; "KWMENG"]; rows := [[CStr "M1"; CInt 10]] |}.

Definition scenario_production : DataFrame :=
  {| columns := ["AUFNR"; "PLNBEZ"]; rows := [[CStr "P1"; CStr "M1"]] |}.

Definition scenario_reservations : DataFrame :=
  {| columns := ["AUFNR"; "MATNR"; "BDMNG"];
     rows := [[CStr "P1"; CStr "M1"; CInt 5]] |}.

Definition scenario : heap :=
  [scenario_sales; scenario_production; scenario_reservations].


Definition blank_row : DataFrame :=
  {| columns := ["MATNR"]; rows := [[CNaN]] |}.

(** The tables of a call, by the key their entry is stored under. *)
Definition tables_of {A : Type} (sales production reservations : A)
    : list (string * A) :=
  [("sales", sales); ("production", production); ("reservations", reservations)].

(** The invariant of an entry: ['count'] is the length of ['data']. *)
Definition consistent (e : match_set) : Prop :=
  count e = Z.of_nat (List.length (data e)).

(** The head sample as the specification words it: the first five records
    of the table, nothing for an absent table. *)
Definition first_five (table : option DataFrame) : list record :=
  match table with
  | Some d => firstn 5 (to_dict_records d)
  | None => []
  end.

Definition names_of (table : option DataFrame) : list string :=
  match table with
  | Some d => columns d
  | None => []
  end.

Definition is_head_sample (table : option DataFrame) (sample : list record) : Prop :=
  match table with
  | Some d =>
      sample = firstn 5 (to_dict_records d)
      /\ (5 <= nrows d -> List.length sample = 5)
      /\ (nrows d < 5 -> sample = to_dict_records d)
  | None => sample = []
  end.

Definition shape_of (d : DataFrame) : Z * Z :=
  (Z.of_nat (nrows d), Z.of_nat (ncols d)).

(** A service that answers every prompt with the prompt itself, and one
    whose calls fail. *)
Definition echo_service : unit -> string -> result exception string :=
  fun _ prompt => Ok prompt.

Definition failing_service : unit -> string -> result exception string :=
  fun _ _ => Raise "quota exceeded".

(** A table with more than five rows. *)
Definition six_rows : DataFrame :=
  {| columns := ["MATNR"];
     rows := [[CInt 1]; [CInt 2]; [CInt 3]; [CInt 4]; [CInt 5]; [CInt 6]] |}.

Definition six_and_scenario : heap :=
  [six_rows; scenario_production; scenario_reservations].

(** The text of the [except] branch of [ask_llm_simple]. *)
Definition error_text (e : exception) : string :=
  String.concat EmptyString ["Error querying LLM: "; e].

(** An entry of [tables_of] whose table is not [None]. *)
Definition given {A : Type} (kv : string * option A) : bool :=
  match snd kv with
  | Some _ => true
  | None => false
  end.

(** A table with a column and no row. *)
Definition no_rows : DataFrame := {| columns := ["MATNR"]; rows := [] |}.

(* ================================================================= *)
(** ** The page: [main]

    One run of the script.  The values of the input widgets arrive as a
    record; an uploaded file is given by what [pd.read_excel] makes of it.
    The run works on the heap of frames, on [st.session_state] and on the
    page, the list of elements put on display so far.  Layout containers
    ([st.tabs], [st.columns], [st.spinner]) and the drawing of the input
    widgets are not recorded. *)

Inductive upload : Type :=
| Workbook (d : DataFrame)
| Unreadable (description : exception).

Record widgets : Type := {
  sales_file : option upload;
  production_file : option upload;
  reservations_file : option upload;
  analysis_type : string;
  material_code_input : string;
  analyze_button : bool;
  user_query_input : string;
  ask_button : bool
}.

Inductive element : Type :=
| st_title (body : string)
| st_markdown (body : string)
| st_subheader (body : string)
| st_success (body : string)
| st_info (body : string)
| st_error (body : string)
| st_warning (body : string)
| st_text (body : string)
| st_write (body : string)
| st_dataframe (df : ref)
| st_table (df : ref)
| st_metric (label : string) (value : Z).

Record session : Type := {
  objects : heap;
  session_state : dict (option ref);
  page : list element
}.

(** What can leave a run: [re.error] from the filter, or another
    exception, kept by its description. *)
Definition failure : Type := (regex_error + exception)%type.

Definition App (A : Type) : Type :=
  session -> option (result failure A * session).

Definition app_ret {A : Type} (a : A) : App A := fun s => Some (Ok a, s).

Definition app_bind {A B : Type} (m : App A) (k : A -> App B) : App B :=
  fun s =>
    match m s with
    | Some (Ok a, s') => k a s'
    | Some (Raise e, s') => Some (Raise e, s')
    | None => None
    end.

Notation "x <~ m ;; k" := (app_bind m (fun x => k))
  (at level 61, m at next level, right associativity).

Notation "m >> k" := (app_bind m (fun _ => k))
  (at level 61, right associativity).

Definition app_raise {A : Type} (e : failure) : App A :=
  fun s => Some (Raise e, s).

Definition stuck {A : Type} : App A := fun _ => None.

(** [try: body except Exception as e: handler(e)] *)
Definition app_try {A : Type} (body : App A) (handler : failure -> App A) : App A :=
  fun s =>
    match body s with
    | Some (Raise e, s') => handler e s'
    | other => other
    end.

Definition lift_M {A : Type} (m : M A) : App A :=
  fun s =>
    match m (objects s) with
    | Some (Ok a, h) =>
        Some (Ok a, {| objects := h; session_state := session_state s; page := page s |})
    | Some (Raise e, h) =>
        Some (Raise (inl e),
              {| objects := h; session_state := session_state s; page := page s |})
    | None => None
    end.

Definition lift_client {A : Type} (r : result exception A) : App A :=
  match r with
  | Ok a => app_ret a
  | Raise e => app_raise (inr e)
  end.

Definition show (e : element) : App unit :=
  fun s => Some (Ok tt, {| objects := objects s; session_state := session_state s;
                           page := page s ++ [e] |}).

(** [st.session_state.<key>] *)
Definition state_get (key : string) : App (option ref) :=
  fun s => match dict_get key (session_state s) with
           | Some v => Some (Ok v, s)
           | None => None
           end.

(** [st.session_state.<key> = v] *)
Definition state_set (key : string) (v : option ref) : App unit :=
  fun s => Some (Ok tt, {| objects := objects s;
                           session_state := dict_set key v (session_state s);
                           page := page s |}).

(** [key in st.session_state] *)
Definition state_has (key : string) : App bool :=
  fun s => Some (Ok (match dict_get key (session_state s) with
                     | Some _ => true
                     | None => false
                     end), s).

(** A slot of the session used as a frame; the code only does so where the
    slot is not [None]. *)
Definition frame_of (key : string) : App ref :=
  v <~ state_get key ;;
  match v with
  | Some df => app_ret df
  | None => stuck
  end.

(** [st.session_state.<key>.shape] *)
Definition shape_at (key : string) : App (Z * Z) :=
  df <~ frame_of key ;; lift_M (df_shape df).

(** [repr] of the tuple [df.shape]. *)
Definition py_repr_shape (shape : Z * Z) : string :=
  String.concat EmptyString ["("; py_int (fst shape); ", "; py_int (snd shape); ")"].

(** [pd.read_excel(file)] *)
Definition read_excel (file : upload) : App ref :=
  match file with
  | Workbook d => lift_M (new d)
  | Unreadable description => app_raise (inr description)
  end.

Definition is_some {A : Type} (o : option A) : bool :=
  match o with
  | Some _ => true
  | None => false
  end.

(** [if key not in st.session_state: st.session_state.<key> = None] *)
Definition init_state (key : string) : App unit :=
  present <~ state_has key ;;
  if present then app_ret tt else state_set key None.

(** One of the three upload columns; [name] is "Sales", [lower] is
    "sales", and so on. *)
Definition upload_block (name lower key : string) (file : option upload)
    : App unit :=
  show (st_subheader (String.concat EmptyString [name; " Data"])) >>
  match file with
  | Some f =>
      app_try
        (df <~ read_excel f ;;
         state_set key (Some df) >>
         show (st_success
                 (String.concat EmptyString [name; " file loaded successfully!"])) >>
         shape <~ shape_at key ;;
         show (st_info (String.concat EmptyString ["Shape: "; py_repr_shape shape])))
        (fun e =>
           match e with
           | inr description =>
               show (st_error
                       (String.concat EmptyString
                          ["Error loading "; lower; " file: "; description]))
           | inl _ => stuck
           end)
  | None => app_ret tt
  end.

(** One of the three "Display DataFrames if they exist" blocks. *)
Definition display_block (name key : string) : App unit :=
  v <~ state_get key ;;
  if is_some v then
    show (st_subheader (String.concat EmptyString [name; " DataFrame"])) >>
    df <~ frame_of key ;;
    show (st_dataframe df) >>
    shape <~ shape_at key ;;
    show (st_text (String.concat EmptyString
                     [name; " DataFrame shape: "; py_repr_shape shape]))
  else app_ret tt.

(** [all([st.session_state.sales_df is not None, ...])] *)
Definition all_loaded : App bool :=
  a <~ state_get "sales_df" ;;
  b <~ state_get "production_df" ;;
  c <~ state_get "reservations_df" ;;
  app_ret (is_some a && is_some b && is_some c).

Definition summary_frame (r1 r2 r3 c1 c2 c3 : Z) : DataFrame :=
  {| columns := ["DataFrame"; "Rows"; "Columns"];
     rows := [[CStr "Sales"; CInt r1; CInt c1];
              [CStr "Production"; CInt r2; CInt c2];
              [CStr "Reservations"; CInt r3; CInt c3]] |}.

Definition summary_block : App unit :=
  show (st_markdown "---") >>
  show (st_success "All three DataFrames have been created successfully!") >>
  show (st_subheader "Summary") >>
  r1 <~ shape_at "sales_df" ;;
  r2 <~ shape_at "production_df" ;;
  r3 <~ shape_at "reservations_df" ;;
  c1 <~ shape_at "sales_df" ;;
  c2 <~ shape_at "production_df" ;;
  c3 <~ shape_at "reservations_df" ;;
  summary_df <~ lift_M (new (summary_frame (fst r1) (fst r2) (fst r3)
                               (snd c1) (snd c2) (snd c3))) ;;
  show (st_table summary_df).

(** The body of [with tab1:]. *)
Definition data_loading (w : widgets) : App unit :=
  show (st_markdown "---") >>
  upload_block "Sales" "sales" "sales_df" (sales_file w) >>
  upload_block "Production" "production" "production_df" (production_file w) >>
  upload_block "Reservations" "reservations" "reservations_df" (reservations_file w) >>
  show (st_markdown "---") >>
  display_block "Sales" "sales_df" >>
  display_block "Production" "production_df" >>
  display_block "Reservations" "reservations_df" >>
  complete <~ all_loaded ;;
  if complete then summary_block else app_ret tt.

(** One of the three "Show detailed data if available" blocks. *)
Definition detail_block (name key entry material_code : string)
    (analysis_data : dict match_set) : App unit :=
  if (0 <? get_count entry analysis_data)%Z then
    show (st_subheader (String.concat EmptyString [name; " Data for Material"])) >>
    df <~ frame_of key ;;
    filtered <~ lift_M (matching_rows material_code df) ;;
    show (st_dataframe filtered)
  else app_ret tt.

Definition need_tables : string :=
  "Please load all three Excel files in the 'Data Loading' tab before using the analysis features.".

Section Page.

Variables client llm : Type.
Variable ChatOpenAI : string -> client -> result exception llm.
Variable invoke_content : llm -> string -> result exception string.

(** The global [proxy_client] of the module. *)
Variable proxy_client : option client.

(** The body of [with st.spinner("Analyzing material data..."):]. *)
Definition material_analysis (material_code : string) : App unit :=
  sales_df <~ state_get "sales_df" ;;
  production_df <~ state_get "production_df" ;;
  reservations_df <~ state_get "reservations_df" ;;
  analysis_data <~ lift_M (analyze_material_data material_code
                             sales_df production_df reservations_df) ;;
  sales_df <~ state_get "sales_df" ;;
  production_df <~ state_get "production_df" ;;
  reservations_df <~ state_get "reservations_df" ;;
  prompt <~ lift_M (create_analysis_prompt material_code analysis_data
                      sales_df production_df reservations_df) ;;
  ai_response <~ lift_client (ask_llm_simple client llm ChatOpenAI invoke_content
                                proxy_client prompt) ;;
  show (st_subheader (String.concat EmptyString
                        ["Analysis Results for Material: "; material_code])) >>
  show (st_metric "Sales Records" (get_count "sales" analysis_data)) >>
  show (st_metric "Production Records" (get_count "production" analysis_data)) >>
  show (st_metric "Reservation Records" (get_count "reservations" analysis_data)) >>
  show (st_subheader "AI Analysis") >>
  show (st_write ai_response) >>
  detail_block "Sales" "sales_df" "sales" material_code analysis_data >>
  detail_block "Production" "production_df" "production" material_code analysis_data >>
  detail_block "Reservations" "reservations_df" "reservations" material_code
    analysis_data.

(** The body of [with st.spinner("Analyzing your query..."):]. *)
Definition general_query (user_query : string) : App unit :=
  sales_df <~ frame_of "sales_df" ;;
  production_df <~ frame_of "production_df" ;;
  reservations_df <~ frame_of "reservations_df" ;;
  prompt <~ lift_M (general_prompt user_query sales_df production_df reservations_df) ;;
  ai_response <~ lift_client (ask_llm_simple client llm ChatOpenAI invoke_content
                                proxy_client prompt) ;;
  show (st_subheader "AI Response") >>
  show (st_write ai_response).

(** The body of [with tab2:]. *)
Definition data_analysis (w : widgets) : App unit :=
  show (st_subheader "AI-Powered Data Analysis") >>
  complete <~ all_loaded ;;
  if negb complete then show (st_warning need_tables)
  else
    show (st_markdown "---") >>
    if String.eqb (analysis_type w) "Material Analysis" then
      show (st_subheader "Material-Specific Analysis") >>
      show (st_write "Enter a material code to get comprehensive analysis across sales, production, and reservations data.") >>
      if analyze_button w then
        if negb (String.eqb (material_code_input w) EmptyString)
        then material_analysis (material_code_input w)
        else show (st_error "Please enter a material code to analyze.")
      else app_ret tt
    else if String.eqb (analysis_type w) "General Query" then
      show (st_subheader "General Data Analysis") >>
      show (st_write "Ask any question about your sales, production, and reservations data.") >>
      if ask_button w then
        if negb (String.eqb (user_query_input w) EmptyString)
        then general_query (user_query_input w)
        else show (st_error "Please enter a question to analyze.")
      else app_ret tt
    else app_ret tt.

Definition main (w : widgets) : App unit :=
  show (st_title "Excel File Loader - Sales, Production & Reservations") >>
  init_state "sales_df" >>
  init_state "production_df" >>
  init_state "reservations_df" >>
  data_loading w >>
  data_analysis w.

End Page.

(** *** Notions used to state the properties of [main] *)

(** The run from [s] ends, with a result and a session that satisfy [Q]. *)
Definition wp {A : Type} (m : App A) (s : session)
    (Q : result failure A -> session -> Prop) : Prop :=
  match m s with
  | Some (r, s') => Q r s'
  | None => False
  end.

(** Whatever way the run ends, the sessions before and after are in [R]. *)
Definition preserves {A : Type} (R : session -> session -> Prop) (m : App A)
    : Prop :=
  forall s r s', m s = Some (r, s') -> R s s'.

(** A computation on the heap that only adds frames. *)
Definition mgrows {A : Type} (m : M A) : Prop :=
  forall h r h', m h = Some (r, h') -> exists g, h' = h ++ g.

(** [s'] follows [s]: frames and page elements were added, none changed. *)
Definition follows (s s' : session) : Prop :=
  (exists g, objects s' = objects s ++ g)
  /\ (exists es, page s' = page s ++ es).

(** [s'] follows [s] and the slots of [st.session_state] are the same. *)
Definition steady (s s' : session) : Prop :=
  follows s s' /\ session_state s' = session_state s.

(** The table a slot holds, [None] also when the key is not there yet. *)
Definition slot (key : string) (s : session) : option ref :=
  match dict_get key (session_state s) with
  | Some v => v
  | None => None
  end.

(** The three roles: key of the slot, name in the messages, uploaded file. *)
Definition roles (w : widgets) : list (string * string * option upload) :=
  [("sales_df", "sales", sales_file w);
   ("production_df", "production", production_file w);
   ("reservations_df", "reservations", reservations_file w)].

(** The slot [key] holds a reference to the frame [T]. *)
Definition holds (s : session) (key : string) (T : DataFrame) : Prop :=
  exists df, dict_get key (session_state s) = Some (Some df)
             /\ nth_error (objects s) df = Some T.

(** [st.session_state] after [if key not in st.session_state: ... = None]. *)
Definition ensure (key : string) (state : dict (option ref)) : dict (option ref) :=
  match dict_get key state with
  | Some _ => state
  | None => dict_set key None state
  end.

(** The session once the title is shown and the three slots exist. *)
Definition started (s : session) : session :=
  {| objects := objects s;
     session_state :=
       ensure "reservations_df"
         (ensure "production_df" (ensure "sales_df" (session_state s)));
     page := page s ++ [st_title "Excel File Loader - Sales, Production & Reservations"] |}.

(** The messages of an upload column. *)
Definition load_error (lower : string) (description : exception) : element :=
  st_error (String.concat EmptyString
              ["Error loading "; lower; " file: "; description]).

(** What an upload does to its slot, as seen at the end of the run. *)
Definition upload_effect (s s' : session) (key lower : string)
    (file : option upload) : Prop :=
  match file with
  | None => dict_get key (session_state s') = Some (slot key s)
  | Some (Unreadable description) =>
      dict_get key (session_state s') = Some (slot key s)
      /\ In (load_error lower description) (page s')
  | Some (Workbook d) =>
      exists df,
        dict_get key (session_state s') = Some (Some df)
        /\ nth_error (objects s') df = Some d
        /\ List.length (objects s) <= df
  end.

(** A session with the three tables of the scenario loaded, and runs of
    the page on it. *)
Definition loaded_session : session :=
  {| objects := scenario;
     session_state := [("sales_df", Some 0); ("production_df", Some 1);
                       ("reservations_df", Some 2)];
     page := [] |}.

Definition idle : widgets :=
  {| sales_file := None; production_file := None; reservations_file := None;
     analysis_type := "Material Analysis"; material_code_input := EmptyString;
     analyze_button := false; user_query_input := EmptyString;
     ask_button := false |}.

Definition echo_main : widgets -> App unit :=
  main unit unit (fun _ _ => Ok tt) echo_service (Some tt).

Definition unreadable_sales : widgets :=
  {| sales_file := Some (Unreadable "File is not a zip file");
     production_file := None; reservations_file := None;
     analysis_type := "Material Analysis"; material_code_input := EmptyString;
     analyze_button := false; user_query_input := EmptyString;
     ask_button := false |}.

Definition new_production : widgets :=
  {| sales_file := None;
     production_file := Some (Workbook six_rows); reservations_file := None;
     analysis_type := "Material Analysis"; material_code_input := EmptyString;
     analyze_button := false; user_query_input := EmptyString;
     ask_button := false |}.

Definition slot_keys : list string := ["sales_df"; "production_df"; "reservations_df"].

(** Every table a slot refers to is a frame of the heap. *)
Definition slots_live (s : session) : bool :=
  forallb (fun key => live (objects s) (slot key s)) slot_keys.

(** The two elements the analysis tab shows when a table is missing. *)
Definition refusal : list element :=
  [st_subheader "AI-Powered Data Analysis"; st_warning need_tables].

(** What one upload column does to the value of its slot: [v] before the
    loading tab, [v'] after it. *)
Definition slot_effect (s0 s5 : session) (lower : string) (file : option upload)
    (v v' : option ref) : Prop :=
  match file with
  | Some (Workbook d) =>
      exists df, v' = Some df /\ nth_error (objects s5) df = Some d
                 /\ List.length (objects s0) <= df
  | Some (Unreadable description) =>
      v' = v /\ In (load_error lower description) (page s5)
  | None => v' = v
  end.

(** A session in which only the production table is loaded, and widgets
    that ask for an analysis of [M1]. *)
Definition partly_loaded : session :=
  {| objects := scenario;
     session_state := [("production_df", Some 1)];
     page := [] |}.

Definition ask_M1 : widgets :=
  {| sales_file := None; production_file := None; reservations_file := None;
     analysis_type := "Material Analysis"; material_code_input := "M1";
     analyze_button := true; user_query_input := EmptyString;
     ask_button := false |}.

(** The frame with the rows of [T] that the token selects. *)
Definition selection (t : string) (T : DataFrame) : DataFrame :=
  {| columns := columns T; rows := filter (selected t) (rows T) |}.

(** The elements the analysis tab shows before it branches. *)
Definition material_header : list element :=
  [st_subheader "AI-Powered Data Analysis"; st_markdown "---";
   st_subheader "Material-Specific Analysis";
   st_write "Enter a material code to get comprehensive analysis across sales, production, and reservations data."].

Definition general_header : list element :=
  [st_subheader "AI-Powered Data Analysis"; st_markdown "---";
   st_subheader "General Data Analysis";
   st_write "Ask any question about your sales, production, and reservations data."].

(** The results of a material analysis: the counts and the reply. *)
Definition results_elements (material_code : string) (sales production reservations : Z)
    (ai_response : string) : list element :=
  [st_subheader (String.concat EmptyString
                   ["Analysis Results for Material: "; material_code]);
   st_metric "Sales Records" sales;
   st_metric "Production Records" production;
   st_metric "Reservation Records" reservations;
   st_subheader "AI Analysis";
   st_write ai_response].

(** The detail table of a role, shown when its count is positive. *)
Definition detail_elements (name : string) (n : Z) (filtered : ref) : list element :=
  if (0 <? n)%Z
  then [st_subheader (String.concat EmptyString [name; " Data for Material"]);
        st_dataframe filtered]
  else [].

(** The number of rows of [T] that the token selects. *)
Definition hits (t : string) (T : DataFrame) : Z :=
  Z.of_nat (List.length (filter (selected t) (rows T))).

(** Widgets for the scenarios of the analysis tab. *)
Definition ask_nothing : widgets :=
  {| sales_file := None; production_file := None; reservations_file := None;
     analysis_type := "Material Analysis"; material_code_input := EmptyString;
     analyze_button := true; user_query_input := EmptyString;
     ask_button := false |}.

Definition ask_open_paren : widgets :=
  {| sales_file := None; production_file := None; reservations_file := None;
     analysis_type := "Material Analysis"; material_code_input := "(";
     analyze_button := true; user_query_input := EmptyString;
     ask_button := false |}.

Definition ask_question : widgets :=
  {| sales_file := None; production_file := None; reservations_file := None;
     analysis_type := "General Query"; material_code_input := EmptyString;
     analyze_button := false; user_query_input := "Which orders are late?";
     ask_button := true |}.

Definition ask_no_question : widgets :=
  {| sales_file := None; production_file := None; reservations_file := None;
     analysis_type := "General Query"; material_code_input := EmptyString;
     analyze_button := false; user_query_input := EmptyString;
     ask_button := true |}.

Definition echo_analysis : widgets -> App unit :=
  data_analysis unit unit (fun _ _ => Ok tt) echo_service (Some tt).

(** What the loading tab shows before the loaded tables when no file is
    uploaded: the rule, the titles of the three upload columns, the rule. *)
Definition loading_header : list element :=
  [st_markdown "---"; st_subheader "Sales Data"; st_subheader "Production Data";
   st_subheader "Reservations Data"; st_markdown "---"].

(** What the loading tab shows of a loaded table. *)
Definition shown_table (name : string) (df : ref) (T : DataFrame) : list element :=
  [st_subheader (String.concat EmptyString [name; " DataFrame"]);
   st_dataframe df;
   st_text (String.concat EmptyString
              [name; " DataFrame shape: "; py_repr_shape (shape_of T)])].

(** The summary of the loading tab, [summary_df] being the table shown. *)
Definition summary_elements (summary_df : ref) : list element :=
  [st_markdown "---";
   st_success "All three DataFrames have been created successfully!";
   st_subheader "Summary"; st_table summary_df].




(** A sales table in which the code M1 is in the first, third and fifth
    row, in different cases, with missing cells and a blank row. *)
Definition mixed_rows : DataFrame :=
  {| columns := ["MATNR"; "KWMENG"];
     rows := [[CStr "M1"; CInt 10];
              [CStr "X2"; CNaN];
              [CStr "m1-b"; CNaN];
              [CNaN; CNaN];
              [CStr "AM10"; CInt 7]] |}.

Definition mixed : heap :=
  [mixed_rows; scenario_production; scenario_reservations].

(* ================================================================= *)
(** * Properties *)

(** ** The matcher agrees with the denotation *)

Lemma nullable_spec r : nullable r = true <-> Matches r [].
Proof.
  induction r; simpl.
  - split; [discriminate | inversion 1].
  - split; [constructor | reflexivity].
  - split; [discriminate | inversion 1].
  - rewrite andb_true_iff, IHr1, IHr2. split.
    + intros [H1 H2]. change (@nil ascii) with (@nil ascii ++ []). now constructor.
    + inversion 1 as [| |a b s t Ha Hb Hab Hst| | | |]; subst.
      apply app_eq_nil in Hst as [-> ->]. now split.
  - rewrite orb_true_iff, IHr1, IHr2. split.
    + intros [H | H]; [now apply MLeft | now apply MRight].
    + inversion 1; subst; [now left | now right].
  - split; [constructor | reflexivity].
Qed.

Lemma Matches_repeat_cons a x s :
  Matches (Repeat a) (x :: s) ->
  exists s1 s2, s = s1 ++ s2 /\ Matches a (x :: s1) /\ Matches (Repeat a) s2.
Proof.
  intros H. remember (Repeat a) as r eqn:Er. remember (x :: s) as w eqn:Ew.
  revert s Ew.
  induction H as [| | | | | |a' u t Hu _ Ht IHt]; intros s' Ew; try discriminate.
  injection Er as ->.
  destruct u as [|y u].
  - simpl in Ew. now apply IHt.
  - simpl in Ew. injection Ew as -> <-. now exists u, t.
Qed.

Lemma deriv_spec x r : forall s, Matches (deriv x r) s <-> Matches r (x :: s).
Proof.
  induction r as [| |cs|a IHa b IHb|a IHa b IHb|a IHa]; intros s; simpl.
  - split; inversion 1.
  - split; inversion 1.
  - destruct (char_set_mem cs x) eqn:E; split; intros H.
    + inversion H; subst. now constructor.
    + inversion H; subst. constructor.
    + inversion H.
    + inversion H; subst. congruence.
  - assert (Hcat : Matches (Seq (deriv x a) b) s ->
                   Matches (Seq a b) (x :: s)).
    { inversion 1 as [| |? ? u t Hu Ht| | | |]; subst.
      change (x :: u ++ t) with ((x :: u) ++ t).
      constructor; [now apply IHa | assumption]. }
    assert (Hsplit : Matches (Seq a b) (x :: s) ->
                     Matches (Seq (deriv x a) b) s
                     \/ (Matches a [] /\ Matches b (x :: s))).
    { inversion 1 as [| |? ? u t Hu Ht Hab Hst| | | |]; subst.
      destruct u as [|y u]; simpl in Hst.
      - subst t. now right.
      - injection Hst as -> <-. left. constructor; [now apply IHa | assumption]. }
    destruct (nullable a) eqn:Na.
    + split.
      * inversion 1; subst; [now apply Hcat|].
        change (x :: s) with ([] ++ x :: s).
        constructor; [now apply nullable_spec | now apply IHb].
      * intros H. destruct (Hsplit H) as [H' | [_ H']].
        -- now apply MLeft.
        -- apply MRight. now apply IHb.
    + split; [exact Hcat|].
      intros H. destruct (Hsplit H) as [H' | [H' _]]; [assumption|].
      apply nullable_spec in H'. congruence.
  - split.
    + inversion 1; subst; [apply MLeft; now apply IHa | apply MRight; now apply IHb].
    + inversion 1; subst; [apply MLeft; now apply IHa | apply MRight; now apply IHb].
  - split.
    + inversion 1 as [| |? ? u t Hu Ht| | | |]; subst.
      change (x :: u ++ t) with ((x :: u) ++ t).
      constructor; [now apply IHa | assumption].
    + intros H. apply Matches_repeat_cons in H as (u & t & -> & Hu & Ht).
      constructor; [now apply IHa | assumption].
Qed.

Lemma fullmatch_spec s : forall r, fullmatch r s = true <-> Matches r s.
Proof.
  induction s as [|x s IH]; intros r; simpl.
  - apply nullable_spec.
  - rewrite IH. apply deriv_spec.
Qed.

Lemma Matches_anything s : Matches anything s.
Proof.
  induction s as [|x s IH].
  - constructor.
  - change (x :: s) with ([x] ++ s). constructor; [now constructor | exact IH].
Qed.

(** [search] succeeds exactly when some substring is matched. *)
Lemma re_search_spec r s :
  re_search r s = true <->
  exists pre m post, chars s = pre ++ m ++ post /\ Matches r m.
Proof.
  unfold re_search. rewrite fullmatch_spec. split.
  - inversion 1 as [| |? ? pre rest _ Hrest| | | |]; subst.
    inversion Hrest as [| |? ? m post Hm _| | | |]; subst.
    now exists pre, m, post.
  - intros (pre & m & post & -> & Hm).
    constructor; [apply Matches_anything|].
    constructor; [assumption | apply Matches_anything].
Qed.

(** ** Literal tokens *)

Lemma not_special c :
  is_special c = false ->
  Ascii.eqb c "\" = false /\ Ascii.eqb c "." = false /\
  Ascii.eqb c "(" = false /\ Ascii.eqb c ")" = false /\
  Ascii.eqb c "|" = false /\ Ascii.eqb c "*" = false /\
  Ascii.eqb c "+" = false /\ Ascii.eqb c "?" = false.
Proof.
  unfold is_special, special_chars. simpl.
  rewrite !orb_false_iff. tauto.
Qed.

Lemma parse_literals ignorecase p : forall top stack,
  forallb (fun c => negb (is_special c)) p = true ->
  parse ignorecase p top stack = parse ignorecase [] (push_literals ignorecase p top) stack.
Proof.
  induction p as [|c p IH]; intros top stack Hp; [reflexivity|].
  simpl in Hp. apply andb_true_iff in Hp as [Hc Hp].
  apply negb_true_iff in Hc.
  destruct (not_special c Hc) as (E1 & E2 & E3 & E4 & E5 & E6 & E7 & E8).
  cbn [parse]. rewrite E1, E2, E3, E4, E5, E6, E7, E8, Hc. cbn [orb].
  rewrite IH by assumption. reflexivity.
Qed.

Lemma push_literals_frame ignorecase p : forall f,
  push_literals ignorecase p f =
  {| alts := alts f;
     cur := rev (map (fun c => (Chars (Literal ignorecase c), false)) p) ++ cur f |}.
Proof.
  induction p as [|c p IH]; intros f; simpl.
  - now destruct f.
  - unfold push_literals in *. simpl. rewrite IH. simpl.
    now rewrite <- app_assoc.
Qed.

Lemma seq_of_rev items :
  seq_of (rev items) = fold_right (fun it acc => Seq (fst it) acc) Empty items.
Proof.
  unfold seq_of. now rewrite <- fold_left_rev_right, rev_involutive.
Qed.

(** A token without special characters compiles, to the sequence of its
    characters. *)
Lemma re_compile_literal t :
  is_literal t = true ->
  re_compile t true = Some (Ok (literal_pattern (chars t))).
Proof.
  intros Ht. unfold re_compile.
  rewrite parse_literals by exact Ht.
  rewrite push_literals_frame. simpl. rewrite app_nil_r.
  unfold close. simpl. rewrite seq_of_rev.
  do 2 f_equal. unfold literal_pattern.
  induction (chars t) as [|c l IH]; simpl; [reflexivity | now rewrite IH].
Qed.

Lemma Matches_literal t : forall m,
  Matches (literal_pattern t) m <->
  List.length m = List.length t /\ prefix_ci t m = true.
Proof.
  induction t as [|c t IH]; intros m; simpl.
  - split.
    + inversion 1. now split.
    + intros [Hl _]. destruct m; [constructor | discriminate].
  - split.
    + inversion 1 as [| |? ? u v Hu Hv| | | |]; subst.
      inversion Hu as [|? x Hx| | | | |]; subst. simpl in *.
      apply IH in Hv as [Hl Hp]. split; [now rewrite Hl|].
      rewrite Hp, andb_true_r.
      rewrite Ascii.eqb_sym. exact Hx.
    + intros [Hl Hp]. destruct m as [|x m]; [discriminate|].
      apply andb_true_iff in Hp as [Hx Hp].
      change (x :: m) with ([x] ++ m). constructor.
      * constructor. simpl. now rewrite Ascii.eqb_sym.
      * apply IH. split; [now injection Hl | assumption].
Qed.

Lemma prefix_ci_app p m : forall post,
  List.length m = List.length p ->
  prefix_ci p (m ++ post) = prefix_ci p m.
Proof.
  revert m. induction p as [|a p IH]; intros m post Hl; [reflexivity|].
  destruct m as [|b m]; [discriminate|]. simpl.
  now rewrite IH by (now injection Hl).
Qed.

Lemma prefix_ci_split p : forall s,
  prefix_ci p s = true ->
  exists m post, s = m ++ post /\ List.length m = List.length p /\ prefix_ci p m = true.
Proof.
  induction p as [|a p IH]; intros s H.
  - now exists [], s.
  - destruct s as [|b s]; [discriminate|]. simpl in H.
    apply andb_true_iff in H as [Hab H].
    destruct (IH s H) as (m & post & -> & Hl & Hm).
    exists (b :: m), post. simpl. rewrite Hab, Hm, Hl. now repeat split.
Qed.

Lemma infix_ci_spec p s :
  infix_ci p s = true <->
  exists pre m post,
    s = pre ++ m ++ post /\ List.length m = List.length p /\ prefix_ci p m = true.
Proof.
  induction s as [|x s IH].
  - simpl. rewrite orb_false_r. split.
    + intros H. destruct (prefix_ci_split p [] H) as (m & post & E & Hl & Hm).
      now exists [], m, post.
    + intros (pre & m & post & E & Hl & Hm).
      symmetry in E. apply app_eq_nil in E as [-> E].
      apply app_eq_nil in E as [-> ->]. exact Hm.
  - simpl. rewrite orb_true_iff, IH. split.
    + intros [H | (pre & m & post & -> & Hl & Hm)].
      * destruct (prefix_ci_split p _ H) as (m & post & E & Hl & Hm).
        now exists [], m, post.
      * now exists (x :: pre), m, post.
    + intros (pre & m & post & E & Hl & Hm).
      destruct pre as [|y pre]; simpl in E.
      * left. rewrite E. now rewrite prefix_ci_app.
      * injection E as -> ->. right. now exists pre, m, post.
Qed.

(** For a literal token the compiled search is the case-insensitive
    substring test. *)
Lemma re_search_literal t s :
  re_search (literal_pattern (chars t)) s = contains_ci t s.
Proof.
  apply eq_true_iff_eq. unfold contains_ci.
  rewrite re_search_spec, infix_ci_spec.
  split; intros (pre & m & post & E & H); exists pre, m, post; (split; [exact E|]).
  - now apply Matches_literal.
  - now apply Matches_literal.
Qed.

(** ** The pandas pipeline of the filter, on values *)

Lemma map_seq_nth {B : Type} (f : cell -> B) (r : list cell) :
  map (fun j => f (nth j r CNaN)) (seq 0 (List.length r)) = map f r.
Proof.
  induction r as [|c r IH]; [reflexivity|].
  simpl. f_equal. rewrite <- seq_shift, map_map. exact IH.
Qed.

Lemma transpose_back (g : nat -> list cell -> cell) (idx : list nat) rs :
  map (fun i => map (fun j => nth i (map (g j) rs) CNaN) idx)
      (seq 0 (List.length rs))
  = map (fun r => map (fun j => g j r) idx) rs.
Proof.
  induction rs as [|r rs IH]; [reflexivity|].
  simpl. f_equal. rewrite <- seq_shift, map_map. exact IH.
Qed.

Lemma collect_ok {A J : Type} (F : J -> A) (l : list J) :
  collect (map (fun j => Some (Ok (F j))) l) = Some (Ok (map F l)).
Proof.
  induction l as [|j l IH]; [reflexivity|]. simpl. now rewrite IH.
Qed.

Lemma existsb_map {A B : Type} (f : A -> B) (p : B -> bool) (l : list A) :
  existsb p (map f l) = existsb (fun a => p (f a)) l.
Proof.
  induction l as [|a l IH]; [reflexivity|]. simpl. now rewrite IH.
Qed.

Lemma select_filter (p : list cell -> bool) rs :
  select (map (fun r => CBool (p r)) rs) rs = filter p rs.
Proof.
  induction rs as [|r rs IH]; [reflexivity|].
  simpl. rewrite IH. reflexivity.
Qed.

Lemma rectangular_row d r :
  rectangular d = true -> In r (rows d) -> List.length r = ncols d.
Proof.
  unfold rectangular. rewrite forallb_forall. intros H Hr.
  now apply Nat.eqb_eq, H.
Qed.

Lemma no_cells_rows d :
  rectangular d = true -> no_cells d = true -> forall r, In r (rows d) -> r = [].
Proof.
  intros Hd He r Hr. unfold no_cells in He. apply orb_true_iff in He as [E | E].
  - apply Nat.eqb_eq in E. unfold nrows in E.
    apply length_zero_iff_nil in E. rewrite E in Hr. destruct Hr.
  - apply Nat.eqb_eq in E. apply length_zero_iff_nil.
    now rewrite (rectangular_row d r Hd Hr).
Qed.

Lemma column_is_str j d : forallb is_str (column j (astype_str d)) = true.
Proof.
  unfold column, astype_str. simpl. rewrite map_map.
  apply forallb_forall. intros c Hc. apply in_map_iff in Hc as (r & <- & _).
  destruct (Nat.lt_ge_cases j (List.length (map (fun c => CStr (cell_str c)) r))) as [Hj | Hj].
  - pose proof (nth_In _ CNaN Hj) as Hin.
    apply in_map_iff in Hin as (c & <- & _). reflexivity.
  - now rewrite nth_overflow.
Qed.

Lemma apply_contains t d :
  rectangular d = true ->
  frame_apply (fun x => str_contains x (py_str t) false false) (astype_str d) =
  if no_cells d then Some (Ok (astype_str d))
  else
    match re_compile t true with
    | Some (Ok re) => Some (Ok (hit_frame re d))
    | Some (Raise e) => Some (Raise e)
    | None => None
    end.
Proof.
  intros Hd. unfold frame_apply, no_cells.
  assert (En : nrows (astype_str d) = nrows d)
    by (unfold nrows, astype_str; simpl; apply length_map).
  change (ncols (astype_str d)) with (ncols d). rewrite En.
  destruct ((nrows d =? 0) || (ncols d =? 0)) eqn:E; [reflexivity|].
  apply orb_false_iff in E as [_ Ec]. apply Nat.eqb_neq in Ec.
  unfold str_contains, py_str. simpl negb.
  destruct (re_compile t true) as [[re | e] |] eqn:Ecomp.
  - erewrite map_ext; [| intros j; rewrite column_is_str; reflexivity].
    unfold outcome, Series. rewrite collect_ok. do 2 f_equal.
    unfold of_columns, hit_frame. change (columns (astype_str d)) with (columns d).
    f_equal. rewrite <- En. unfold nrows.
    transitivity
      (map (fun r => map (fun j => match nth j r CNaN with
                                   | CStr s => CBool (re_search re s)
                                   | _ => CBool false
                                   end) (seq 0 (ncols d)))
           (rows (astype_str d))).
    + rewrite <- transpose_back.
      apply map_ext. intros i. rewrite map_map.
      apply map_ext. intros j. unfold column. now rewrite map_map.
    + unfold astype_str. simpl. rewrite map_map.
      apply map_ext_in. intros r Hr.
      rewrite <- (rectangular_row d r Hd Hr).
      rewrite <- (length_map (fun c => CStr (cell_str c)) r).
      rewrite (map_seq_nth (fun c => match c with
                                     | CStr s => CBool (re_search re s)
                                     | _ => CBool false
                                     end)).
      now rewrite map_map.
  - destruct (ncols d) as [|n]; [congruence|]. simpl.
    now rewrite column_is_str.
  - destruct (ncols d) as [|n]; [congruence|]. simpl.
    now rewrite column_is_str.
Qed.

Lemma any_hit_frame re d :
  any_axis1 (hit_frame re d) = Some (Ok (map (fun r => CBool (row_hit re r)) (rows d))).
Proof.
  unfold any_axis1, hit_frame. simpl.
  replace (forallb _ _) with true.
  - do 2 f_equal. rewrite map_map. apply map_ext. intros r.
    unfold row_hit. now rewrite existsb_map.
  - symmetry. apply forallb_forall. intros r Hr.
    apply in_map_iff in Hr as (r' & <- & _).
    apply forallb_forall. intros c Hc. apply in_map_iff in Hc as (c' & <- & _).
    reflexivity.
Qed.

Lemma any_no_cells d :
  rectangular d = true -> no_cells d = true ->
  any_axis1 (astype_str d) = Some (Ok (map (fun _ => CBool false) (rows d))).
Proof.
  intros Hd He. pose proof (no_cells_rows d Hd He) as Hrows.
  unfold any_axis1, astype_str. simpl.
  replace (forallb _ _) with true.
  - do 2 f_equal. rewrite map_map. apply map_ext_in. intros r Hr.
    now rewrite (Hrows r Hr).
  - symmetry. apply forallb_forall. intros r Hr.
    apply in_map_iff in Hr as (r' & <- & Hr'). now rewrite (Hrows r' Hr').
Qed.

Lemma getitem_selected (p : list cell -> bool) d :
  getitem_mask d (map (fun r => CBool (p r)) (rows d)) =
  Some (Ok {| columns := columns d; rows := filter p (rows d) |}).
Proof.
  unfold getitem_mask. rewrite length_map. unfold nrows. rewrite Nat.eqb_refl.
  replace (forallb is_bool _) with true.
  - simpl. now rewrite select_filter.
  - symmetry. apply forallb_forall. intros c Hc.
    apply in_map_iff in Hc as (r & <- & _). reflexivity.
Qed.

(** ** Running the filter on the heap *)

Lemma heap_last (h : heap) d : nth_error (h ++ [d]) (List.length h) = Some d.
Proof.
  rewrite nth_error_app2 by lia. now rewrite Nat.sub_diag.
Qed.

Lemma heap_grow (h g : heap) l d :
  nth_error h l = Some d -> nth_error (h ++ g) l = Some d.
Proof.
  intros H. rewrite nth_error_app1; [exact H|].
  apply nth_error_Some. congruence.
Qed.

Lemma filter_none {A : Type} (l : list A) : filter (fun _ => false) l = [].
Proof.
  induction l as [|a l IH]; [reflexivity | exact IH].
Qed.

Lemma matching_rows_run t l h d :
  rectangular d = true ->
  nth_error h l = Some d ->
  match matching t d with
  | Some (Ok d') =>
      exists g, matching_rows t l h =
                Some (Ok (List.length (h ++ g)), (h ++ g) ++ [d'])
  | Some (Raise e) => exists g, matching_rows t l h = Some (Raise e, h ++ g)
  | None => matching_rows t l h = None
  end.
Proof.
  intros Hd Hl.
  unfold matching_rows, df_astype_str, df_apply, df_any_axis1, df_getitem.
  unfold bind, load, new, lift. rewrite Hl, heap_last, apply_contains by exact Hd.
  unfold matching. destruct (no_cells d) eqn:Ee.
  - rewrite heap_last, any_no_cells by assumption.
    rewrite (heap_grow _ _ l d) by (now apply heap_grow).
    rewrite (getitem_selected (fun _ => false)), filter_none.
    exists [astype_str d; astype_str d].
    now rewrite <- !app_assoc.
  - destruct (re_compile t true) as [[re | e] |]; [| now exists [astype_str d] | reflexivity].
    rewrite heap_last, any_hit_frame.
    rewrite (heap_grow _ _ l d) by (now apply heap_grow).
    rewrite getitem_selected.
    exists [astype_str d; hit_frame re d].
    now rewrite <- !app_assoc.
Qed.

Lemma records_length d : List.length (to_dict_records d) = nrows d.
Proof. unfold to_dict_records. apply length_map. Qed.

Lemma table_entry_runs t l h d :
  rectangular d = true ->
  nth_error h l = Some d ->
  runs (table_entry t l) h (entry_of t d).
Proof.
  intros Hd Hl. pose proof (matching_rows_run t l h d Hd Hl) as H.
  unfold entry_of, runs, table_entry, bind.
  destruct (matching t d) as [[d' | e] |].
  - destruct H as [g ->]. unfold df_len, df_to_dict_records, bind, load, ret.
    exists (g ++ [d']). rewrite app_assoc.
    do 2 (rewrite heap_last; cbv beta iota).
    destruct (0 <? Z.of_nat (nrows d'))%Z eqn:E.
    + now rewrite heap_last.
    + apply Z.ltb_ge in E. pose proof (records_length d') as Hn.
      destruct (to_dict_records d'); [reflexivity | simpl in Hn; lia].
  - destruct H as [g ->]. now exists g.
  - now rewrite H.
Qed.

Lemma runs_bind {A B : Type} (m : M A) (k : A -> M B) h a o :
  runs m h (Some (Ok a)) ->
  (forall g, runs (k a) (h ++ g) o) ->
  runs (bind m k) h o.
Proof.
  intros [g Hm] Hk. specialize (Hk g). unfold runs, bind in *. rewrite Hm.
  destruct o as [r|]; [|exact Hk].
  destruct Hk as [g' Hk]. exists (g ++ g'). now rewrite Hk, app_assoc.
Qed.

Lemma runs_raise {A B : Type} (m : M A) (k : A -> M B) h e :
  runs m h (Some (Raise e)) -> runs (bind m k) h (Some (Raise e)).
Proof.
  intros [g Hm]. exists g. unfold bind. now rewrite Hm.
Qed.

Lemma runs_none {A B : Type} (m : M A) (k : A -> M B) h :
  runs m h None -> runs (bind m k) h None.
Proof.
  unfold runs, bind. now intros ->.
Qed.

Lemma runs_ret {A : Type} (a : A) h : runs (ret a) h (Some (Ok a)).
Proof. exists []. unfold ret. now rewrite app_nil_r. Qed.

Lemma valid_ref_grow h g df : valid_ref h df = true -> valid_ref (h ++ g) df = true.
Proof.
  destruct df as [l|]; [|reflexivity]. simpl.
  destruct (nth_error h l) as [d|] eqn:E; [|discriminate].
  now rewrite (heap_grow h g l d E).
Qed.

Lemma deref_grow h g df : valid_ref h df = true -> deref (h ++ g) df = deref h df.
Proof.
  destruct df as [l|]; [|reflexivity]. simpl.
  destruct (nth_error h l) as [d|] eqn:E; [|discriminate].
  intros _. now apply heap_grow.
Qed.

(** One block of [analyze_material_data]: the entry is added when the table
    is there. *)
Lemma block_runs t key df (acc : dict match_set) h :
  valid_ref h df = true ->
  runs match df with
       | Some l => entry <- table_entry t l ;; ret (dict_set key entry acc)
       | None => ret acc
       end h (add_entry t key (deref h df) (Some (Ok acc))).
Proof.
  intros Hv. destruct df as [l|]; simpl in *; [|apply runs_ret].
  destruct (nth_error h l) as [d|] eqn:El; [|discriminate].
  apply andb_true_iff in Hv as [Hd _].
  pose proof (table_entry_runs t l h d Hd El) as H.
  destruct (entry_of t d) as [[e | x] |].
  - eapply runs_bind; [exact H|]. intros g. apply runs_ret.
  - now apply runs_raise.
  - now apply runs_none.
Qed.

Lemma analyze_runs t sales_df production_df reservations_df h :
  valid_ref h sales_df = true ->
  valid_ref h production_df = true ->
  valid_ref h reservations_df = true ->
  runs (analyze_material_data t sales_df production_df reservations_df) h
       (analysis_of t (deref h sales_df) (deref h production_df)
          (deref h reservations_df)).
Proof.
  intros Hs Hp Hr. unfold analyze_material_data, analysis_of.
  pose proof (block_runs t "sales" sales_df [] h Hs) as H1.
  unfold dict in *. revert H1.
  destruct (add_entry t "sales" (deref h sales_df) (Some (Ok []))) as [[a1 | x] |];
    intros H1.
  2: { cbn [add_entry]. now apply runs_raise. }
  2: { cbn [add_entry]. now apply runs_none. }
  eapply runs_bind; [exact H1|]. intros g1.
  pose proof (block_runs t "production" production_df a1 (h ++ g1)
                (valid_ref_grow _ _ _ Hp)) as H2.
  rewrite deref_grow in H2 by exact Hp.
  unfold dict in *. revert H2.
  destruct (add_entry t "production" (deref h production_df) (Some (Ok a1)))
    as [[a2 | x] |]; intros H2.
  2: { cbn [add_entry]. now apply runs_raise. }
  2: { cbn [add_entry]. now apply runs_none. }
  eapply runs_bind; [exact H2|]. intros g2.
  pose proof (block_runs t "reservations" reservations_df a2 ((h ++ g1) ++ g2)
                (valid_ref_grow _ _ _ (valid_ref_grow _ _ _ Hr))) as H3.
  rewrite !deref_grow in H3 by (try apply valid_ref_grow; exact Hr).
  unfold dict in *. revert H3.
  destruct (add_entry t "reservations" (deref h reservations_df) (Some (Ok a2)))
    as [[a3 | x] |]; intros H3.
  - eapply runs_bind; [exact H3|]. intros g3. apply runs_ret.
  - now apply runs_raise.
  - now apply runs_none.
Qed.

(** ** What the filter returns *)

Lemma selected_nil t : selected t [] = false.
Proof.
  unfold selected. now destruct (re_compile t true) as [[re | e] |].
Qed.

Lemma matching_selected t d d' :
  rectangular d = true ->
  matching t d = Some (Ok d') ->
  d' = {| columns := columns d; rows := filter (selected t) (rows d) |}.
Proof.
  intros Hd. unfold matching. destruct (no_cells d) eqn:Ee.
  - intros [= <-]. f_equal.
    pose proof (no_cells_rows d Hd Ee) as Hrows.
    induction (rows d) as [|r rs IH]; [reflexivity|].
    simpl. rewrite (Hrows r (or_introl eq_refl)), selected_nil.
    apply IH. intros r' Hr'. apply Hrows. now right.
  - destruct (re_compile t true) as [[re | e] |] eqn:Ec; try discriminate.
    intros [= <-]. f_equal. apply filter_ext. intros r.
    unfold selected. now rewrite Ec.
Qed.

Lemma selected_literal t r :
  is_literal t = true ->
  selected t r = existsb (fun c => contains_ci t (cell_str c)) r.
Proof.
  intros Ht. unfold selected. rewrite re_compile_literal by exact Ht.
  unfold row_hit. induction r as [|c r IH]; [reflexivity|].
  simpl. now rewrite re_search_literal, IH.
Qed.

Lemma entry_of_literal t d :
  is_literal t = true -> exists e, entry_of t d = Some (Ok e).
Proof.
  intros Ht. unfold entry_of, matching.
  destruct (no_cells d); [eexists; reflexivity|].
  rewrite re_compile_literal by exact Ht. eexists; reflexivity.
Qed.

Lemma analysis_of_literal t S P R :
  is_literal t = true -> exists ad, analysis_of t S P R = Some (Ok ad).
Proof.
  intros Ht. unfold analysis_of, add_entry.
  destruct S as [dS|]; [destruct (entry_of_literal t dS Ht) as [eS ->]|];
  (destruct P as [dP|]; [destruct (entry_of_literal t dP Ht) as [eP ->]|]);
  (destruct R as [dR|]; [destruct (entry_of_literal t dR Ht) as [eR ->]|]);
  eexists; reflexivity.
Qed.

Lemma analysis_of_entries t S P R ad :
  analysis_of t S P R = Some (Ok ad) ->
  forall key T,
    In (key, T) (tables_of S P R) ->
    forall d, T = Some d ->
    exists e, entry_of t d = Some (Ok e) /\ dict_get key ad = Some e.
Proof.
  unfold analysis_of, add_entry, tables_of. intros H key T HT d ->.
  destruct S as [dS|]; [destruct (entry_of t dS) as [[eS | x] |] eqn:ES|];
    try discriminate;
  (destruct P as [dP|]; [destruct (entry_of t dP) as [[eP | x] |] eqn:EP|];
    try discriminate);
  (destruct R as [dR|]; [destruct (entry_of t dR) as [[eR | x] |] eqn:ER|];
    try discriminate);
  injection H as <-;
  destruct HT as [[= <- E] | [[= <- E] | [[= <- E] | []]]];
  subst; (eexists; split; [eassumption | reflexivity]).
Qed.

Lemma entry_of_selected t d e :
  rectangular d = true ->
  entry_of t d = Some (Ok e) ->
  data e = map (record_of (columns d)) (filter (selected t) (rows d))
  /\ count e = Z.of_nat (List.length (filter (selected t) (rows d))).
Proof.
  intros Hd. unfold entry_of.
  destruct (matching t d) as [[d' | x] |] eqn:Em; try discriminate.
  intros [= <-]. rewrite (matching_selected t d d' Hd Em). now split.
Qed.

(** ** Records of a well-formed frame *)

Lemma dict_set_fresh {V : Type} k (v : V) d :
  existsb (String.eqb k) (map fst d) = false -> dict_set k v d = d ++ [(k, v)].
Proof.
  induction d as [|[k' v'] d IH]; [reflexivity|]. simpl.
  intros H. apply orb_false_iff in H as [-> H]. now rewrite IH.
Qed.

Lemma dict_of_items_distinct {V : Type} (items : list (string * V)) :
  distinct (map fst items) = true -> dict_of_items items = items.
Proof.
  unfold dict_of_items. change items with ([] ++ items) at 3.
  assert (G : forall acc : dict V,
             distinct (map fst items) = true ->
             (forall k, In k (map fst items) ->
                        existsb (String.eqb k) (map fst acc) = false) ->
             fold_left (fun d kv => dict_set (fst kv) (snd kv) d) items acc
             = acc ++ items).
  { induction items as [|[k v] items IH]; intros acc Hd Hacc; simpl.
    - now rewrite app_nil_r.
    - simpl in Hd. apply andb_true_iff in Hd as [Hk Hd].
      apply negb_true_iff in Hk.
      rewrite dict_set_fresh by (apply Hacc; now left).
      rewrite IH; [now rewrite <- app_assoc | exact Hd |].
      intros k' Hk'. rewrite map_app, existsb_app. simpl.
      rewrite Hacc by (now right). rewrite orb_false_r. simpl.
      destruct (String.eqb k' k) eqn:E; [|reflexivity].
      apply String.eqb_eq in E. subst k'.
      assert (Hex : existsb (String.eqb k) (map fst items) = true).
      { apply existsb_exists. exists k. split; [exact Hk' | apply String.eqb_refl]. }
      congruence. }
  intros Hd. apply G; [exact Hd | reflexivity].
Qed.

Lemma combine_fst {A B : Type} (l : list A) : forall (l' : list B),
  List.length l' = List.length l -> map fst (combine l l') = l.
Proof.
  induction l as [|a l IH]; intros [|b l'] H; try discriminate; [reflexivity|].
  simpl. now rewrite IH by (now injection H).
Qed.

Lemma combine_snd {A B : Type} (l : list A) : forall (l' : list B),
  List.length l' = List.length l -> map snd (combine l l') = l'.
Proof.
  induction l as [|a l IH]; intros [|b l'] H; try discriminate; [reflexivity|].
  simpl. now rewrite IH by (now injection H).
Qed.

Lemma record_of_ok d r :
  frame_ok d = true -> In r (rows d) ->
  record_of (columns d) r = combine (columns d) r.
Proof.
  intros Hd Hr. apply andb_true_iff in Hd as [Hrect Hdist].
  unfold record_of. apply dict_of_items_distinct.
  now rewrite combine_fst by (now apply rectangular_row).
Qed.

(** On a row of a well-formed frame, "some cell of the record contains the
    token" is the test on the cells. *)
Lemma record_contains_row t d r :
  frame_ok d = true -> In r (rows d) ->
  record_contains t (record_of (columns d) r) <->
  existsb (fun c => contains_ci t (cell_str c)) r = true.
Proof.
  intros Hd Hr. rewrite (record_of_ok d r Hd Hr).
  apply andb_true_iff in Hd as [Hrect _].
  pose proof (rectangular_row d r Hrect Hr) as Hlen.
  unfold record_contains. rewrite existsb_exists. split.
  - intros (k & v & Hin & Hv). exists v. split; [|exact Hv].
    now apply in_combine_r in Hin.
  - intros (v & Hin & Hv).
    rewrite <- (combine_snd (columns d) r Hlen) in Hin.
    apply in_map_iff in Hin as ([k v'] & <- & Hin). now exists k, v'.
Qed.

Lemma filter_Subseq {A : Type} (p : A -> bool) (l : list A) : Subseq (filter p l) l.
Proof.
  induction l as [|a l IH]; simpl; [constructor|].
  destruct (p a); now constructor.
Qed.

Lemma map_Subseq {A B : Type} (f : A -> B) l m :
  Subseq l m -> Subseq (map f l) (map f m).
Proof.
  induction 1; simpl; now constructor.
Qed.

(** ** The invariant of the entries *)

Lemma table_entry_consistent t l h e h' :
  table_entry t l h = Some (Ok e, h') -> consistent e.
Proof.
  unfold table_entry, bind.
  destruct (matching_rows t l h) as [[[r | x] h1] |]; try discriminate.
  unfold df_len, df_to_dict_records, bind, load, ret.
  destruct (nth_error h1 r) as [d|] eqn:Er; try discriminate.
  cbv beta iota. rewrite Er. cbv beta iota.
  destruct (0 <? Z.of_nat (nrows d))%Z eqn:E.
  - rewrite Er. intros H. inversion H. unfold consistent. cbn [count data].
    now rewrite records_length.
  - intros H. inversion H. unfold consistent. cbn [count data List.length].
    apply Z.ltb_ge in E. lia.
Qed.

Lemma dict_get_set {V : Type} k k' (v : V) d m :
  dict_get k (dict_set k' v d) = Some m -> m = v \/ dict_get k d = Some m.
Proof.
  induction d as [|[k0 v0] d IH]; simpl.
  - destruct (String.eqb k k'); [intros [= <-]; now left | discriminate].
  - destruct (String.eqb k' k0) eqn:E0; simpl.
    + destruct (String.eqb k k0); [intros [= <-]; now left | now right].
    + destruct (String.eqb k k0); [now right | exact IH].
Qed.

Lemma dict_get_set_same {V : Type} k (v : V) d :
  dict_get k (dict_set k v d) = Some v.
Proof.
  induction d as [|[k0 v0] d IH]; simpl.
  - now rewrite String.eqb_refl.
  - destruct (String.eqb k k0) eqn:E; simpl; now rewrite E.
Qed.

Lemma dict_get_set_other {V : Type} k k' (v : V) d :
  k <> k' -> dict_get k (dict_set k' v d) = dict_get k d.
Proof.
  intros Hk. apply String.eqb_neq in Hk.
  induction d as [|[k0 v0] d IH]; simpl.
  - now rewrite Hk.
  - destruct (String.eqb k' k0) eqn:E; simpl.
    + apply String.eqb_eq in E. subst k0. now rewrite Hk.
    + now rewrite IH.
Qed.

Lemma block_consistent t key df (acc ad : dict match_set) h h' :
  match df with
  | Some l => entry <- table_entry t l ;; ret (dict_set key entry acc)
  | None => ret acc
  end h = Some (Ok ad, h') ->
  (forall k e, dict_get k acc = Some e -> consistent e) ->
  forall k e, dict_get k ad = Some e -> consistent e.
Proof.
  destruct df as [l|].
  - unfold bind, ret.
    destruct (table_entry t l h) as [[[e0 | x] h1] |] eqn:E; try discriminate.
    intros [= <- _] Hacc k e He.
    apply dict_get_set in He as [-> | He].
    + exact (table_entry_consistent _ _ _ _ _ E).
    + exact (Hacc _ _ He).
  - unfold ret. intros [= <- _] Hacc. exact Hacc.
Qed.

Lemma entries_consistent t sales_df production_df reservations_df h ad h' :
  analyze_material_data t sales_df production_df reservations_df h
    = Some (Ok ad, h') ->
  forall key e, dict_get key ad = Some e -> consistent e.
Proof.
  unfold analyze_material_data. cbv zeta. unfold bind at 1.
  match goal with |- context [match ?m h with _ => _ end] =>
    destruct (m h) as [[[a1 | x] h1] |] eqn:E1; try discriminate end.
  unfold bind at 1.
  match goal with |- context [match ?m h1 with _ => _ end] =>
    destruct (m h1) as [[[a2 | x] h2] |] eqn:E2; try discriminate end.
  unfold bind at 1.
  match goal with |- context [match ?m h2 with _ => _ end] =>
    destruct (m h2) as [[[a3 | x] h3] |] eqn:E3; try discriminate end.
  unfold ret. intros [= <- _].
  apply (block_consistent _ _ _ _ _ _ _ E3).
  apply (block_consistent _ _ _ _ _ _ _ E2).
  apply (block_consistent _ _ _ _ _ _ _ E1).
  discriminate.
Qed.

(** A block keeps the keys of the accumulator and, for a table that is
    given, stores an entry under its own key. *)
Lemma block_entry t key df (acc ad : dict match_set) h h' :
  match df with
  | Some l => entry <- table_entry t l ;; ret (dict_set key entry acc)
  | None => ret acc
  end h = Some (Ok ad, h') ->
  (given (key, df) = true -> exists e, dict_get key ad = Some e)
  /\ (forall k e, dict_get k acc = Some e -> exists e', dict_get k ad = Some e').
Proof.
  destruct df as [l|].
  - unfold bind, ret.
    destruct (table_entry t l h) as [[[e0 | x] h1] |]; try discriminate.
    intros [= <- _]. split.
    + intros _. exists e0. apply dict_get_set_same.
    + intros k e He. destruct (String.eqb_spec k key) as [-> | Hk].
      * exists e0. apply dict_get_set_same.
      * exists e. now rewrite dict_get_set_other.
  - unfold ret. intros [= <- _]. split; [discriminate|]. intros k e He. now exists e.
Qed.

Lemma analyze_has_entries t sales_df production_df reservations_df h ad h' :
  analyze_material_data t sales_df production_df reservations_df h
    = Some (Ok ad, h') ->
  forall key df,
    In (key, df) (tables_of sales_df production_df reservations_df) ->
    given (key, df) = true ->
    exists e, dict_get key ad = Some e.
Proof.
  unfold analyze_material_data. cbv zeta. unfold bind at 1.
  match goal with |- context [match ?m h with _ => _ end] =>
    destruct (m h) as [[[a1 | x] h1] |] eqn:E1; try discriminate end.
  unfold bind at 1.
  match goal with |- context [match ?m h1 with _ => _ end] =>
    destruct (m h1) as [[[a2 | x] h2] |] eqn:E2; try discriminate end.
  unfold bind at 1.
  match goal with |- context [match ?m h2 with _ => _ end] =>
    destruct (m h2) as [[[a3 | x] h3] |] eqn:E3; try discriminate end.
  unfold ret. intros [= <- _].
  destruct (block_entry _ _ _ _ _ _ _ E1) as [G1 _].
  destruct (block_entry _ _ _ _ _ _ _ E2) as [G2 K2].
  destruct (block_entry _ _ _ _ _ _ _ E3) as [G3 K3].
  intros key df [[= <- <-] | [[= <- <-] | [[= <- <-] | []]]] Hgiven.
  - destruct (G1 Hgiven) as [e1 H1]. destruct (K2 _ _ H1) as [e2 H2].
    exact (K3 _ _ H2).
  - destruct (G2 Hgiven) as [e2 H2]. exact (K3 _ _ H2).
  - exact (G3 Hgiven).
Qed.

(** C2. In every result of [analyze_material_data], whatever the token and
    whichever tables are given: every table that is given has its entry,
    under the key of its role, and in every entry the ['count'] is the
    length of the ['data'] list. *)
Theorem count_is_length t sales_df production_df reservations_df h ad h' :
  analyze_material_data t sales_df production_df reservations_df h
    = Some (Ok ad, h') ->
  (forall key df,
      In (key, df) (tables_of sales_df production_df reservations_df) ->
      given (key, df) = true ->
      exists e, dict_get key ad = Some e
                /\ count e = Z.of_nat (List.length (data e)))
  /\ (forall key e, dict_get key ad = Some e ->
                    count e = Z.of_nat (List.length (data e))).
Proof.
  intros Hrun. split.
  - intros key df Hin Hgiven.
    destruct (analyze_has_entries _ _ _ _ _ _ _ Hrun key df Hin Hgiven) as [e He].
    exists e. split; [exact He|].
    exact (entries_consistent _ _ _ _ _ _ _ Hrun key e He).
  - intros key e He. exact (entries_consistent _ _ _ _ _ _ _ Hrun key e He).
Qed.

Lemma count_is_length_witness :
  exists ad h',
    analyze_material_data "m1" (Some 0) None (Some 2) mixed = Some (Ok ad, h')
    /\ (forall key df,
           In (key, df) (tables_of (Some 0) None (Some 2)) ->
           given (key, df) = true ->
           exists e, dict_get key ad = Some e
                     /\ count e = Z.of_nat (List.length (data e)))
    /\ (forall key e, dict_get key ad = Some e ->
                      count e = Z.of_nat (List.length (data e)))
    /\ (exists e, dict_get "sales" ad = Some e /\ count e = 3%Z).
Proof.
  eexists. eexists. split; [vm_compute; reflexivity|].
  split; [|split].
  - eapply (count_is_length "m1" (Some 0) None (Some 2) mixed).
    vm_compute. reflexivity.
  - eapply (count_is_length "m1" (Some 0) None (Some 2) mixed).
    vm_compute. reflexivity.
  - eexists. split; reflexivity.
Defined.

(** ** Which rows come back, and in which order *)

Lemma valid_deref h df T :
  valid_ref h df = true -> deref h df = Some T -> frame_ok T = true.
Proof.
  destruct df as [l|]; simpl; [|discriminate].
  intros Hv HT. now rewrite HT in Hv.
Qed.

Lemma tables_of_pick {P : option ref -> Prop} sales_df production_df reservations_df
    key df :
  In (key, df) (tables_of sales_df production_df reservations_df) ->
  P sales_df -> P production_df -> P reservations_df -> P df.
Proof.
  unfold tables_of.
  intros [[= _ <-] | [[= _ <-] | [[= _ <-] | []]]]; auto.
Qed.

Lemma tables_of_deref h sales_df production_df reservations_df key df :
  In (key, df) (tables_of sales_df production_df reservations_df) ->
  In (key, deref h df)
     (tables_of (deref h sales_df) (deref h production_df) (deref h reservations_df)).
Proof.
  unfold tables_of.
  intros [[= <- <-] | [[= <- <-] | [[= <- <-] | []]]]; simpl; auto.
Qed.

Lemma analyze_entry t sales_df production_df reservations_df h ad h' :
  valid_ref h sales_df = true ->
  valid_ref h production_df = true ->
  valid_ref h reservations_df = true ->
  analyze_material_data t sales_df production_df reservations_df h
    = Some (Ok ad, h') ->
  forall key df T,
    In (key, df) (tables_of sales_df production_df reservations_df) ->
    deref h df = Some T ->
    exists e, dict_get key ad = Some e
              /\ data e = map (record_of (columns T)) (filter (selected t) (rows T)).
Proof.
  intros Hs Hp Hr Hrun key df T Hin HT.
  pose proof (analyze_runs t _ _ _ h Hs Hp Hr) as H.
  destruct (analysis_of t (deref h sales_df) (deref h production_df)
              (deref h reservations_df)) as [[ad' | x] |] eqn:Ea;
    unfold runs in H; [| destruct H as [g H]; congruence | congruence].
  destruct H as [g H]. rewrite H in Hrun. injection Hrun as <- _.
  destruct (analysis_of_entries _ _ _ _ _ Ea key (deref h df)
              (tables_of_deref h _ _ _ key df Hin) T HT) as (e & He & Hget).
  exists e. split; [exact Hget|].
  assert (Hok : frame_ok T = true).
  { apply (valid_deref h df); [|exact HT].
    now apply (tables_of_pick (P := fun o => valid_ref h o = true) _ _ _ key df Hin). }
  apply andb_true_iff in Hok as [Hrect _].
  now apply entry_of_selected.
Qed.






(** C10. The ['data'] list of an entry is the list of the table's rows
    that the token selects, in the order they have in the table: a
    subsequence of the table's records. *)
Theorem filter_keeps_order t sales_df production_df reservations_df h ad h' :
  valid_ref h sales_df = true ->
  valid_ref h production_df = true ->
  valid_ref h reservations_df = true ->
  analyze_material_data t sales_df production_df reservations_df h
    = Some (Ok ad, h') ->
  forall key df T,
    In (key, df) (tables_of sales_df production_df reservations_df) ->
    deref h df = Some T ->
    exists e,
      dict_get key ad = Some e
      /\ data e = map (record_of (columns T)) (filter (selected t) (rows T))
      /\ Subseq (data e) (to_dict_records T).
Proof.
  intros Hs Hp Hr Hrun key df T Hin HT.
  destruct (analyze_entry t _ _ _ h ad h' Hs Hp Hr Hrun key df T Hin HT)
    as (e & Hget & Hdata).
  exists e. repeat split; [exact Hget | exact Hdata |].
  rewrite Hdata. apply map_Subseq, filter_Subseq.
Qed.

(** ** Repeating the call *)

(** C6. A call of [analyze_material_data] only adds frames to the heap, so
    the tables it was given are unchanged, and the same call made again
    afterwards has the same result. *)
Theorem filter_repeatable t sales_df production_df reservations_df h res h1 :
  valid_ref h sales_df = true ->
  valid_ref h production_df = true ->
  valid_ref h reservations_df = true ->
  analyze_material_data t sales_df production_df reservations_df h
    = Some (res, h1) ->
  (forall l d, nth_error h l = Some d -> nth_error h1 l = Some d)
  /\ exists h2,
       analyze_material_data t sales_df production_df reservations_df h1
         = Some (res, h2).
Proof.
  intros Hs Hp Hr Hrun.
  pose proof (analyze_runs t _ _ _ h Hs Hp Hr) as H.
  destruct (analysis_of t (deref h sales_df) (deref h production_df)
              (deref h reservations_df)) as [res'|] eqn:Ea;
    unfold runs in H; [|congruence].
  destruct H as [g H]. rewrite H in Hrun. injection Hrun as <- <-.
  split.
  - intros l d Hl. now apply heap_grow.
  - pose proof (analyze_runs t _ _ _ (h ++ g) (valid_ref_grow _ g _ Hs)
                  (valid_ref_grow _ g _ Hp) (valid_ref_grow _ g _ Hr)) as H'.
    rewrite !deref_grow, Ea in H' by assumption.
    destruct H' as [g' H']. now exists ((h ++ g) ++ g').
Qed.

(** ** The scenarios of the specification, and the tokens that go wrong *)

Example scenario_M1 :
  exists h',
    analyze_material_data "M1" (Some 0) (Some 1) (Some 2) scenario
    = Some (Ok [("sales",
                 {| count := 1;
                    data := [[("MATNR", CStr "M1"); ("KWMENG", CInt 10)]] |});
                ("production",
                 {| count := 1;
                    data := [[("AUFNR", CStr "P1"); ("PLNBEZ", CStr "M1")]] |});
                ("reservations",
                 {| count := 1;
                    data := [[("AUFNR", CStr "P1"); ("MATNR", CStr "M1");
                              ("BDMNG", CInt 5)]] |})], h').
Proof. eexists. vm_compute. reflexivity. Qed.

Example scenario_ZZZ :
  exists h',
    analyze_material_data "ZZZ" (Some 0) (Some 1) (Some 2) scenario
    = Some (Ok [("sales", {| count := 0; data := [] |});
                ("production", {| count := 0; data := [] |});
                ("reservations", {| count := 0; data := [] |})], h').
Proof. eexists. vm_compute. reflexivity. Qed.


(** A token that does not compile raises as soon as a table has a cell. *)
Lemma bad_token_raises t d e :
  re_compile t true = Some (Raise e) ->
  no_cells d = false ->
  entry_of t d = Some (Raise e).
Proof.
  intros Hc Hd. unfold entry_of, matching. now rewrite Hd, Hc.
Qed.





(** C4. Evaluation at the failing input: the token [nan] is found in the
    text of a missing cell, so the blank row comes back. *)
Lemma nan_token_matches_blank_row :
  forallb (forallb isna) (rows blank_row) = true
  /\ exists h',
       analyze_material_data "nan" (Some 0) None None [blank_row]
       = Some (Ok [("sales",
                    {| count := 1; data := to_dict_records blank_row |})], h').
Proof. split; [reflexivity|]. eexists. vm_compute. reflexivity. Qed.

(** C5. Evaluation at the failing input: the token [(] does not compile
    and [re.error] leaves [analyze_material_data]. *)
Lemma open_paren_raises :
  exists h',
    analyze_material_data "(" (Some 0) (Some 1) (Some 2) scenario
    = Some (Raise re_error, h').
Proof. eexists. vm_compute. reflexivity. Qed.

Lemma filter_keeps_order_witness :
  valid_ref mixed (Some 0) = true
  /\ valid_ref mixed (Some 1) = true
  /\ valid_ref mixed (Some 2) = true
  /\ filter (selected "m1") (rows mixed_rows)
     = [[CStr "M1"; CInt 10]; [CStr "m1-b"; CNaN]; [CStr "AM10"; CInt 7]]
  /\ exists ad h',
       analyze_material_data "m1" (Some 0) (Some 1) (Some 2) mixed
         = Some (Ok ad, h')
       /\ forall key df T,
            In (key, df) (tables_of (Some 0) (Some 1) (Some 2)) ->
            deref mixed df = Some T ->
            exists e,
              dict_get key ad = Some e
              /\ data e = map (record_of (columns T))
                            (filter (selected "m1") (rows T))
              /\ Subseq (data e) (to_dict_records T).
Proof.
  repeat (split; [reflexivity|]).
  eexists. eexists. split; [vm_compute; reflexivity|].
  eapply (filter_keeps_order "m1" (Some 0) (Some 1) (Some 2) mixed);
    [reflexivity | reflexivity | reflexivity | vm_compute; reflexivity].
Defined.

Lemma filter_repeatable_witness :
  valid_ref scenario (Some 0) = true
  /\ valid_ref scenario (Some 1) = true
  /\ valid_ref scenario (Some 2) = true
  /\ exists res h1,
       analyze_material_data "M1" (Some 0) (Some 1) (Some 2) scenario
         = Some (res, h1)
       /\ (forall l d, nth_error scenario l = Some d -> nth_error h1 l = Some d)
       /\ exists h2,
            analyze_material_data "M1" (Some 0) (Some 1) (Some 2) h1
              = Some (res, h2).
Proof.
  repeat (split; [reflexivity|]).
  eexists. eexists. split; [vm_compute; reflexivity|].
  apply (filter_repeatable "M1" (Some 0) (Some 1) (Some 2) scenario);
    [reflexivity | reflexivity | reflexivity | vm_compute; reflexivity].
Defined.

(** ** The composers *)

Lemma live_nth h l : live h (Some l) = true -> exists d, nth_error h l = Some d.
Proof.
  simpl. intros H. apply Nat.ltb_lt in H.
  destruct (nth_error h l) as [d|] eqn:E; [now exists d|].
  apply nth_error_None in E. lia.
Qed.

Lemma live_grow h g df : live h df = true -> live (h ++ g) df = true.
Proof.
  destruct df as [l|]; [|reflexivity]. simpl. rewrite !Nat.ltb_lt, length_app. lia.
Qed.

Lemma deref_live_grow h g df : live h df = true -> deref (h ++ g) df = deref h df.
Proof.
  destruct df as [l|]; [|reflexivity]. intros H.
  destruct (live_nth h l H) as [d Hd]. simpl. rewrite Hd. now apply heap_grow.
Qed.

Lemma head_records d : to_dict_records (head 5 d) = firstn 5 (to_dict_records d).
Proof.
  unfold to_dict_records, head. cbn [columns rows]. symmetry. apply firstn_map.
Qed.

Lemma head_sample_runs h df :
  live h df = true ->
  runs (head_sample df) h (Some (Ok (first_five (deref h df)))).
Proof.
  destruct df as [l|]; [|intros _; apply runs_ret].
  intros H. destruct (live_nth h l H) as [d Hd].
  unfold runs, head_sample, deref, df_head, df_to_dict_records.
  unfold bind, load, new, ret.
  exists [head 5 d]. now rewrite Hd, heap_last, head_records.
Qed.

Lemma columns_runs h df :
  live h df = true ->
  runs (columns_or_empty df) h (Some (Ok (names_of (deref h df)))).
Proof.
  destruct df as [l|]; [|intros _; apply runs_ret].
  intros H. destruct (live_nth h l H) as [d Hd].
  unfold runs, columns_or_empty, deref, df_columns, bind, load, ret.
  exists []. now rewrite Hd, app_nil_r.
Qed.

Lemma create_analysis_prompt_runs code ad sales_df production_df reservations_df h :
  live h sales_df = true ->
  live h production_df = true ->
  live h reservations_df = true ->
  runs (create_analysis_prompt code ad sales_df production_df reservations_df) h
    (Some (Ok (analysis_prompt_text code ad
                 (names_of (deref h sales_df)) (first_five (deref h sales_df))
                 (names_of (deref h production_df))
                 (first_five (deref h production_df))
                 (names_of (deref h reservations_df))
                 (first_five (deref h reservations_df))))).
Proof.
  intros Hs Hp Hr. unfold create_analysis_prompt.
  eapply runs_bind; [now apply head_sample_runs|]. intros g1.
  eapply runs_bind; [apply head_sample_runs; now apply live_grow|]. intros g2.
  eapply runs_bind; [apply head_sample_runs; now do 2 apply live_grow|]. intros g3.
  eapply runs_bind; [apply columns_runs; now do 3 apply live_grow|]. intros g4.
  eapply runs_bind; [apply columns_runs; now do 4 apply live_grow|]. intros g5.
  eapply runs_bind; [apply columns_runs; now do 5 apply live_grow|]. intros g6.
  rewrite !deref_live_grow by (repeat apply live_grow; assumption).
  apply runs_ret.
Qed.

Lemma table_summary_runs h l d :
  nth_error h l = Some d ->
  runs (table_summary l) h
    (Some (Ok (shape_of d, columns d, first_five (Some d)))).
Proof.
  intros Hd.
  unfold runs, table_summary, df_shape, df_columns, df_head, df_to_dict_records.
  unfold bind, load, new, ret.
  exists [head 5 d]. now rewrite !Hd, heap_last, head_records.
Qed.

Lemma general_prompt_runs query a b c h da db dc :
  nth_error h a = Some da ->
  nth_error h b = Some db ->
  nth_error h c = Some dc ->
  runs (general_prompt query a b c) h
    (Some (Ok (general_prompt_text query
                 (shape_of da) (columns da) (first_five (Some da))
                 (shape_of db) (columns db) (first_five (Some db))
                 (shape_of dc) (columns dc) (first_five (Some dc))))).
Proof.
  intros Ha Hb Hc. unfold general_prompt.
  eapply runs_bind; [apply (table_summary_runs _ _ da); exact Ha|]. intros g1.
  eapply runs_bind;
    [apply (table_summary_runs _ _ db); now apply heap_grow|]. intros g2.
  eapply runs_bind;
    [apply (table_summary_runs _ _ dc); now do 2 apply heap_grow|]. intros g3.
  apply runs_ret.
Qed.

(** C7. Both composers are deterministic: a call returns a text, and the
    same call made again afterwards returns the same text. *)
Theorem composers_deterministic code ad query
    sales_df production_df reservations_df a b c h :
  live h sales_df = true ->
  live h production_df = true ->
  live h reservations_df = true ->
  live h (Some a) = true ->
  live h (Some b) = true ->
  live h (Some c) = true ->
  (exists text h1 h2,
      create_analysis_prompt code ad sales_df production_df reservations_df h
        = Some (Ok text, h1)
      /\ create_analysis_prompt code ad sales_df production_df reservations_df h1
        = Some (Ok text, h2))
  /\ (exists text h1 h2,
        general_prompt query a b c h = Some (Ok text, h1)
        /\ general_prompt query a b c h1 = Some (Ok text, h2)).
Proof.
  intros Hs Hp Hr Ha Hb Hc. split.
  - destruct (create_analysis_prompt_runs code ad _ _ _ h Hs Hp Hr) as [g H].
    destruct (create_analysis_prompt_runs code ad _ _ _ (h ++ g)
                (live_grow _ g _ Hs) (live_grow _ g _ Hp) (live_grow _ g _ Hr))
      as [g' H'].
    rewrite !deref_live_grow in H' by assumption.
    eexists. exists (h ++ g), ((h ++ g) ++ g'). split; [exact H | exact H'].
  - destruct (live_nth h a Ha) as [da Hda].
    destruct (live_nth h b Hb) as [db Hdb].
    destruct (live_nth h c Hc) as [dc Hdc].
    destruct (general_prompt_runs query a b c h da db dc Hda Hdb Hdc) as [g H].
    destruct (general_prompt_runs query a b c (h ++ g) da db dc
                (heap_grow _ g _ _ Hda) (heap_grow _ g _ _ Hdb)
                (heap_grow _ g _ _ Hdc)) as [g' H'].
    eexists. exists (h ++ g), ((h ++ g) ++ g'). split; [exact H | exact H'].
Qed.

Lemma composers_deterministic_witness :
  live scenario (Some 0) = true
  /\ live scenario None = true
  /\ live scenario (Some 2) = true
  /\ live scenario (Some 1) = true
  /\ (exists text h1 h2,
        create_analysis_prompt "M1" [] (Some 0) None (Some 2) scenario
          = Some (Ok text, h1)
        /\ create_analysis_prompt "M1" [] (Some 0) None (Some 2) h1
          = Some (Ok text, h2))
  /\ (exists text h1 h2,
        general_prompt "Which orders are late?" 0 1 2 scenario = Some (Ok text, h1)
        /\ general_prompt "Which orders are late?" 0 1 2 h1 = Some (Ok text, h2)).
Proof.
  repeat (split; [reflexivity|]).
  apply (composers_deterministic "M1" [] "Which orders are late?"
           (Some 0) None (Some 2) 0 1 2 scenario); reflexivity.
Defined.

Lemma first_five_is_head_sample table : is_head_sample table (first_five table).
Proof.
  destruct table as [d|]; [|reflexivity]. unfold is_head_sample, first_five.
  split; [reflexivity|]. split.
  - intros H. rewrite firstn_length_le; [reflexivity|].
    now rewrite records_length.
  - intros H. apply firstn_all2. rewrite records_length. lia.
Qed.

(** C8. The sample that [create_analysis_prompt] (and the general prompt)
    puts into the text is, for each table, the first five records in table
    order: exactly five when the table has five rows or more, the whole
    table when it has fewer, and the empty list for an absent table. *)
Theorem head_sample_first_rows code ad query
    sales_df production_df reservations_df a b c h da db dc :
  live h sales_df = true ->
  live h production_df = true ->
  live h reservations_df = true ->
  nth_error h a = Some da ->
  nth_error h b = Some db ->
  nth_error h c = Some dc ->
  (exists s1 s2 s3 h',
      create_analysis_prompt code ad sales_df production_df reservations_df h
        = Some (Ok (analysis_prompt_text code ad
                      (names_of (deref h sales_df)) s1
                      (names_of (deref h production_df)) s2
                      (names_of (deref h reservations_df)) s3), h')
      /\ is_head_sample (deref h sales_df) s1
      /\ is_head_sample (deref h production_df) s2
      /\ is_head_sample (deref h reservations_df) s3)
  /\ (exists s1 s2 s3 h',
        general_prompt query a b c h
          = Some (Ok (general_prompt_text query
                        (shape_of da) (columns da) s1
                        (shape_of db) (columns db) s2
                        (shape_of dc) (columns dc) s3), h')
        /\ is_head_sample (Some da) s1
        /\ is_head_sample (Some db) s2
        /\ is_head_sample (Some dc) s3).
Proof.
  intros Hs Hp Hr Ha Hb Hc. split.
  - destruct (create_analysis_prompt_runs code ad _ _ _ h Hs Hp Hr) as [g H].
    do 3 eexists. exists (h ++ g). split; [exact H|].
    repeat split; apply first_five_is_head_sample.
  - destruct (general_prompt_runs query a b c h da db dc Ha Hb Hc) as [g H].
    do 3 eexists. exists (h ++ g). split; [exact H|].
    repeat split; apply (first_five_is_head_sample (Some _)).
Qed.

Lemma head_sample_first_rows_witness :
  live six_and_scenario (Some 0) = true
  /\ live six_and_scenario None = true
  /\ live six_and_scenario (Some 2) = true
  /\ nth_error six_and_scenario 0 = Some six_rows
  /\ nth_error six_and_scenario 1 = Some scenario_production
  /\ nth_error six_and_scenario 2 = Some scenario_reservations
  /\ (exists s1 s2 s3 h',
        create_analysis_prompt "M1" [] (Some 0) None (Some 2) six_and_scenario
          = Some (Ok (analysis_prompt_text "M1" []
                        (names_of (Some six_rows)) s1
                        (names_of None) s2
                        (names_of (Some scenario_reservations)) s3), h')
        /\ is_head_sample (Some six_rows) s1
        /\ is_head_sample None s2
        /\ is_head_sample (Some scenario_reservations) s3)
  /\ (exists s1 s2 s3 h',
        general_prompt "Which orders are late?" 0 1 2 six_and_scenario
          = Some (Ok (general_prompt_text "Which orders are late?"
                        (shape_of six_rows) (columns six_rows) s1
                        (shape_of scenario_production)
                        (columns scenario_production) s2
                        (shape_of scenario_reservations)
                        (columns scenario_reservations) s3), h')
        /\ is_head_sample (Some six_rows) s1
        /\ is_head_sample (Some scenario_production) s2
        /\ is_head_sample (Some scenario_reservations) s3).
Proof.
  repeat (split; [reflexivity|]).
  apply (head_sample_first_rows "M1" [] "Which orders are late?"
           (Some 0) None (Some 2) 0 1 2 six_and_scenario
           six_rows scenario_production scenario_reservations); reflexivity.
Defined.

(** ** The client *)

(** C9. [ask_llm_simple] always returns a text: the fixed message when
    there is no client (in particular when [get_proxy_client] failed at
    start-up), the error text with the description of the exception when
    building the model or invoking it fails, and the reply itself, as it
    is, when the call succeeds. *)
Theorem client_never_raises (client llm : Type)
    (get_proxy_client : string -> result exception client)
    (ChatOpenAI : string -> client -> result exception llm)
    (invoke_content : llm -> string -> result exception string)
    (proxy_client : option client) (prompt : string) :
  let ask := ask_llm_simple client llm ChatOpenAI invoke_content in
  (exists text, ask proxy_client prompt = Ok text)
  /\ (proxy_client = None -> ask proxy_client prompt = Ok unavailable)
  /\ (forall e, get_proxy_client "gen-ai-hub" = Raise e ->
                ask (init_proxy_client client get_proxy_client) prompt
                = Ok unavailable)
  /\ (forall pc e,
        proxy_client = Some pc -> ChatOpenAI "gpt-5" pc = Raise e ->
        ask proxy_client prompt = Ok (error_text e))
  /\ (forall pc model e,
        proxy_client = Some pc -> ChatOpenAI "gpt-5" pc = Ok model ->
        invoke_content model prompt = Raise e ->
        ask proxy_client prompt = Ok (error_text e))
  /\ (forall pc model reply,
        proxy_client = Some pc -> ChatOpenAI "gpt-5" pc = Ok model ->
        invoke_content model prompt = Ok reply ->
        ask proxy_client prompt = Ok reply).
Proof.
  intros ask. subst ask. unfold ask_llm_simple, try_except.
  repeat split.
  - destruct proxy_client as [pc|]; [|eexists; reflexivity].
    destruct (ChatOpenAI "gpt-5" pc) as [model | e]; [|eexists; reflexivity].
    destruct (invoke_content model prompt); eexists; reflexivity.
  - now intros ->.
  - intros e He. unfold init_proxy_client. now rewrite He.
  - intros pc e -> He. now rewrite He.
  - intros pc model e -> Hm He. now rewrite Hm, He.
  - intros pc model reply -> Hm Hr. now rewrite Hm, Hr.
Qed.

Lemma client_never_raises_witness :
  let ask := ask_llm_simple unit unit (fun _ _ => Ok tt) failing_service in
  (exists text, ask (Some tt) "hello" = Ok text)
  /\ ask (Some tt) "hello" = Ok "Error querying LLM: quota exceeded"
  /\ ask_llm_simple unit unit (fun _ _ => Ok tt) echo_service (Some tt) "hello"
     = Ok "hello"
  /\ ask_llm_simple unit unit (fun _ _ => Ok tt) echo_service
       (init_proxy_client unit (fun _ => Raise "no credentials")) "hello"
     = Ok unavailable.
Proof.
  intros ask.
  destruct (client_never_raises unit unit (fun _ => Raise "no credentials")
              (fun _ _ => Ok tt) failing_service (Some tt) "hello")
    as (Htext & _ & _ & _ & Hfail & _).
  destruct (client_never_raises unit unit (fun _ => Raise "no credentials")
              (fun _ _ => Ok tt) echo_service (Some tt) "hello")
    as (_ & _ & Hdown & _ & _ & Hreply).
  split; [exact Htext|].
  split; [exact (Hfail tt tt "quota exceeded" eq_refl eq_refl eq_refl)|].
  split; [exact (Hreply tt tt "hello" eq_refl eq_refl eq_refl)|].
  exact (Hdown "no credentials" eq_refl).
Defined.

(* ================================================================= *)
(** * Further properties of the filter *)

Lemma valid_ref_some h l :
  valid_ref h (Some l) = true -> exists d, nth_error h l = Some d /\ frame_ok d = true.
Proof.
  simpl. destruct (nth_error h l) as [d|]; [|discriminate]. now exists d.
Qed.

Lemma analyze_outcome t sales_df production_df reservations_df h res h' :
  valid_ref h sales_df = true ->
  valid_ref h production_df = true ->
  valid_ref h reservations_df = true ->
  analyze_material_data t sales_df production_df reservations_df h = Some (res, h') ->
  analysis_of t (deref h sales_df) (deref h production_df) (deref h reservations_df)
  = Some res.
Proof.
  intros Hs Hp Hr Hrun. pose proof (analyze_runs t _ _ _ h Hs Hp Hr) as H.
  destruct (analysis_of t (deref h sales_df) (deref h production_df)
              (deref h reservations_df)) as [res'|]; unfold runs in H.
  - destruct H as [g H]. congruence.
  - congruence.
Qed.

(** X1. The keys of the result are the tables that were given, in the
    order sales, production, reservations: a [None] table leaves no entry. *)
Theorem entries_follow_tables t sales_df production_df reservations_df h ad h' :
  valid_ref h sales_df = true ->
  valid_ref h production_df = true ->
  valid_ref h reservations_df = true ->
  analyze_material_data t sales_df production_df reservations_df h
    = Some (Ok ad, h') ->
  map fst ad
  = map fst (filter given (tables_of sales_df production_df reservations_df)).
Proof.
  intros Hs Hp Hr Hrun.
  pose proof (analyze_outcome _ _ _ _ _ _ _ Hs Hp Hr Hrun) as H.
  unfold analysis_of, add_entry in H.
  destruct sales_df as [a|];
    [destruct (valid_ref_some h a Hs) as (da & Ea & _); simpl in H; rewrite Ea in H;
     destruct (entry_of t da) as [[ea | x] |]; try discriminate | simpl in H];
  (destruct production_df as [b|];
    [destruct (valid_ref_some h b Hp) as (db & Eb & _); simpl in H; rewrite Eb in H;
     destruct (entry_of t db) as [[eb | x] |]; try discriminate | simpl in H]);
  (destruct reservations_df as [c|];
    [destruct (valid_ref_some h c Hr) as (dc & Ec & _); simpl in H; rewrite Ec in H;
     destruct (entry_of t dc) as [[ec | x] |]; try discriminate | simpl in H]);
  injection H as <-; reflexivity.
Qed.

Lemma entries_follow_tables_witness :
  valid_ref scenario (Some 0) = true
  /\ valid_ref scenario None = true
  /\ valid_ref scenario (Some 2) = true
  /\ exists ad h',
       analyze_material_data "M1" (Some 0) None (Some 2) scenario = Some (Ok ad, h')
       /\ map fst ad = ["sales"; "reservations"].
Proof.
  repeat (split; [reflexivity|]).
  eexists. eexists. split; [vm_compute; reflexivity|].
  eapply (entries_follow_tables "M1" (Some 0) None (Some 2) scenario);
    [reflexivity | reflexivity | reflexivity | vm_compute; reflexivity].
Defined.

Lemma analyze_entry_count t sales_df production_df reservations_df h ad h' :
  valid_ref h sales_df = true ->
  valid_ref h production_df = true ->
  valid_ref h reservations_df = true ->
  analyze_material_data t sales_df production_df reservations_df h
    = Some (Ok ad, h') ->
  forall key df T,
    In (key, df) (tables_of sales_df production_df reservations_df) ->
    deref h df = Some T ->
    exists e, dict_get key ad = Some e
              /\ data e = map (record_of (columns T)) (filter (selected t) (rows T))
              /\ count e = Z.of_nat (List.length (filter (selected t) (rows T))).
Proof.
  intros Hs Hp Hr Hrun key df T Hin HT.
  pose proof (analyze_outcome _ _ _ _ _ _ _ Hs Hp Hr Hrun) as Ea.
  destruct (analysis_of_entries _ _ _ _ _ Ea key (deref h df)
              (tables_of_deref h _ _ _ key df Hin) T HT) as (e & He & Hget).
  exists e. split; [exact Hget|].
  assert (Hok : frame_ok T = true).
  { apply (valid_deref h df); [|exact HT].
    now apply (tables_of_pick (P := fun o => valid_ref h o = true) _ _ _ key df Hin). }
  apply andb_true_iff in Hok as [Hrect _].
  now apply entry_of_selected.
Qed.

Lemma filter_length_le {A : Type} (p : A -> bool) (l : list A) :
  List.length (filter p l) <= List.length l.
Proof.
  induction l as [|a l IH]; simpl; [lia|]. destruct (p a); simpl; lia.
Qed.

(** X2. The count of an entry is between 0 and the number of rows of its
    table, and so is the length of its ['data'] list. *)
Theorem count_within_table t sales_df production_df reservations_df h ad h' :
  valid_ref h sales_df = true ->
  valid_ref h production_df = true ->
  valid_ref h reservations_df = true ->
  analyze_material_data t sales_df production_df reservations_df h
    = Some (Ok ad, h') ->
  forall key df T,
    In (key, df) (tables_of sales_df production_df reservations_df) ->
    deref h df = Some T ->
    exists e, dict_get key ad = Some e
              /\ (0 <= count e <= Z.of_nat (nrows T))%Z
              /\ List.length (data e) <= nrows T.
Proof.
  intros Hs Hp Hr Hrun key df T Hin HT.
  destruct (analyze_entry_count t _ _ _ h ad h' Hs Hp Hr Hrun key df T Hin HT)
    as (e & Hget & Hdata & Hcount).
  exists e. split; [exact Hget|].
  pose proof (filter_length_le (selected t) (rows T)) as Hle.
  rewrite Hdata, Hcount, length_map. unfold nrows. lia.
Qed.

Lemma count_within_table_witness :
  valid_ref scenario (Some 0) = true
  /\ valid_ref scenario (Some 1) = true
  /\ valid_ref scenario (Some 2) = true
  /\ exists ad h',
       analyze_material_data "P1" (Some 0) (Some 1) (Some 2) scenario
         = Some (Ok ad, h')
       /\ forall key df T,
            In (key, df) (tables_of (Some 0) (Some 1) (Some 2)) ->
            deref scenario df = Some T ->
            exists e, dict_get key ad = Some e
                      /\ (0 <= count e <= Z.of_nat (nrows T))%Z
                      /\ List.length (data e) <= nrows T.
Proof.
  repeat (split; [reflexivity|]).
  eexists. eexists. split; [vm_compute; reflexivity|].
  eapply (count_within_table "P1" (Some 0) (Some 1) (Some 2) scenario);
    [reflexivity | reflexivity | reflexivity | vm_compute; reflexivity].
Defined.

(** ** Tokens that differ in case, and tokens inside tokens *)

Lemma prefix_ci_ext p1 : forall p2 s,
  map py_lower p1 = map py_lower p2 -> prefix_ci p1 s = prefix_ci p2 s.
Proof.
  induction p1 as [|a p1 IH]; intros [|b p2] s H; try discriminate; [reflexivity|].
  simpl in H. injection H as Hab H.
  destruct s as [|c s]; [reflexivity|]. simpl.
  now rewrite Hab, (IH p2 s H).
Qed.

Lemma infix_ci_ext p1 p2 s :
  map py_lower p1 = map py_lower p2 -> infix_ci p1 s = infix_ci p2 s.
Proof.
  intros H. induction s as [|c s IH]; simpl.
  - now rewrite (prefix_ci_ext p1 p2 [] H).
  - now rewrite (prefix_ci_ext p1 p2 _ H), IH.
Qed.

Lemma prefix_ci_lower p : forall m,
  List.length m = List.length p ->
  (prefix_ci p m = true <-> map py_lower p = map py_lower m).
Proof.
  induction p as [|a p IH]; intros [|b m] Hl; try discriminate.
  - split; reflexivity.
  - simpl. injection Hl as Hl. rewrite andb_true_iff, (IH m Hl), Ascii.eqb_eq.
    split.
    + intros [-> ->]. reflexivity.
    + intros [= -> ->]. now split.
Qed.

Lemma infix_ci_trans p q s :
  infix_ci p q = true -> infix_ci q s = true -> infix_ci p s = true.
Proof.
  rewrite !infix_ci_spec.
  intros (pre1 & m1 & post1 & -> & Hl1 & Hp1) (pre2 & m2 & post2 & -> & Hl2 & Hp2).
  apply (prefix_ci_lower _ _ Hl2) in Hp2. rewrite !map_app in Hp2.
  symmetry in Hp2. apply map_eq_app in Hp2 as (a & bc & -> & Ha & Hbc).
  apply map_eq_app in Hbc as (b & c & -> & Hb & Hc).
  assert (Hlb : List.length b = List.length p).
  { rewrite <- Hl1, <- (length_map py_lower b), Hb. apply length_map. }
  exists (pre2 ++ a), b, (c ++ post2). repeat split.
  - now rewrite <- !app_assoc.
  - exact Hlb.
  - apply (prefix_ci_lower _ _ Hlb). rewrite Hb.
    now apply (prefix_ci_lower _ _ Hl1).
Qed.

Lemma analysis_of_ext t1 t2 S P R :
  (forall d, matching t1 d = matching t2 d) ->
  analysis_of t1 S P R = analysis_of t2 S P R.
Proof.
  intros H. unfold analysis_of, add_entry, entry_of.
  destruct S as [dS|], P as [dP|], R as [dR|]; now rewrite ?H.
Qed.

Lemma matching_literal t d :
  is_literal t = true ->
  matching t d =
  if no_cells d then Some (Ok {| columns := columns d; rows := [] |})
  else Some (Ok {| columns := columns d;
                   rows := filter (fun r => existsb (fun c => contains_ci t (cell_str c)) r)
                             (rows d) |}).
Proof.
  intros Ht. unfold matching. rewrite re_compile_literal by exact Ht.
  destruct (no_cells d); [reflexivity|]. do 3 f_equal.
  apply filter_ext. intros r. unfold row_hit.
  induction r as [|c r IH]; [reflexivity|]. simpl.
  now rewrite re_search_literal, IH.
Qed.

(** X3. The filter ignores the case of the token: two tokens without
    special characters that differ only in case give the same result. *)
Theorem token_case_is_ignored t1 t2 sales_df production_df reservations_df h :
  is_literal t1 = true ->
  is_literal t2 = true ->
  map py_lower (chars t1) = map py_lower (chars t2) ->
  valid_ref h sales_df = true ->
  valid_ref h production_df = true ->
  valid_ref h reservations_df = true ->
  exists ad h1 h2,
    analyze_material_data t1 sales_df production_df reservations_df h
      = Some (Ok ad, h1)
    /\ analyze_material_data t2 sales_df production_df reservations_df h
      = Some (Ok ad, h2).
Proof.
  intros H1 H2 Hlow Hs Hp Hr.
  pose proof (analyze_runs t1 _ _ _ h Hs Hp Hr) as R1.
  pose proof (analyze_runs t2 _ _ _ h Hs Hp Hr) as R2.
  rewrite (analysis_of_ext t1 t2) in R1.
  - destruct (analysis_of_literal t2 (deref h sales_df) (deref h production_df)
                (deref h reservations_df) H2) as [ad Ea].
    rewrite Ea in R1, R2. destruct R1 as [g1 R1]. destruct R2 as [g2 R2].
    now exists ad, (h ++ g1), (h ++ g2).
  - intros d. rewrite !matching_literal by assumption.
    destruct (no_cells d); [reflexivity|]. do 3 f_equal.
    apply filter_ext. intros r. induction r as [|c r IH]; [reflexivity|].
    simpl. rewrite IH. f_equal. unfold contains_ci. now apply infix_ci_ext.
Qed.

Lemma token_case_is_ignored_witness :
  is_literal "m1" = true
  /\ is_literal "M1" = true
  /\ map py_lower (chars "m1") = map py_lower (chars "M1")
  /\ valid_ref scenario (Some 0) = true
  /\ valid_ref scenario (Some 1) = true
  /\ valid_ref scenario (Some 2) = true
  /\ exists ad h1 h2,
       analyze_material_data "m1" (Some 0) (Some 1) (Some 2) scenario
         = Some (Ok ad, h1)
       /\ analyze_material_data "M1" (Some 0) (Some 1) (Some 2) scenario
         = Some (Ok ad, h2).
Proof.
  repeat (split; [reflexivity|]).
  apply (token_case_is_ignored "m1" "M1" (Some 0) (Some 1) (Some 2) scenario);
    reflexivity.
Defined.

Lemma filter_incl_mono {A : Type} (p q : A -> bool) (l : list A) :
  (forall a, p a = true -> q a = true) ->
  incl (filter p l) (filter q l)
  /\ List.length (filter p l) <= List.length (filter q l).
Proof.
  intros H. split.
  - intros a Ha. apply filter_In in Ha as [Hin Hp]. apply filter_In. auto.
  - induction l as [|a l IH]; simpl; [lia|].
    destruct (p a) eqn:Ep.
    + rewrite (H a Ep). simpl. lia.
    + destruct (q a); simpl; lia.
Qed.

(** X4. A token found inside another finds at least the same rows: when
    [t1] occurs in [t2] (whatever the case, neither with special
    characters), every record returned for [t2] is returned for [t1] and
    the count for [t2] is at most the count for [t1]. *)
Theorem shorter_token_finds_more t1 t2 sales_df production_df reservations_df h :
  is_literal t1 = true ->
  is_literal t2 = true ->
  contains_ci t1 t2 = true ->
  valid_ref h sales_df = true ->
  valid_ref h production_df = true ->
  valid_ref h reservations_df = true ->
  exists ad1 ad2 h1 h2,
    analyze_material_data t1 sales_df production_df reservations_df h
      = Some (Ok ad1, h1)
    /\ analyze_material_data t2 sales_df production_df reservations_df h
      = Some (Ok ad2, h2)
    /\ forall key df T,
         In (key, df) (tables_of sales_df production_df reservations_df) ->
         deref h df = Some T ->
         exists e1 e2,
           dict_get key ad1 = Some e1
           /\ dict_get key ad2 = Some e2
           /\ incl (data e2) (data e1)
           /\ (count e2 <= count e1)%Z.
Proof.
  intros H1 H2 Hsub Hs Hp Hr.
  pose proof (analyze_runs t1 _ _ _ h Hs Hp Hr) as R1.
  pose proof (analyze_runs t2 _ _ _ h Hs Hp Hr) as R2.
  destruct (analysis_of_literal t1 (deref h sales_df) (deref h production_df)
              (deref h reservations_df) H1) as [ad1 E1].
  destruct (analysis_of_literal t2 (deref h sales_df) (deref h production_df)
              (deref h reservations_df) H2) as [ad2 E2].
  rewrite E1 in R1. rewrite E2 in R2.
  destruct R1 as [g1 R1]. destruct R2 as [g2 R2].
  exists ad1, ad2, (h ++ g1), (h ++ g2). repeat split; [exact R1 | exact R2 |].
  intros key df T Hin HT.
  destruct (analyze_entry_count t1 _ _ _ h ad1 _ Hs Hp Hr R1 key df T Hin HT)
    as (e1 & G1 & D1 & C1).
  destruct (analyze_entry_count t2 _ _ _ h ad2 _ Hs Hp Hr R2 key df T Hin HT)
    as (e2 & G2 & D2 & C2).
  exists e1, e2. repeat split; [exact G1 | exact G2 | |].
  - rewrite D1, D2. apply incl_map.
    apply (filter_incl_mono (selected t2) (selected t1)).
    intros r. rewrite !selected_literal, !existsb_exists by assumption.
    intros (c & Hc & Hm). exists c. split; [exact Hc|].
    unfold contains_ci in *. now apply (infix_ci_trans _ (chars t2)).
  - rewrite C1, C2. apply Nat2Z.inj_le.
    apply (filter_incl_mono (selected t2) (selected t1)).
    intros r. rewrite !selected_literal, !existsb_exists by assumption.
    intros (c & Hc & Hm). exists c. split; [exact Hc|].
    unfold contains_ci in *. now apply (infix_ci_trans _ (chars t2)).
Qed.

Lemma shorter_token_finds_more_witness :
  is_literal "m" = true
  /\ is_literal "M1" = true
  /\ contains_ci "m" "M1" = true
  /\ valid_ref scenario (Some 0) = true
  /\ valid_ref scenario (Some 1) = true
  /\ valid_ref scenario (Some 2) = true
  /\ exists ad1 ad2 h1 h2,
       analyze_material_data "m" (Some 0) (Some 1) (Some 2) scenario
         = Some (Ok ad1, h1)
       /\ analyze_material_data "M1" (Some 0) (Some 1) (Some 2) scenario
         = Some (Ok ad2, h2)
       /\ forall key df T,
            In (key, df) (tables_of (Some 0) (Some 1) (Some 2)) ->
            deref scenario df = Some T ->
            exists e1 e2,
              dict_get key ad1 = Some e1
              /\ dict_get key ad2 = Some e2
              /\ incl (data e2) (data e1)
              /\ (count e2 <= count e1)%Z.
Proof.
  repeat (split; [reflexivity|]).
  apply (shorter_token_finds_more "m" "M1" (Some 0) (Some 1) (Some 2) scenario);
    reflexivity.
Defined.

(** ** Tokens that do not compile, and tables without cells *)

Lemma entry_of_no_cells t d :
  no_cells d = true -> entry_of t d = Some (Ok {| count := 0; data := [] |}).
Proof.
  intros H. unfold entry_of, matching. now rewrite H.
Qed.

Lemma entry_of_bad t d e :
  re_compile t true = Some (Raise e) ->
  no_cells d = false ->
  entry_of t d = Some (Raise e).
Proof.
  intros Hc Hd. unfold entry_of, matching. now rewrite Hd, Hc.
Qed.

Lemma add_entry_raise t key table e :
  add_entry t key table (Some (Raise e)) = Some (Raise e).
Proof. reflexivity. Qed.

Lemma entry_of_bad_cases t d :
  re_compile t true = Some (Raise re_error) ->
  (exists e, entry_of t d = Some (Ok e)) \/ entry_of t d = Some (Raise re_error).
Proof.
  intros Hc. destruct (no_cells d) eqn:E.
  - left. eexists. now apply entry_of_no_cells.
  - right. now apply entry_of_bad.
Qed.

(** X5. A token that does not compile makes the call raise [re.error] as
    soon as one of the given tables has a row and a column. *)
Theorem bad_token_raises_with_cells t sales_df production_df reservations_df h :
  re_compile t true = Some (Raise re_error) ->
  valid_ref h sales_df = true ->
  valid_ref h production_df = true ->
  valid_ref h reservations_df = true ->
  (exists key df T,
      In (key, df) (tables_of sales_df production_df reservations_df)
      /\ deref h df = Some T /\ no_cells T = false) ->
  exists h',
    analyze_material_data t sales_df production_df reservations_df h
    = Some (Raise re_error, h').
Proof.
  intros Hc Hs Hp Hr (key & df & T & Hin & HT & Hcells).
  pose proof (analyze_runs t _ _ _ h Hs Hp Hr) as R.
  assert (E : analysis_of t (deref h sales_df) (deref h production_df)
                (deref h reservations_df) = Some (Raise re_error)).
  { pose proof (entry_of_bad t T re_error Hc Hcells) as HbadT.
    unfold analysis_of, add_entry, tables_of in *.
    destruct Hin as [[= _ <-] | [[= _ <-] | [[= _ <-] | []]]]; rewrite ?HT;
      repeat match goal with
             | |- context [entry_of t T] => rewrite HbadT
             | |- context [entry_of t ?d] =>
                 destruct (entry_of_bad_cases t d Hc) as [[? ->] | ->]
             | |- context [match deref h ?x with _ => _ end] =>
                 destruct (deref h x)
             end; reflexivity. }
  rewrite E in R. destruct R as [g R]. now exists (h ++ g).
Qed.

Lemma bad_token_raises_with_cells_witness :
  re_compile "M1)" true = Some (Raise re_error)
  /\ valid_ref scenario None = true
  /\ valid_ref scenario (Some 1) = true
  /\ (exists key df T,
         In (key, df) (tables_of None (Some 1) None)
         /\ deref scenario df = Some T /\ no_cells T = false)
  /\ exists h',
       analyze_material_data "M1)" None (Some 1) None scenario
       = Some (Raise re_error, h').
Proof.
  assert (Hcells : exists key df T,
             In (key, df) (tables_of (@None ref) (Some 1) None)
             /\ deref scenario df = Some T /\ no_cells T = false).
  { exists "production", (Some 1), scenario_production.
    split; [right; left; reflexivity|]. split; reflexivity. }
  split; [reflexivity|]. split; [reflexivity|]. split; [reflexivity|].
  split; [exact Hcells|].
  apply (bad_token_raises_with_cells "M1)" None (Some 1) None scenario);
    [reflexivity | reflexivity | reflexivity | reflexivity | exact Hcells].
Defined.

(** X6. Tables without a row, or without a column, never make the call
    fail: whatever the token, even one that is not a pattern, each given
    table gets the entry with count 0 and no data, and the result has no
    other entry. *)
Theorem tables_without_cells_never_fail t sales_df production_df reservations_df h :
  valid_ref h sales_df = true ->
  valid_ref h production_df = true ->
  valid_ref h reservations_df = true ->
  (forall key df T,
      In (key, df) (tables_of sales_df production_df reservations_df) ->
      deref h df = Some T -> no_cells T = true) ->
  exists ad h',
    analyze_material_data t sales_df production_df reservations_df h
      = Some (Ok ad, h')
    /\ (forall key df T,
           In (key, df) (tables_of sales_df production_df reservations_df) ->
           deref h df = Some T ->
           dict_get key ad = Some {| count := 0; data := [] |})
    /\ (forall key e, dict_get key ad = Some e -> count e = 0%Z /\ data e = [])
    /\ map fst ad
       = map fst (filter given
                    (tables_of (deref h sales_df) (deref h production_df)
                       (deref h reservations_df))).
Proof.
  intros Hs Hp Hr Hall.
  pose proof (analyze_runs t _ _ _ h Hs Hp Hr) as R.
  assert (E : exists ad,
             analysis_of t (deref h sales_df) (deref h production_df)
               (deref h reservations_df) = Some (Ok ad)
             /\ (forall key T,
                    In (key, Some T)
                       (tables_of (deref h sales_df) (deref h production_df)
                          (deref h reservations_df)) ->
                    dict_get key ad = Some {| count := 0; data := [] |})
             /\ (forall key e, dict_get key ad = Some e ->
                               count e = 0%Z /\ data e = [])
             /\ map fst ad
                = map fst (filter given
                             (tables_of (deref h sales_df) (deref h production_df)
                                (deref h reservations_df)))).
  { assert (HS : forall T, deref h sales_df = Some T -> no_cells T = true)
      by (intros T; apply (Hall "sales"); left; reflexivity).
    assert (HP : forall T, deref h production_df = Some T -> no_cells T = true)
      by (intros T; apply (Hall "production"); right; left; reflexivity).
    assert (HR : forall T, deref h reservations_df = Some T -> no_cells T = true)
      by (intros T; apply (Hall "reservations"); right; right; left; reflexivity).
    unfold analysis_of, add_entry, tables_of.
    destruct (deref h sales_df) as [dS|];
      [rewrite (entry_of_no_cells t dS (HS dS eq_refl))|];
    (destruct (deref h production_df) as [dP|];
      [rewrite (entry_of_no_cells t dP (HP dP eq_refl))|]);
    (destruct (deref h reservations_df) as [dR|];
      [rewrite (entry_of_no_cells t dR (HR dR eq_refl))|]);
    eexists; (split; [reflexivity|]);
    (split;
     [intros key T [[= <- _] | [[= <- _] | [[= <- _] | []]]];
      try discriminate; reflexivity
     |split;
      [intros key e; simpl;
       repeat (destruct (String.eqb key _); [intros [= <-]; now split|]);
       discriminate
      |reflexivity]]). }
  destruct E as (ad & E & Hhas & Hzero & Hkeys). rewrite E in R.
  destruct R as [g R].
  exists ad, (h ++ g). split; [exact R|]. split; [|split; [exact Hzero | exact Hkeys]].
  intros key df T Hin HT. apply (Hhas key T). rewrite <- HT.
  now apply tables_of_deref.
Qed.

Lemma tables_without_cells_never_fail_witness :
  valid_ref [no_rows] (Some 0) = true
  /\ valid_ref [no_rows] None = true
  /\ exists ad h',
       analyze_material_data "(" (Some 0) None (Some 0) [no_rows]
         = Some (Ok ad, h')
       /\ (forall key df T,
              In (key, df) (tables_of (Some 0) None (Some 0)) ->
              deref [no_rows] df = Some T ->
              dict_get key ad = Some {| count := 0; data := [] |})
       /\ (forall key e, dict_get key ad = Some e -> count e = 0%Z /\ data e = [])
       /\ map fst ad
          = map fst (filter given
                       (tables_of (deref [no_rows] (Some 0)) (deref [no_rows] None)
                          (deref [no_rows] (Some 0)))).
Proof.
  split; [reflexivity|]. split; [reflexivity|].
  apply (tables_without_cells_never_fail "(" (Some 0) None (Some 0) [no_rows]);
    [reflexivity | reflexivity | reflexivity |].
  intros key df T [[= _ <-] | [[= _ <-] | [[= _ <-] | []]]]; try discriminate;
    intros [= <-]; reflexivity.
Defined.

(* ================================================================= *)
(** * Properties of [main] *)

(** ** Computations that only add frames *)

Lemma mgrows_ret {A : Type} (a : A) : mgrows (ret a).
Proof. intros h r h' [= <- <-]. exists []. now rewrite app_nil_r. Qed.

Lemma mgrows_bind {A B : Type} (m : M A) (k : A -> M B) :
  mgrows m -> (forall a, mgrows (k a)) -> mgrows (bind m k).
Proof.
  intros Hm Hk h r h'. unfold bind.
  destruct (m h) as [[[a | e] h1] |] eqn:E; try discriminate.
  - intros H. destruct (Hm _ _ _ E) as [g ->]. destruct (Hk a _ _ _ H) as [g' ->].
    exists (g ++ g'). now rewrite app_assoc.
  - intros [= <- <-]. exact (Hm _ _ _ E).
Qed.

Lemma mgrows_lift {A : Type} (o : outcome A) : mgrows (lift o).
Proof.
  intros h r h'. unfold lift. destruct o; [|discriminate].
  intros [= <- <-]. exists []. now rewrite app_nil_r.
Qed.

Lemma mgrows_load l : mgrows (load l).
Proof.
  intros h r h'. unfold load. destruct (nth_error h l); [|discriminate].
  intros [= <- <-]. exists []. now rewrite app_nil_r.
Qed.

Lemma mgrows_new d : mgrows (new d).
Proof. intros h r h' [= <- <-]. now exists [d]. Qed.

Create HintDb grows.
#[local] Hint Resolve mgrows_ret mgrows_lift mgrows_load mgrows_new : grows.

Ltac mgrows_step :=
  first [ apply mgrows_bind; [|intros ?]
        | solve [auto with grows]
        | match goal with
          | |- mgrows (if ?b then _ else _) => destruct b
          | |- mgrows (match ?x with _ => _ end) => destruct x
          end ].

Lemma mgrows_matching_rows t df : mgrows (matching_rows t df).
Proof.
  unfold matching_rows, df_astype_str, df_apply, df_any_axis1, df_getitem.
  repeat mgrows_step.
Qed.

Lemma mgrows_df_shape df : mgrows (df_shape df).
Proof. unfold df_shape. repeat mgrows_step. Qed.

Lemma mgrows_analyze t sales_df production_df reservations_df :
  mgrows (analyze_material_data t sales_df production_df reservations_df).
Proof.
  unfold analyze_material_data, table_entry, df_len, df_to_dict_records.
  cbv zeta.
  repeat first [apply mgrows_matching_rows | mgrows_step].
Qed.

Lemma mgrows_create_analysis_prompt code ad sales_df production_df reservations_df :
  mgrows (create_analysis_prompt code ad sales_df production_df reservations_df).
Proof.
  unfold create_analysis_prompt, head_sample, columns_or_empty,
    df_head, df_to_dict_records, df_columns.
  repeat mgrows_step.
Qed.

Lemma mgrows_general_prompt query a b c : mgrows (general_prompt query a b c).
Proof.
  unfold general_prompt, table_summary, df_shape, df_columns, df_head,
    df_to_dict_records.
  repeat mgrows_step.
Qed.

#[local] Hint Resolve mgrows_matching_rows mgrows_df_shape mgrows_analyze
  mgrows_create_analysis_prompt mgrows_general_prompt : grows.

(** ** What a run keeps *)

Lemma follows_refl s : follows s s.
Proof. split; exists []; now rewrite app_nil_r. Qed.

Lemma follows_trans a b c : follows a b -> follows b c -> follows a c.
Proof.
  intros [[g1 H1] [e1 P1]] [[g2 H2] [e2 P2]]. split.
  - exists (g1 ++ g2). now rewrite H2, H1, app_assoc.
  - exists (e1 ++ e2). now rewrite P2, P1, app_assoc.
Qed.

Lemma steady_refl s : steady s s.
Proof. split; [apply follows_refl | reflexivity]. Qed.

Lemma steady_trans a b c : steady a b -> steady b c -> steady a c.
Proof.
  intros [F1 S1] [F2 S2]. split; [now apply (follows_trans a b c) | congruence].
Qed.

Lemma preserves_bind {A B : Type} (R : session -> session -> Prop)
    (m : App A) (k : A -> App B) :
  (forall a b c, R a b -> R b c -> R a c) ->
  preserves R m -> (forall a, preserves R (k a)) -> preserves R (app_bind m k).
Proof.
  intros Htrans Hm Hk s r s'. unfold app_bind.
  destruct (m s) as [[[a | e] s1] |] eqn:E; try discriminate.
  - intros H. exact (Htrans _ _ _ (Hm _ _ _ E) (Hk a _ _ _ H)).
  - intros [= <- <-]. exact (Hm _ _ _ E).
Qed.

Lemma preserves_try {A : Type} (R : session -> session -> Prop)
    (body : App A) (handler : failure -> App A) :
  (forall a b c, R a b -> R b c -> R a c) ->
  preserves R body -> (forall e, preserves R (handler e)) ->
  preserves R (app_try body handler).
Proof.
  intros Htrans Hb Hh s r s'. unfold app_try.
  destruct (body s) as [[[a | e] s1] |] eqn:E; try discriminate.
  - intros [= <- <-]. exact (Hb _ _ _ E).
  - intros H. exact (Htrans _ _ _ (Hb _ _ _ E) (Hh e _ _ _ H)).
Qed.

Lemma steady_bind {A B : Type} (m : App A) (k : A -> App B) :
  preserves steady m -> (forall a, preserves steady (k a)) ->
  preserves steady (app_bind m k).
Proof. apply preserves_bind, steady_trans. Qed.

Lemma follows_bind {A B : Type} (m : App A) (k : A -> App B) :
  preserves follows m -> (forall a, preserves follows (k a)) ->
  preserves follows (app_bind m k).
Proof. apply preserves_bind, follows_trans. Qed.

Lemma steady_follows {A : Type} (m : App A) :
  preserves steady m -> preserves follows m.
Proof. intros H s r s' E. exact (proj1 (H s r s' E)). Qed.

Lemma steady_ret {A : Type} (a : A) : preserves steady (app_ret a).
Proof. intros s r s' [= <- <-]. apply steady_refl. Qed.

Lemma steady_raise {A : Type} (e : failure) : preserves steady (@app_raise A e).
Proof. intros s r s' [= <- <-]. apply steady_refl. Qed.

Lemma steady_stuck {A : Type} : preserves steady (@stuck A).
Proof. intros s r s'. discriminate. Qed.

Lemma steady_show e : preserves steady (show e).
Proof.
  intros s r s' [= <- <-]. repeat split; simpl.
  - exists []. now rewrite app_nil_r.
  - now exists [e].
Qed.

Lemma steady_state_get key : preserves steady (state_get key).
Proof.
  intros s r s'. unfold state_get.
  destruct (dict_get key (session_state s)); [|discriminate].
  intros [= <- <-]. apply steady_refl.
Qed.

Lemma steady_state_has key : preserves steady (state_has key).
Proof. intros s r s' [= <- <-]. apply steady_refl. Qed.

Lemma steady_lift_client {A : Type} (r : result exception A) :
  preserves steady (lift_client r).
Proof. destruct r; [apply steady_ret | apply steady_raise]. Qed.

Lemma steady_lift_M {A : Type} (m : M A) : mgrows m -> preserves steady (lift_M m).
Proof.
  intros Hm s r s'. unfold lift_M.
  destruct (m (objects s)) as [[[a | e] h] |] eqn:E; try discriminate;
    intros [= <- <-]; destruct (Hm _ _ _ E) as [g ->];
    (repeat split; simpl; [now exists g | exists []; now rewrite app_nil_r]).
Qed.

Lemma follows_state_set key v : preserves follows (state_set key v).
Proof.
  intros s r s' [= <- <-]. split; simpl; exists []; now rewrite app_nil_r.
Qed.

Create HintDb steady.
#[local] Hint Resolve steady_ret steady_raise steady_stuck steady_show
  steady_state_get steady_state_has steady_lift_client : steady.

Ltac steady_step :=
  first [ apply steady_bind; [|intros ?]
        | solve [auto with steady]
        | apply steady_lift_M; solve [auto with grows]
        | match goal with
          | |- preserves steady (if ?b then _ else _) => destruct b
          | |- preserves steady (match ?x with _ => _ end) => destruct x
          end ].

Lemma steady_frame_of key : preserves steady (frame_of key).
Proof. unfold frame_of. repeat steady_step. Qed.

#[local] Hint Resolve steady_frame_of : steady.

Lemma steady_shape_at key : preserves steady (shape_at key).
Proof. unfold shape_at. repeat steady_step. Qed.

#[local] Hint Resolve steady_shape_at : steady.

Lemma steady_display_block name key : preserves steady (display_block name key).
Proof. unfold display_block. repeat steady_step. Qed.

Lemma steady_all_loaded : preserves steady all_loaded.
Proof. unfold all_loaded. repeat steady_step. Qed.

Lemma steady_summary_block : preserves steady summary_block.
Proof. unfold summary_block. repeat steady_step. Qed.

Lemma steady_detail_block name key entry code ad :
  preserves steady (detail_block name key entry code ad).
Proof. unfold detail_block. repeat steady_step. Qed.

#[local] Hint Resolve steady_display_block steady_all_loaded steady_summary_block
  steady_detail_block : steady.

Section PageKeeps.

Variables client llm : Type.
Variable ChatOpenAI : string -> client -> result exception llm.
Variable invoke_content : llm -> string -> result exception string.
Variable proxy_client : option client.

Lemma steady_material_analysis code :
  preserves steady
    (material_analysis client llm ChatOpenAI invoke_content proxy_client code).
Proof. unfold material_analysis. repeat steady_step. Qed.

Lemma steady_general_query query :
  preserves steady
    (general_query client llm ChatOpenAI invoke_content proxy_client query).
Proof. unfold general_query. repeat steady_step. Qed.

(** The analysis tab never touches [st.session_state]. *)
Lemma steady_data_analysis w :
  preserves steady
    (data_analysis client llm ChatOpenAI invoke_content proxy_client w).
Proof.
  unfold data_analysis.
  repeat first [apply steady_material_analysis | apply steady_general_query
               | steady_step].
Qed.

End PageKeeps.

(** ** The slots of the session *)

Lemma dict_get_ensure_same key state :
  dict_get key (ensure key state)
  = Some (match dict_get key state with Some v => v | None => None end).
Proof.
  unfold ensure. destruct (dict_get key state) as [v|] eqn:E; [exact E|].
  apply dict_get_set_same.
Qed.

Lemma dict_get_ensure_other k key state :
  k <> key -> dict_get k (ensure key state) = dict_get k state.
Proof.
  intros Hk. unfold ensure. destruct (dict_get key state); [reflexivity|].
  now apply dict_get_set_other.
Qed.

Lemma started_slot s key lower file w :
  In (key, lower, file) (roles w) ->
  dict_get key (session_state (started s)) = Some (slot key s).
Proof.
  unfold roles, started, slot. simpl.
  intros [[= <- _ _] | [[= <- _ _] | [[= <- _ _] | []]]].
  - rewrite !dict_get_ensure_other by discriminate. apply dict_get_ensure_same.
  - rewrite dict_get_ensure_other by discriminate.
    rewrite dict_get_ensure_same. now rewrite dict_get_ensure_other by discriminate.
  - rewrite dict_get_ensure_same. now rewrite !dict_get_ensure_other by discriminate.
Qed.

Lemma bind_ok {A B : Type} (m : App A) (k : A -> App B) s a s1 :
  m s = Some (Ok a, s1) -> app_bind m k s = k a s1.
Proof. unfold app_bind. now intros ->. Qed.

Lemma init_state_run key s :
  init_state key s
  = Some (Ok tt, {| objects := objects s;
                    session_state := ensure key (session_state s);
                    page := page s |}).
Proof.
  destruct s as [h state p]. unfold init_state, app_bind, state_has, ensure. simpl.
  now destruct (dict_get key state).
Qed.

(** ** The upload columns *)

Lemma upload_block_spec name lower key file s :
  exists s2,
    upload_block name lower key file s = Some (Ok tt, s2)
    /\ follows s s2
    /\ (forall k, k <> key ->
                  dict_get k (session_state s2) = dict_get k (session_state s))
    /\ match file with
       | None => session_state s2 = session_state s
       | Some (Unreadable description) =>
           session_state s2 = session_state s
           /\ In (load_error lower description) (page s2)
       | Some (Workbook d) =>
           dict_get key (session_state s2) = Some (Some (List.length (objects s)))
           /\ nth_error (objects s2) (List.length (objects s)) = Some d
       end.
Proof.
  unfold upload_block.
  destruct file as [[d | description] |].
  - eexists. split.
    + unfold shape_at, frame_of, read_excel, df_shape.
      unfold app_try, app_bind, show, lift_M, new, state_set, state_get,
        bind, load, ret, app_ret.
      cbn [objects session_state page].
      rewrite dict_get_set_same. cbn [objects session_state page].
      rewrite heap_last. reflexivity.
    + cbn [objects session_state page]. repeat split.
      * now exists [d].
      * eexists. rewrite <- !app_assoc. reflexivity.
      * intros k Hk. now apply dict_get_set_other.
      * apply dict_get_set_same.
      * apply heap_last.
  - eexists. split; [reflexivity|]. cbn [objects session_state page].
    repeat split.
    + exists []. now rewrite app_nil_r.
    + eexists. rewrite <- !app_assoc. reflexivity.
    + apply in_or_app. right. now left.
  - eexists. split; [reflexivity|]. cbn [objects session_state page].
    repeat split.
    + exists []. now rewrite app_nil_r.
    + now eexists.
Qed.

Section PageUploads.

Variables client llm : Type.
Variable ChatOpenAI : string -> client -> result exception llm.
Variable invoke_content : llm -> string -> result exception string.
Variable proxy_client : option client.

Let run := main client llm ChatOpenAI invoke_content proxy_client.

Lemma main_started w s :
  run w s
  = app_bind (data_loading w)
      (fun _ => data_analysis client llm ChatOpenAI invoke_content proxy_client w)
      (started s).
Proof.
  unfold run, main.
  rewrite (bind_ok (show _) _ s tt _ eq_refl).
  rewrite !(bind_ok (init_state _) _ _ tt _ (init_state_run _ _)).
  reflexivity.
Qed.

(** What is shown and computed once the three upload columns are done. *)
Lemma after_uploads_steady :
  preserves steady
    (show (st_markdown "---") >>
     display_block "Sales" "sales_df" >>
     display_block "Production" "production_df" >>
     display_block "Reservations" "reservations_df" >>
     complete <~ all_loaded ;;
     if complete then summary_block else app_ret tt).
Proof. repeat steady_step. Qed.

Lemma uploads_decide_slots w s r s' :
  run w s = Some (r, s') ->
  follows s s'
  /\ forall key lower file,
       In (key, lower, file) (roles w) -> upload_effect s s' key lower file.
Proof.
  rewrite main_started. unfold data_loading.
  set (s0 := started s).
  assert (F0 : follows s s0).
  { split; simpl; [exists []; now rewrite app_nil_r | now eexists]. }
  pose (s1 := {| objects := objects s0; session_state := session_state s0;
                 page := page s0 ++ [st_markdown "---"] |}).
  assert (F1 : steady s0 s1).
  { repeat split; simpl; [exists []; now rewrite app_nil_r | now eexists]. }
  destruct (upload_block_spec "Sales" "sales" "sales_df" (sales_file w) s1)
    as (s2 & E2 & F2 & O2 & P2).
  destruct (upload_block_spec "Production" "production" "production_df"
              (production_file w) s2) as (s3 & E3 & F3 & O3 & P3).
  destruct (upload_block_spec "Reservations" "reservations" "reservations_df"
              (reservations_file w) s3) as (s4 & E4 & F4 & O4 & P4).
  intros Hrun. unfold app_bind at 1 in Hrun.
  rewrite (bind_ok (show _) _ s0 tt s1 eq_refl) in Hrun.
  rewrite (bind_ok _ _ s1 tt s2 E2), (bind_ok _ _ s2 tt s3 E3),
    (bind_ok _ _ s3 tt s4 E4) in Hrun.
  assert (F5 : steady s4 s').
  { match type of Hrun with
    | match ?m s4 with _ => _ end = _ =>
        destruct (m s4) as [[[[] | e] s5] |] eqn:E5; try discriminate;
        pose proof (after_uploads_steady s4 _ _ E5) as G5
    end.
    - apply (steady_trans _ s5); [exact G5|].
      exact (steady_data_analysis _ _ _ _ _ w s5 _ _ Hrun).
    - now injection Hrun as <- <-. }
  destruct F5 as [F5 S5].
  assert (F : follows s s').
  { apply (follows_trans _ s0 _ F0), (follows_trans _ s1 _ (proj1 F1)).
    apply (follows_trans _ s2 _ F2), (follows_trans _ s3 _ F3).
    exact (follows_trans _ s4 _ F4 F5). }
  split; [exact F|].
  intros key lower file Hin.
  pose proof (started_slot s key lower file w Hin) as H0.
  fold s0 in H0. change (session_state s0) with (session_state s1) in H0.
  destruct F5 as [[g5 G5] [p5 Q5]].
  destruct F4 as [[g4 G4] [p4 Q4]]. destruct F3 as [[g3 G3] [p3 Q3]].
  destruct F2 as [[g2 G2] [p2 Q2]].
  unfold roles in Hin. unfold upload_effect. rewrite S5.
  destruct Hin as [[= <- <- <-] | [[= <- <- <-] | [[= <- <- <-] | []]]].
  - rewrite O4, O3 by discriminate.
    destruct (sales_file w) as [[d | description] |].
    + destruct P2 as [D2 N2]. eexists. split; [exact D2|]. split.
      * rewrite G5, G4, G3. now do 3 apply heap_grow.
      * destruct F as [[g G] _]. simpl. lia.
    + destruct P2 as [-> I2]. split; [exact H0|].
      rewrite Q5, Q4, Q3. repeat (apply in_or_app; left). exact I2.
    + now rewrite P2.
  - rewrite O4 by discriminate.
    assert (H2 : dict_get "production_df" (session_state s2) = Some (slot "production_df" s))
      by (now rewrite O2 by discriminate).
    destruct (production_file w) as [[d | description] |].
    + destruct P3 as [D3 N3]. eexists. split; [exact D3|]. split.
      * rewrite G5, G4. now do 2 apply heap_grow.
      * rewrite G2. rewrite length_app. simpl. lia.
    + destruct P3 as [-> I3]. split; [exact H2|].
      rewrite Q5, Q4. repeat (apply in_or_app; left). exact I3.
    + now rewrite P3.
  - assert (H3 : dict_get "reservations_df" (session_state s3)
                 = Some (slot "reservations_df" s))
      by (now rewrite O3, O2 by discriminate).
    destruct (reservations_file w) as [[d | description] |].
    + destruct P4 as [D4 N4]. eexists. split; [exact D4|]. split.
      * rewrite G5. now apply heap_grow.
      * rewrite G3, G2. rewrite !length_app. simpl. lia.
    + destruct P4 as [-> I4]. split; [exact H3|].
      rewrite Q5. apply in_or_app. left. exact I4.
    + now rewrite P4.
Qed.

End PageUploads.

(** X7. An upload that [read_excel] cannot read is reported on the page,
    with the description of the exception, and the slot of its role is
    left as it was (empty if it did not exist yet), however the run ends. *)
Theorem unreadable_upload_is_reported (client llm : Type)
    (ChatOpenAI : string -> client -> result exception llm)
    (invoke_content : llm -> string -> result exception string)
    (proxy_client : option client) w s r s' key lower description :
  main client llm ChatOpenAI invoke_content proxy_client w s = Some (r, s') ->
  In (key, lower, Some (Unreadable description)) (roles w) ->
  dict_get key (session_state s') = Some (slot key s)
  /\ In (load_error lower description) (page s').
Proof.
  intros Hrun Hin.
  exact (proj2 (uploads_decide_slots _ _ _ _ _ w s r s' Hrun) _ _ _ Hin).
Qed.

Lemma unreadable_upload_is_reported_witness :
  exists r s',
    echo_main unreadable_sales loaded_session = Some (r, s')
    /\ In ("sales_df", "sales", Some (Unreadable "File is not a zip file"))
          (roles unreadable_sales)
    /\ dict_get "sales_df" (session_state s')
       = Some (slot "sales_df" loaded_session)
    /\ In (load_error "sales" "File is not a zip file") (page s').
Proof.
  eexists. eexists. split; [vm_compute; reflexivity|].
  split; [left; reflexivity|].
  apply (unreadable_upload_is_reported unit unit (fun _ _ => Ok tt) echo_service
           (Some tt) unreadable_sales loaded_session (Ok tt));
    [vm_compute; reflexivity | left; reflexivity].
Defined.

(** X8. A run without an upload for a role keeps the table of that role:
    the slot holds the same reference afterwards and the frame behind it
    is unchanged. *)
Theorem absent_upload_keeps_table (client llm : Type)
    (ChatOpenAI : string -> client -> result exception llm)
    (invoke_content : llm -> string -> result exception string)
    (proxy_client : option client) w s r s' key lower df T :
  main client llm ChatOpenAI invoke_content proxy_client w s = Some (r, s') ->
  In (key, lower, None) (roles w) ->
  dict_get key (session_state s) = Some (Some df) ->
  nth_error (objects s) df = Some T ->
  dict_get key (session_state s') = Some (Some df)
  /\ nth_error (objects s') df = Some T.
Proof.
  intros Hrun Hin Hslot HT.
  destruct (uploads_decide_slots _ _ _ _ _ w s r s' Hrun) as [[[g Hg] _] Heff].
  specialize (Heff _ _ _ Hin). simpl in Heff. unfold slot in Heff.
  rewrite Hslot in Heff. split; [exact Heff|].
  rewrite Hg. now apply heap_grow.
Qed.

Lemma absent_upload_keeps_table_witness :
  exists r s',
    echo_main unreadable_sales loaded_session = Some (r, s')
    /\ In ("production_df", "production", None) (roles unreadable_sales)
    /\ dict_get "production_df" (session_state loaded_session) = Some (Some 1)
    /\ nth_error (objects loaded_session) 1 = Some scenario_production
    /\ dict_get "production_df" (session_state s') = Some (Some 1)
    /\ nth_error (objects s') 1 = Some scenario_production.
Proof.
  eexists. eexists. split; [vm_compute; reflexivity|].
  split; [right; left; reflexivity|].
  split; [reflexivity|]. split; [reflexivity|].
  apply (absent_upload_keeps_table unit unit (fun _ _ => Ok tt) echo_service
           (Some tt) unreadable_sales loaded_session (Ok tt) _
           "production_df" "production");
    [vm_compute; reflexivity | right; left; reflexivity
    | reflexivity | reflexivity].
Defined.

(** X9. An upload that [read_excel] reads puts a new frame, with the
    content of the file, into the slot of its role: the reference is not
    one of the frames that existed before, and those are all unchanged. *)
Theorem workbook_upload_fills_slot (client llm : Type)
    (ChatOpenAI : string -> client -> result exception llm)
    (invoke_content : llm -> string -> result exception string)
    (proxy_client : option client) w s r s' key lower d :
  main client llm ChatOpenAI invoke_content proxy_client w s = Some (r, s') ->
  In (key, lower, Some (Workbook d)) (roles w) ->
  (exists df,
      dict_get key (session_state s') = Some (Some df)
      /\ nth_error (objects s') df = Some d
      /\ List.length (objects s) <= df)
  /\ forall l T, nth_error (objects s) l = Some T ->
                 nth_error (objects s') l = Some T.
Proof.
  intros Hrun Hin.
  destruct (uploads_decide_slots _ _ _ _ _ w s r s' Hrun) as [[[g Hg] _] Heff].
  split; [exact (Heff _ _ _ Hin)|].
  intros l T HT. rewrite Hg. now apply heap_grow.
Qed.

Lemma workbook_upload_fills_slot_witness :
  exists r s',
    echo_main new_production loaded_session = Some (r, s')
    /\ In ("production_df", "production", Some (Workbook six_rows))
          (roles new_production)
    /\ (exists df,
           dict_get "production_df" (session_state s') = Some (Some df)
           /\ nth_error (objects s') df = Some six_rows
           /\ List.length (objects loaded_session) <= df)
    /\ forall l T, nth_error (objects loaded_session) l = Some T ->
                   nth_error (objects s') l = Some T.
Proof.
  eexists. eexists. split; [vm_compute; reflexivity|].
  split; [right; left; reflexivity|].
  apply (workbook_upload_fills_slot unit unit (fun _ _ => Ok tt) echo_service
           (Some tt) new_production loaded_session (Ok tt) _
           "production_df" "production");
    [vm_compute; reflexivity | right; left; reflexivity].
Defined.

(** ** The loading tab always completes *)

Lemma live_lt h df : live h (Some df) = true -> exists d, nth_error h df = Some d.
Proof. apply live_nth. Qed.

Ltac unfold_page :=
  unfold shape_at, frame_of, df_shape;
  unfold app_try, app_bind, show, lift_M, lift_client, new, state_set, state_get,
    state_has, app_ret, app_raise, bind, load, ret;
  cbn [objects session_state page is_some].

Ltac run_page tac :=
  repeat (progress (tac; cbn [objects session_state page is_some])).

Lemma display_block_total name key v s :
  dict_get key (session_state s) = Some v ->
  live (objects s) v = true ->
  exists s2, display_block name key s = Some (Ok tt, s2) /\ steady s s2.
Proof.
  destruct s as [h ss p]. cbn [objects session_state]. intros H Hlive.
  unfold display_block. unfold_page. rewrite H.
  destruct v as [df|]; cbn [is_some].
  - destruct (live_lt _ _ Hlive) as [d Hd].
    run_page ltac:(rewrite ?H, ?Hd).
    eexists. split; [reflexivity|]. repeat split; simpl.
    + exists []. now rewrite app_nil_r.
    + eexists. rewrite <- !app_assoc. reflexivity.
  - eexists. split; [reflexivity | apply steady_refl].
Qed.

Lemma all_loaded_run a b c s :
  dict_get "sales_df" (session_state s) = Some a ->
  dict_get "production_df" (session_state s) = Some b ->
  dict_get "reservations_df" (session_state s) = Some c ->
  all_loaded s = Some (Ok (is_some a && is_some b && is_some c), s).
Proof.
  intros Ha Hb Hc. unfold all_loaded. unfold_page.
  now rewrite Ha, Hb, Hc.
Qed.

Lemma summary_block_total a b c s :
  dict_get "sales_df" (session_state s) = Some (Some a) ->
  dict_get "production_df" (session_state s) = Some (Some b) ->
  dict_get "reservations_df" (session_state s) = Some (Some c) ->
  live (objects s) (Some a) = true ->
  live (objects s) (Some b) = true ->
  live (objects s) (Some c) = true ->
  exists s2, summary_block s = Some (Ok tt, s2) /\ steady s s2.
Proof.
  destruct s as [h ss p]. cbn [objects session_state].
  intros Ha Hb Hc La Lb Lc.
  destruct (live_lt _ _ La) as [da Hda]. destruct (live_lt _ _ Lb) as [db Hdb].
  destruct (live_lt _ _ Lc) as [dc Hdc].
  unfold summary_block. unfold_page.
  run_page ltac:(rewrite ?Ha, ?Hb, ?Hc, ?Hda, ?Hdb, ?Hdc).
  eexists. split; [reflexivity|]. repeat split; simpl.
  - now eexists.
  - eexists. rewrite <- !app_assoc. reflexivity.
Qed.

Lemma live_grow_follows s s' v :
  follows s s' -> live (objects s) v = true -> live (objects s') v = true.
Proof.
  intros [[g ->] _]. apply live_grow.
Qed.

(** One upload column: the slot afterwards, and that it is live. *)
Lemma upload_block_slot name lower key file s v :
  dict_get key (session_state s) = Some v ->
  live (objects s) v = true ->
  exists s2 v',
    upload_block name lower key file s = Some (Ok tt, s2)
    /\ follows s s2
    /\ (forall k, k <> key ->
                  dict_get k (session_state s2) = dict_get k (session_state s))
    /\ dict_get key (session_state s2) = Some v'
    /\ live (objects s2) v' = true
    /\ match file with
       | Some (Workbook d) =>
           exists df, v' = Some df /\ nth_error (objects s2) df = Some d
                      /\ List.length (objects s) <= df
       | Some (Unreadable description) =>
           v' = v /\ In (load_error lower description) (page s2)
       | None => v' = v
       end.
Proof.
  intros H Hlive.
  destruct (upload_block_spec name lower key file s) as (s2 & E & F & O & P).
  exists s2. destruct file as [[d | description] |].
  - destruct P as [D N]. exists (Some (List.length (objects s))).
    split; [exact E|]. split; [exact F|]. split; [exact O|]. split; [exact D|].
    split.
    + simpl. apply Nat.ltb_lt. apply nth_error_Some. congruence.
    + eexists. split; [reflexivity|]. split; [exact N | lia].
  - destruct P as [S I]. exists v.
    split; [exact E|]. split; [exact F|]. split; [exact O|].
    split; [now rewrite S|]. split; [now apply (live_grow_follows s)|].
    now split.
  - exists v.
    split; [exact E|]. split; [exact F|]. split; [exact O|].
    split; [now rewrite P|]. split; [now apply (live_grow_follows s)|].
    reflexivity.
Qed.

Lemma slots_live_key s key :
  slots_live s = true -> In key slot_keys -> live (objects s) (slot key s) = true.
Proof.
  unfold slots_live. rewrite forallb_forall. auto.
Qed.

Lemma upload_effect_of s s4 s5 key lower file v' :
  dict_get key (session_state s5) = Some v' ->
  follows s4 s5 ->
  List.length (objects s) <= List.length (objects s4) ->
  match file with
  | Some (Workbook d) =>
      exists df, v' = Some df /\ nth_error (objects s4) df = Some d
                 /\ List.length (objects s) <= df
  | Some (Unreadable description) =>
      v' = slot key s /\ In (load_error lower description) (page s4)
  | None => v' = slot key s
  end ->
  upload_effect s s5 key lower file.
Proof.
  intros H [[g G] [es Q]] Hlen Hm. unfold upload_effect.
  destruct file as [[d | description] |].
  - destruct Hm as (df & -> & N & L). exists df. repeat split; [exact H | | exact L].
    rewrite G. now apply heap_grow.
  - destruct Hm as [-> I]. split; [exact H|]. rewrite Q. apply in_or_app. now left.
  - now rewrite <- Hm.
Qed.

Lemma slot_effect_follows s0 sa sb s5 lower file v v' :
  follows s0 sa -> follows sb s5 ->
  match file with
  | Some (Workbook d) =>
      exists df, v' = Some df /\ nth_error (objects sb) df = Some d
                 /\ List.length (objects sa) <= df
  | Some (Unreadable description) =>
      v' = v /\ In (load_error lower description) (page sb)
  | None => v' = v
  end ->
  slot_effect s0 s5 lower file v v'.
Proof.
  intros [[g0 G0] _] [[g G] [es Q]] H. unfold slot_effect.
  destruct file as [[d | description] |]; [| |exact H].
  - destruct H as (df & -> & N & L). exists df. repeat split.
    + rewrite G. now apply heap_grow.
    + rewrite G0, length_app in L. lia.
  - destruct H as [-> I]. split; [reflexivity|].
    rewrite Q. apply in_or_app. now left.
Qed.

Lemma data_loading_total w s0 va vb vc :
  dict_get "sales_df" (session_state s0) = Some va ->
  dict_get "production_df" (session_state s0) = Some vb ->
  dict_get "reservations_df" (session_state s0) = Some vc ->
  live (objects s0) va = true ->
  live (objects s0) vb = true ->
  live (objects s0) vc = true ->
  exists s5 va' vb' vc',
    data_loading w s0 = Some (Ok tt, s5)
    /\ follows s0 s5
    /\ dict_get "sales_df" (session_state s5) = Some va'
    /\ dict_get "production_df" (session_state s5) = Some vb'
    /\ dict_get "reservations_df" (session_state s5) = Some vc'
    /\ live (objects s5) va' = true
    /\ live (objects s5) vb' = true
    /\ live (objects s5) vc' = true
    /\ slot_effect s0 s5 "sales" (sales_file w) va va'
    /\ slot_effect s0 s5 "production" (production_file w) vb vb'
    /\ slot_effect s0 s5 "reservations" (reservations_file w) vc vc'.
Proof.
  intros Ha Hb Hc La Lb Lc. unfold data_loading.
  pose (s1 := {| objects := objects s0; session_state := session_state s0;
                 page := page s0 ++ [st_markdown "---"] |}).
  assert (F1 : follows s0 s1).
  { split; simpl; [exists []; now rewrite app_nil_r | now eexists]. }
  rewrite (bind_ok (show _) _ s0 tt s1 eq_refl).
  destruct (upload_block_slot "Sales" "sales" "sales_df" (sales_file w) s1 va Ha La)
    as (s2 & va' & E2 & F2 & O2 & A2 & LA2 & M2).
  rewrite (bind_ok _ _ s1 tt s2 E2).
  assert (B2 : dict_get "production_df" (session_state s2) = Some vb)
    by (now rewrite O2 by discriminate).
  assert (C2 : dict_get "reservations_df" (session_state s2) = Some vc)
    by (now rewrite O2 by discriminate).
  destruct (upload_block_slot "Production" "production" "production_df"
              (production_file w) s2 vb B2
              (live_grow_follows _ _ _ (follows_trans _ _ _ F1 F2) Lb))
    as (s3 & vb' & E3 & F3 & O3 & B3 & LB3 & M3).
  rewrite (bind_ok _ _ s2 tt s3 E3).
  assert (A3 : dict_get "sales_df" (session_state s3) = Some va')
    by (now rewrite O3 by discriminate).
  assert (C3 : dict_get "reservations_df" (session_state s3) = Some vc)
    by (now rewrite O3 by discriminate).
  destruct (upload_block_slot "Reservations" "reservations" "reservations_df"
              (reservations_file w) s3 vc C3
              (live_grow_follows _ _ _
                 (follows_trans _ _ _ F1 (follows_trans _ _ _ F2 F3)) Lc))
    as (s4 & vc' & E4 & F4 & O4 & C4 & LC4 & M4).
  rewrite (bind_ok _ _ s3 tt s4 E4).
  assert (A4 : dict_get "sales_df" (session_state s4) = Some va')
    by (now rewrite O4 by discriminate).
  assert (B4 : dict_get "production_df" (session_state s4) = Some vb')
    by (now rewrite O4 by discriminate).
  assert (LA4 : live (objects s4) va' = true)
    by (exact (live_grow_follows _ _ _ (follows_trans _ _ _ F3 F4) LA2)).
  assert (LB4 : live (objects s4) vb' = true)
    by (exact (live_grow_follows _ _ _ F4 LB3)).
  pose (s4' := {| objects := objects s4; session_state := session_state s4;
                  page := page s4 ++ [st_markdown "---"] |}).
  assert (F4' : steady s4 s4').
  { repeat split; simpl; [exists []; now rewrite app_nil_r | now eexists]. }
  rewrite (bind_ok (show _) _ s4 tt s4' eq_refl).
  destruct (display_block_total "Sales" "sales_df" va' s4' A4 LA4)
    as (s5 & E5 & F5 & S5).
  rewrite (bind_ok _ _ s4' tt s5 E5).
  destruct (display_block_total "Production" "production_df" vb' s5)
    as (s6 & E6 & F6 & S6);
    [now rewrite S5 | exact (live_grow_follows _ _ _ F5 LB4)|].
  rewrite (bind_ok _ _ s5 tt s6 E6).
  destruct (display_block_total "Reservations" "reservations_df" vc' s6)
    as (s7 & E7 & F7 & S7);
    [now rewrite S6, S5
    | exact (live_grow_follows _ _ _ (follows_trans _ _ _ F5 F6) LC4)|].
  rewrite (bind_ok _ _ s6 tt s7 E7).
  assert (S74 : session_state s7 = session_state s4)
    by (rewrite S7, S6, S5; reflexivity).
  assert (F47 : follows s4 s7).
  { apply (follows_trans _ s4' _ (proj1 F4')), (follows_trans _ s5 _ F5).
    exact (follows_trans _ s6 _ F6 F7). }
  rewrite (bind_ok _ _ s7 _ s7 (all_loaded_run va' vb' vc' s7
             ltac:(now rewrite S74) ltac:(now rewrite S74) ltac:(now rewrite S74))).
  assert (F07 : follows s0 s7).
  { apply (follows_trans _ s1 _ F1), (follows_trans _ s2 _ F2).
    apply (follows_trans _ s3 _ F3). exact (follows_trans _ s4 _ F4 F47). }
  assert (Hend : exists s8,
             (if is_some va' && is_some vb' && is_some vc'
              then summary_block else app_ret tt) s7 = Some (Ok tt, s8)
             /\ steady s7 s8).
  { destruct va' as [a|], vb' as [b|], vc' as [c|]; cbn [is_some andb];
      try (eexists; split; [reflexivity | apply steady_refl]).
    apply (summary_block_total a b c); rewrite ?S74; try assumption.
    - exact (live_grow_follows _ _ _ F47 LA4).
    - exact (live_grow_follows _ _ _ F47 LB4).
    - exact (live_grow_follows _ _ _ F47 LC4). }
  destruct Hend as (s8 & E8 & F8 & S8).
  assert (F48 : follows s4 s8) by exact (follows_trans _ _ _ F47 F8).
  exists s8, va', vb', vc'. rewrite E8.
  split; [reflexivity|]. split; [exact (follows_trans _ _ _ F07 F8)|].
  rewrite S8, S74.
  split; [exact A4|]. split; [exact B4|]. split; [exact C4|].
  split; [exact (live_grow_follows _ _ _ F48 LA4)|].
  split; [exact (live_grow_follows _ _ _ F48 LB4)|].
  split; [exact (live_grow_follows _ _ _ F48 LC4)|].
  split; [|split].
  - apply (slot_effect_follows s0 s1 s2 s8); [exact F1 | | exact M2].
    exact (follows_trans _ _ _ F3 (follows_trans _ _ _ F4 F48)).
  - apply (slot_effect_follows s0 s2 s3 s8);
      [exact (follows_trans _ _ _ F1 F2) | | exact M3].
    exact (follows_trans _ _ _ F4 F48).
  - apply (slot_effect_follows s0 s3 s4 s8);
      [exact (follows_trans _ _ _ F1 (follows_trans _ _ _ F2 F3)) | exact F48
      | exact M4].
Qed.

Section PageRuns.

Variables client llm : Type.
Variable ChatOpenAI : string -> client -> result exception llm.
Variable invoke_content : llm -> string -> result exception string.
Variable proxy_client : option client.

Let run := main client llm ChatOpenAI invoke_content proxy_client.
Let analysis := data_analysis client llm ChatOpenAI invoke_content proxy_client.

Lemma started_slots s :
  slots_live s = true ->
  dict_get "sales_df" (session_state (started s)) = Some (slot "sales_df" s)
  /\ dict_get "production_df" (session_state (started s))
     = Some (slot "production_df" s)
  /\ dict_get "reservations_df" (session_state (started s))
     = Some (slot "reservations_df" s)
  /\ live (objects (started s)) (slot "sales_df" s) = true
  /\ live (objects (started s)) (slot "production_df" s) = true
  /\ live (objects (started s)) (slot "reservations_df" s) = true.
Proof.
  intros Hlive.
  split; [apply (started_slot s _ "sales" None idle); left; reflexivity|].
  split; [apply (started_slot s _ "production" None idle); right; left; reflexivity|].
  split; [apply (started_slot s _ "reservations" None idle);
          right; right; left; reflexivity|].
  change (objects (started s)) with (objects s).
  repeat split; apply slots_live_key; try assumption; simpl; tauto.
Qed.

Lemma loading_run w s :
  slots_live s = true ->
  exists s5 va vb vc,
    data_loading w (started s) = Some (Ok tt, s5)
    /\ run w s = analysis w s5
    /\ follows s s5
    /\ dict_get "sales_df" (session_state s5) = Some va
    /\ dict_get "production_df" (session_state s5) = Some vb
    /\ dict_get "reservations_df" (session_state s5) = Some vc
    /\ live (objects s5) va = true
    /\ live (objects s5) vb = true
    /\ live (objects s5) vc = true
    /\ slot_effect (started s) s5 "sales" (sales_file w) (slot "sales_df" s) va
    /\ slot_effect (started s) s5 "production" (production_file w)
         (slot "production_df" s) vb
    /\ slot_effect (started s) s5 "reservations" (reservations_file w)
         (slot "reservations_df" s) vc.
Proof.
  intros Hlive.
  destruct (started_slots s Hlive) as (Ha & Hb & Hc & La & Lb & Lc).
  destruct (data_loading_total w (started s) _ _ _ Ha Hb Hc La Lb Lc)
    as (s5 & va & vb & vc & E & F & R).
  exists s5, va, vb, vc. split; [exact E|]. split.
  - unfold run. rewrite main_started. now rewrite (bind_ok _ _ _ _ _ E).
  - split; [|exact R].
    apply (follows_trans _ (started s)); [|exact F].
    split; simpl; [exists []; now rewrite app_nil_r | now eexists].
Qed.

Lemma data_analysis_refuses w s a b c :
  dict_get "sales_df" (session_state s) = Some a ->
  dict_get "production_df" (session_state s) = Some b ->
  dict_get "reservations_df" (session_state s) = Some c ->
  is_some a && is_some b && is_some c = false ->
  analysis w s
  = Some (Ok tt, {| objects := objects s; session_state := session_state s;
                    page := page s ++ refusal |}).
Proof.
  intros Ha Hb Hc Hnot. unfold analysis, data_analysis.
  rewrite (bind_ok (show _) _ s tt _ eq_refl).
  rewrite (bind_ok _ _ _ _ _
             (all_loaded_run a b c
                {| objects := objects s; session_state := session_state s;
                   page := page s ++ [st_subheader "AI-Powered Data Analysis"] |}
                Ha Hb Hc)).
  rewrite Hnot. unfold show. cbn [negb objects session_state page].
  now rewrite <- app_assoc.
Qed.

End PageRuns.

(** X10. Whatever is uploaded, the loading tab completes: no exception of
    [read_excel] leaves it, every slot refers to a frame afterwards, and
    the run goes on with the analysis tab. *)
Theorem loading_always_completes (client llm : Type)
    (ChatOpenAI : string -> client -> result exception llm)
    (invoke_content : llm -> string -> result exception string)
    (proxy_client : option client) w s :
  slots_live s = true ->
  exists s5,
    data_loading w (started s) = Some (Ok tt, s5)
    /\ slots_live s5 = true
    /\ follows s s5
    /\ main client llm ChatOpenAI invoke_content proxy_client w s
       = data_analysis client llm ChatOpenAI invoke_content proxy_client w s5.
Proof.
  intros Hlive.
  destruct (loading_run client llm ChatOpenAI invoke_content proxy_client w s Hlive)
    as (s5 & va & vb & vc & E & Hrun & F & Ha & Hb & Hc & La & Lb & Lc & _).
  exists s5. split; [exact E|]. split; [|split; [exact F | exact Hrun]].
  unfold slots_live, slot_keys, slot. cbn [forallb].
  now rewrite Ha, Hb, Hc, La, Lb, Lc.
Qed.

Lemma loading_always_completes_witness :
  slots_live partly_loaded = true
  /\ exists s5,
       data_loading unreadable_sales (started partly_loaded) = Some (Ok tt, s5)
       /\ slots_live s5 = true
       /\ follows partly_loaded s5
       /\ echo_main unreadable_sales partly_loaded
          = data_analysis unit unit (fun _ _ => Ok tt) echo_service (Some tt)
              unreadable_sales s5.
Proof.
  split; [reflexivity|].
  apply (loading_always_completes unit unit (fun _ _ => Ok tt) echo_service
           (Some tt) unreadable_sales partly_loaded). reflexivity.
Defined.

(** X11. When, after the uploads of the run, a role still has no table,
    the run ends normally with the warning: the page gets the two elements
    of the refusal after those of the loading tab, and neither the widgets
    of the analysis tab nor the service have any part in the result. *)
Theorem missing_table_stops_analysis (client llm : Type)
    (ChatOpenAI : string -> client -> result exception llm)
    (invoke_content : llm -> string -> result exception string)
    (proxy_client : option client) w s key lower file :
  slots_live s = true ->
  In (key, lower, file) (roles w) ->
  slot key s = None ->
  (file = None \/ exists description, file = Some (Unreadable description)) ->
  exists s5,
    data_loading w (started s) = Some (Ok tt, s5)
    /\ main client llm ChatOpenAI invoke_content proxy_client w s
       = Some (Ok tt, {| objects := objects s5; session_state := session_state s5;
                         page := page s5 ++ refusal |}).
Proof.
  intros Hlive Hin Hslot Hfile.
  destruct (loading_run client llm ChatOpenAI invoke_content proxy_client w s Hlive)
    as (s5 & va & vb & vc & E & Hrun & F & Ha & Hb & Hc & La & Lb & Lc
        & Ma & Mb & Mc).
  exists s5. split; [exact E|]. rewrite Hrun.
  apply (data_analysis_refuses _ _ _ _ _ w s5 va vb vc Ha Hb Hc).
  unfold roles in Hin.
  destruct Hin as [[= <- <- <-] | [[= <- <- <-] | [[= <- <- <-] | []]]];
    rewrite Hslot in *.
  - assert (va = None) as ->.
    { unfold slot_effect in Ma.
      destruct Hfile as [Hf | [d Hf]]; rewrite Hf in Ma; [exact Ma | exact (proj1 Ma)]. }
    reflexivity.
  - assert (vb = None) as ->.
    { unfold slot_effect in Mb.
      destruct Hfile as [Hf | [d Hf]]; rewrite Hf in Mb; [exact Mb | exact (proj1 Mb)]. }
    now destruct (is_some va).
  - assert (vc = None) as ->.
    { unfold slot_effect in Mc.
      destruct Hfile as [Hf | [d Hf]]; rewrite Hf in Mc; [exact Mc | exact (proj1 Mc)]. }
    now destruct (is_some va), (is_some vb).
Qed.

Lemma missing_table_stops_analysis_witness :
  slots_live partly_loaded = true
  /\ In ("sales_df", "sales", None) (roles ask_M1)
  /\ slot "sales_df" partly_loaded = None
  /\ exists s5,
       data_loading ask_M1 (started partly_loaded) = Some (Ok tt, s5)
       /\ echo_main ask_M1 partly_loaded
          = Some (Ok tt, {| objects := objects s5;
                            session_state := session_state s5;
                            page := page s5 ++ refusal |}).
Proof.
  split; [reflexivity|]. split; [left; reflexivity|]. split; [reflexivity|].
  apply (missing_table_stops_analysis unit unit (fun _ _ => Ok tt) echo_service
           (Some tt) ask_M1 partly_loaded "sales_df" "sales" None);
    [reflexivity | left; reflexivity | reflexivity | left; reflexivity].
Defined.

(** ** The analysis tab *)

Lemma show_run e s :
  show e s = Some (Ok tt, {| objects := objects s; session_state := session_state s;
                             page := page s ++ [e] |}).
Proof. reflexivity. Qed.

Lemma state_get_run key v s :
  dict_get key (session_state s) = Some v -> state_get key s = Some (Ok v, s).
Proof. unfold state_get. now intros ->. Qed.

Lemma frame_of_run key df s :
  dict_get key (session_state s) = Some (Some df) -> frame_of key s = Some (Ok df, s).
Proof.
  intros H. unfold frame_of. now rewrite (bind_ok _ _ s _ s (state_get_run _ _ _ H)).
Qed.

Lemma lift_M_run {A : Type} (m : M A) s a h' :
  m (objects s) = Some (Ok a, h') ->
  lift_M m s = Some (Ok a, {| objects := h'; session_state := session_state s;
                              page := page s |}).
Proof. unfold lift_M. now intros ->. Qed.

Lemma lift_M_raise {A : Type} (m : M A) s e h' :
  m (objects s) = Some (Raise e, h') ->
  lift_M m s = Some (Raise (inl e),
                     {| objects := h'; session_state := session_state s;
                        page := page s |}).
Proof. unfold lift_M. now intros ->. Qed.

Ltac step_show :=
  match goal with
  | |- context [app_bind (show ?e) ?k ?st] =>
      rewrite (bind_ok (show e) k st tt _ (show_run e st));
      cbn [objects session_state page]
  end.

Ltac step_get H :=
  match goal with
  | |- context [app_bind (state_get ?key) ?k ?st] =>
      rewrite (bind_ok (state_get key) k st _ st (state_get_run key _ st H))
  end.

Ltac step_frame H :=
  match goal with
  | |- context [app_bind (frame_of ?key) ?k ?st] =>
      rewrite (bind_ok (frame_of key) k st _ st (frame_of_run key _ st H))
  end.

Ltac step_M E :=
  match goal with
  | |- context [app_bind (lift_M ?m) ?k ?st] =>
      rewrite (bind_ok (lift_M m) k st _ _ (lift_M_run m st _ _ E));
      cbn [objects session_state page]
  end.

Lemma matching_rows_literal t df h T :
  is_literal t = true ->
  rectangular T = true ->
  nth_error h df = Some T ->
  exists g, matching_rows t df h
            = Some (Ok (List.length (h ++ g)), (h ++ g) ++ [selection t T]).
Proof.
  intros Ht HT Hdf. pose proof (matching_rows_run t df h T HT Hdf) as H.
  destruct (matching t T) as [[d' | e] |] eqn:Em.
  - now rewrite (matching_selected t T d' HT Em) in H.
  - unfold matching in Em. rewrite re_compile_literal in Em by exact Ht.
    now destruct (no_cells T).
  - unfold matching in Em. rewrite re_compile_literal in Em by exact Ht.
    now destruct (no_cells T).
Qed.

Lemma detail_block_run name key entry t ad s df T :
  dict_get key (session_state s) = Some (Some df) ->
  nth_error (objects s) df = Some T ->
  rectangular T = true ->
  is_literal t = true ->
  exists s2 f,
    detail_block name key entry t ad s = Some (Ok tt, s2)
    /\ steady s s2
    /\ page s2 = page s ++ detail_elements name (get_count entry ad) f
    /\ ((0 < get_count entry ad)%Z ->
        nth_error (objects s2) f = Some (selection t T)).
Proof.
  intros Hkey Hdf HT Ht. unfold detail_block, detail_elements.
  destruct (0 <? get_count entry ad)%Z eqn:E.
  - destruct (matching_rows_literal t df (objects s) T Ht HT Hdf) as [g Hg].
    step_show. step_frame Hkey. step_M Hg.
    exists {| objects := (objects s ++ g) ++ [selection t T];
              session_state := session_state s;
              page := (page s
                       ++ [st_subheader (String.concat EmptyString
                                           [name; " Data for Material"])])
                      ++ [st_dataframe (List.length (objects s ++ g))] |},
           (List.length (objects s ++ g)).
    split; [reflexivity|]. cbn [objects session_state page].
    split; [split; [split|reflexivity]|split].
    + exists (g ++ [selection t T]). cbn. now rewrite app_assoc.
    + eexists. cbn. rewrite <- app_assoc. reflexivity.
    + now rewrite <- app_assoc.
    + intros _. apply heap_last.
  - exists s, 0. split; [reflexivity|]. split; [apply steady_refl|].
    split; [now rewrite app_nil_r|]. apply Z.ltb_ge in E. lia.
Qed.

Lemma analysis_counts t Ts Tp Tr ad :
  rectangular Ts = true -> rectangular Tp = true -> rectangular Tr = true ->
  analysis_of t (Some Ts) (Some Tp) (Some Tr) = Some (Ok ad) ->
  get_count "sales" ad = hits t Ts
  /\ get_count "production" ad = hits t Tp
  /\ get_count "reservations" ad = hits t Tr.
Proof.
  intros Hs Hp Hr Ha. unfold get_count, hits.
  pose proof (analysis_of_entries _ _ _ _ _ Ha) as H.
  destruct (H "sales" (Some Ts) (or_introl eq_refl) Ts eq_refl) as (es & Es & ->).
  destruct (H "production" (Some Tp) (or_intror (or_introl eq_refl)) Tp eq_refl)
    as (ep & Ep & ->).
  destruct (H "reservations" (Some Tr)
              (or_intror (or_intror (or_introl eq_refl))) Tr eq_refl)
    as (er & Er & ->).
  split; [apply (entry_of_selected t Ts es Hs Es)|].
  split; [apply (entry_of_selected t Tp ep Hp Ep)
         |apply (entry_of_selected t Tr er Hr Er)].
Qed.

Lemma valid_ref_of h l T :
  nth_error h l = Some T -> frame_ok T = true -> valid_ref h (Some l) = true.
Proof. unfold valid_ref. now intros ->. Qed.

Lemma live_of h l T : nth_error h l = Some T -> live h (Some l) = true.
Proof.
  intros H. unfold live. apply Nat.ltb_lt. apply nth_error_Some. congruence.
Qed.

Section PageAnalysis.

Variables client llm : Type.
Variable ChatOpenAI : string -> client -> result exception llm.
Variable invoke_content : llm -> string -> result exception string.
Variable proxy_client : option client.

Let ask := ask_llm_simple client llm ChatOpenAI invoke_content proxy_client.
Let analysis := data_analysis client llm ChatOpenAI invoke_content proxy_client.

Lemma ask_total prompt : exists text, ask prompt = Ok text.
Proof.
  unfold ask, ask_llm_simple, try_except. destruct proxy_client as [pc|].
  - destruct (ChatOpenAI "gpt-5" pc) as [model | e]; [|now eexists].
    destruct (invoke_content model prompt); now eexists.
  - now eexists.
Qed.

Lemma material_analysis_run t s a b c Ts Tp Tr :
  dict_get "sales_df" (session_state s) = Some (Some a) ->
  dict_get "production_df" (session_state s) = Some (Some b) ->
  dict_get "reservations_df" (session_state s) = Some (Some c) ->
  nth_error (objects s) a = Some Ts ->
  nth_error (objects s) b = Some Tp ->
  nth_error (objects s) c = Some Tr ->
  frame_ok Ts = true -> frame_ok Tp = true -> frame_ok Tr = true ->
  is_literal t = true ->
  exists ad text s' fs fp fr,
    analysis_of t (Some Ts) (Some Tp) (Some Tr) = Some (Ok ad)
    /\ ask (analysis_prompt_text t ad
              (columns Ts) (first_five (Some Ts))
              (columns Tp) (first_five (Some Tp))
              (columns Tr) (first_five (Some Tr))) = Ok text
    /\ material_analysis client llm ChatOpenAI invoke_content proxy_client t s
       = Some (Ok tt, s')
    /\ page s'
       = page s
         ++ results_elements t (get_count "sales" ad) (get_count "production" ad)
              (get_count "reservations" ad) text
         ++ detail_elements "Sales" (get_count "sales" ad) fs
         ++ detail_elements "Production" (get_count "production" ad) fp
         ++ detail_elements "Reservations" (get_count "reservations" ad) fr
    /\ ((0 < get_count "sales" ad)%Z ->
        nth_error (objects s') fs = Some (selection t Ts))
    /\ ((0 < get_count "production" ad)%Z ->
        nth_error (objects s') fp = Some (selection t Tp))
    /\ ((0 < get_count "reservations" ad)%Z ->
        nth_error (objects s') fr = Some (selection t Tr)).
Proof.
  intros Ka Kb Kc Ha Hb Hc Fa Fb Fc Ht.
  pose proof (valid_ref_of _ _ _ Ha Fa) as Va.
  pose proof (valid_ref_of _ _ _ Hb Fb) as Vb.
  pose proof (valid_ref_of _ _ _ Hc Fc) as Vc.
  destruct (analysis_of_literal t (Some Ts) (Some Tp) (Some Tr) Ht) as [ad Ead].
  pose proof (analyze_runs t (Some a) (Some b) (Some c) (objects s) Va Vb Vc) as R1.
  cbn [deref] in R1. rewrite Ha, Hb, Hc, Ead in R1. destruct R1 as [g1 R1].
  pose proof (create_analysis_prompt_runs t ad (Some a) (Some b) (Some c)
                (objects s ++ g1)
                (live_grow _ _ _ (live_of _ _ _ Ha))
                (live_grow _ _ _ (live_of _ _ _ Hb))
                (live_grow _ _ _ (live_of _ _ _ Hc))) as R2.
  rewrite !deref_live_grow in R2 by (eapply live_of; eassumption).
  cbn [deref] in R2. rewrite Ha, Hb, Hc in R2. cbn [names_of] in R2.
  destruct R2 as [g2 R2].
  destruct (ask_total (analysis_prompt_text t ad
              (columns Ts) (first_five (Some Ts))
              (columns Tp) (first_five (Some Tp))
              (columns Tr) (first_five (Some Tr)))) as [text Etext].
  apply andb_true_iff in Fa as [Ra _]. apply andb_true_iff in Fb as [Rb _].
  apply andb_true_iff in Fc as [Rc _].
  exists ad, text.
  unfold material_analysis.
  step_get Ka. step_get Kb. step_get Kc. step_M R1.
  step_get Ka. step_get Kb. step_get Kc. step_M R2.
  fold ask. rewrite Etext. cbn [lift_client].
  rewrite (bind_ok (app_ret text) _ _ text _ eq_refl).
  do 6 step_show.
  match goal with
  | |- context [app_bind (detail_block _ _ _ _ _) _ ?st] =>
      destruct (detail_block_run "Sales" "sales_df" "sales" t ad st a Ts Ka
                  (heap_grow _ _ _ _ (heap_grow _ _ _ _ Ha)) Ra Ht)
        as (s1 & fs & E1 & S1 & P1 & D1);
      rewrite (bind_ok _ _ st tt s1 E1)
  end.
  destruct S1 as [[[k1 O1] _] K1]. cbn [objects session_state page] in *.
  assert (Kb1 : dict_get "production_df" (session_state s1) = Some (Some b))
    by now rewrite K1.
  assert (Kc1 : dict_get "reservations_df" (session_state s1) = Some (Some c))
    by now rewrite K1.
  assert (Hb1 : nth_error (objects s1) b = Some Tp)
    by (rewrite O1; now do 3 apply heap_grow).
  assert (Hc1 : nth_error (objects s1) c = Some Tr)
    by (rewrite O1; now do 3 apply heap_grow).
  destruct (detail_block_run "Production" "production_df" "production" t ad s1 b Tp
              Kb1 Hb1 Rb Ht) as (s2 & fp & E2 & S2 & P2 & D2).
  rewrite (bind_ok _ _ s1 tt s2 E2).
  destruct S2 as [[[k2 O2] _] K2].
  assert (Kc2 : dict_get "reservations_df" (session_state s2) = Some (Some c))
    by now rewrite K2.
  assert (Hc2 : nth_error (objects s2) c = Some Tr)
    by (rewrite O2; now apply heap_grow).
  destruct (detail_block_run "Reservations" "reservations_df" "reservations" t ad
              s2 c Tr Kc2 Hc2 Rc Ht) as (s3 & fr & E3 & S3 & P3 & D3).
  destruct S3 as [[[k3 O3] _] K3].
  exists s3, fs, fp, fr.
  split; [exact Ead|]. split; [reflexivity|]. split; [exact E3|].
  split.
  { rewrite P3, P2, P1. unfold results_elements.
    rewrite <- !app_assoc. reflexivity. }
  split.
  { intros Hpos. rewrite O3, O2. do 2 apply heap_grow. now apply D1. }
  split.
  { intros Hpos. rewrite O3. apply heap_grow. now apply D2. }
  exact D3.
Qed.

End PageAnalysis.

Lemma bind_raise {A B : Type} (m : App A) (k : A -> App B) s e s1 :
  m s = Some (Raise e, s1) -> app_bind m k s = Some (Raise e, s1).
Proof. unfold app_bind. now intros ->. Qed.

Lemma analysis_of_bad t Ts Tp Tr :
  re_compile t true = Some (Raise re_error) ->
  no_cells Ts && no_cells Tp && no_cells Tr = false ->
  analysis_of t (Some Ts) (Some Tp) (Some Tr) = Some (Raise re_error).
Proof.
  intros Hc Hcells. unfold analysis_of, add_entry.
  destruct (no_cells Ts) eqn:Es;
    [rewrite (entry_of_no_cells t Ts Es) | now rewrite (entry_of_bad t Ts _ Hc Es)].
  destruct (no_cells Tp) eqn:Ep;
    [rewrite (entry_of_no_cells t Tp Ep) | now rewrite (entry_of_bad t Tp _ Hc Ep)].
  destruct (no_cells Tr) eqn:Er; [discriminate|].
  now rewrite (entry_of_bad t Tr _ Hc Er).
Qed.

Lemma bad_token_not_empty t :
  re_compile t true = Some (Raise re_error) -> String.eqb t EmptyString = false.
Proof.
  intros H. destruct (String.eqb_spec t EmptyString) as [-> |]; [|reflexivity].
  discriminate.
Qed.

Section PageBranches.

Variables client llm : Type.
Variable ChatOpenAI : string -> client -> result exception llm.
Variable invoke_content : llm -> string -> result exception string.
Variable proxy_client : option client.

Let analysis := data_analysis client llm ChatOpenAI invoke_content proxy_client.

Lemma data_analysis_material w s a b c :
  dict_get "sales_df" (session_state s) = Some (Some a) ->
  dict_get "production_df" (session_state s) = Some (Some b) ->
  dict_get "reservations_df" (session_state s) = Some (Some c) ->
  analysis_type w = "Material Analysis" ->
  analyze_button w = true ->
  analysis w s
  = (if negb (String.eqb (material_code_input w) EmptyString)
     then material_analysis client llm ChatOpenAI invoke_content proxy_client
            (material_code_input w)
     else show (st_error "Please enter a material code to analyze."))
      {| objects := objects s; session_state := session_state s;
         page := page s ++ material_header |}.
Proof.
  intros Ha Hb Hc Htype Hbutton. unfold analysis, data_analysis.
  step_show.
  rewrite (bind_ok _ _ _ _ _
             (all_loaded_run (Some a) (Some b) (Some c)
                {| objects := objects s; session_state := session_state s;
                   page := page s ++ [st_subheader "AI-Powered Data Analysis"] |}
                Ha Hb Hc)).
  cbn [is_some andb negb]. rewrite Htype, Hbutton. cbn [String.eqb Ascii.eqb Bool.eqb].
  do 3 step_show. unfold material_header. now rewrite <- !app_assoc.
Qed.

Lemma data_analysis_general w s a b c :
  dict_get "sales_df" (session_state s) = Some (Some a) ->
  dict_get "production_df" (session_state s) = Some (Some b) ->
  dict_get "reservations_df" (session_state s) = Some (Some c) ->
  analysis_type w = "General Query" ->
  ask_button w = true ->
  analysis w s
  = (if negb (String.eqb (user_query_input w) EmptyString)
     then general_query client llm ChatOpenAI invoke_content proxy_client
            (user_query_input w)
     else show (st_error "Please enter a question to analyze."))
      {| objects := objects s; session_state := session_state s;
         page := page s ++ general_header |}.
Proof.
  intros Ha Hb Hc Htype Hbutton. unfold analysis, data_analysis.
  step_show.
  rewrite (bind_ok _ _ _ _ _
             (all_loaded_run (Some a) (Some b) (Some c)
                {| objects := objects s; session_state := session_state s;
                   page := page s ++ [st_subheader "AI-Powered Data Analysis"] |}
                Ha Hb Hc)).
  cbn [is_some andb negb]. rewrite Htype, Hbutton. cbn [String.eqb Ascii.eqb Bool.eqb].
  do 3 step_show. unfold general_header. now rewrite <- !app_assoc.
Qed.

End PageBranches.

(** X12. With the three tables loaded, pressing the analysis button with an
    empty material code shows the request for a code after the header of
    the tab and does nothing else: no frame is made, no slot changes. *)
Theorem empty_code_is_refused (client llm : Type)
    (ChatOpenAI : string -> client -> result exception llm)
    (invoke_content : llm -> string -> result exception string)
    (proxy_client : option client) w s a b c :
  dict_get "sales_df" (session_state s) = Some (Some a) ->
  dict_get "production_df" (session_state s) = Some (Some b) ->
  dict_get "reservations_df" (session_state s) = Some (Some c) ->
  analysis_type w = "Material Analysis" ->
  analyze_button w = true ->
  material_code_input w = EmptyString ->
  data_analysis client llm ChatOpenAI invoke_content proxy_client w s
  = Some (Ok tt,
          {| objects := objects s; session_state := session_state s;
             page := page s ++ material_header
                     ++ [st_error "Please enter a material code to analyze."] |}).
Proof.
  intros Ha Hb Hc Htype Hbutton Hcode.
  rewrite (data_analysis_material _ _ _ _ _ w s a b c Ha Hb Hc Htype Hbutton).
  rewrite Hcode. cbn [String.eqb negb]. rewrite show_run.
  cbn [objects session_state page]. now rewrite <- app_assoc.
Qed.

Lemma empty_code_is_refused_witness :
  echo_analysis ask_nothing loaded_session
  = Some (Ok tt,
          {| objects := objects loaded_session;
             session_state := session_state loaded_session;
             page := page loaded_session ++ material_header
                     ++ [st_error "Please enter a material code to analyze."] |}).
Proof.
  apply (empty_code_is_refused unit unit (fun _ _ => Ok tt) echo_service (Some tt)
           ask_nothing loaded_session 0 1 2); reflexivity.
Defined.

(** X13. With the three tables loaded, pressing the ask button with an
    empty question shows the request for a question after the header of
    the tab and does nothing else. *)
Theorem empty_question_is_refused (client llm : Type)
    (ChatOpenAI : string -> client -> result exception llm)
    (invoke_content : llm -> string -> result exception string)
    (proxy_client : option client) w s a b c :
  dict_get "sales_df" (session_state s) = Some (Some a) ->
  dict_get "production_df" (session_state s) = Some (Some b) ->
  dict_get "reservations_df" (session_state s) = Some (Some c) ->
  analysis_type w = "General Query" ->
  ask_button w = true ->
  user_query_input w = EmptyString ->
  data_analysis client llm ChatOpenAI invoke_content proxy_client w s
  = Some (Ok tt,
          {| objects := objects s; session_state := session_state s;
             page := page s ++ general_header
                     ++ [st_error "Please enter a question to analyze."] |}).
Proof.
  intros Ha Hb Hc Htype Hbutton Hquery.
  rewrite (data_analysis_general _ _ _ _ _ w s a b c Ha Hb Hc Htype Hbutton).
  rewrite Hquery. cbn [String.eqb negb]. rewrite show_run.
  cbn [objects session_state page]. now rewrite <- app_assoc.
Qed.

Lemma empty_question_is_refused_witness :
  echo_analysis ask_no_question loaded_session
  = Some (Ok tt,
          {| objects := objects loaded_session;
             session_state := session_state loaded_session;
             page := page loaded_session ++ general_header
                     ++ [st_error "Please enter a question to analyze."] |}).
Proof.
  apply (empty_question_is_refused unit unit (fun _ _ => Ok tt) echo_service
           (Some tt) ask_no_question loaded_session 0 1 2); reflexivity.
Defined.

(** X14. A material analysis with a code of letters and digits, the three
    tables loaded: the run ends normally; after the header the page shows
    the three metrics, which are the numbers of rows of the tables that the
    code selects, and the reply of [ask_llm_simple] to the prompt that
    [create_analysis_prompt] makes of the result of [analyze_material_data];
    the slots of the session are unchanged. *)
Theorem analysis_shows_counts_and_reply (client llm : Type)
    (ChatOpenAI : string -> client -> result exception llm)
    (invoke_content : llm -> string -> result exception string)
    (proxy_client : option client) w s a b c Ts Tp Tr :
  dict_get "sales_df" (session_state s) = Some (Some a) ->
  dict_get "production_df" (session_state s) = Some (Some b) ->
  dict_get "reservations_df" (session_state s) = Some (Some c) ->
  nth_error (objects s) a = Some Ts ->
  nth_error (objects s) b = Some Tp ->
  nth_error (objects s) c = Some Tr ->
  frame_ok Ts = true -> frame_ok Tp = true -> frame_ok Tr = true ->
  analysis_type w = "Material Analysis" ->
  analyze_button w = true ->
  material_code_input w <> EmptyString ->
  is_literal (material_code_input w) = true ->
  exists ad h1 text s' rest,
    analyze_material_data (material_code_input w) (Some a) (Some b) (Some c)
      (objects s) = Some (Ok ad, h1)
    /\ ask_llm_simple client llm ChatOpenAI invoke_content proxy_client
         (analysis_prompt_text (material_code_input w) ad
            (columns Ts) (first_five (Some Ts))
            (columns Tp) (first_five (Some Tp))
            (columns Tr) (first_five (Some Tr))) = Ok text
    /\ data_analysis client llm ChatOpenAI invoke_content proxy_client w s
       = Some (Ok tt, s')
    /\ session_state s' = session_state s
    /\ page s'
       = page s ++ material_header
         ++ results_elements (material_code_input w)
              (hits (material_code_input w) Ts)
              (hits (material_code_input w) Tp)
              (hits (material_code_input w) Tr) text
         ++ rest.
Proof.
  intros Ka Kb Kc Ha Hb Hc Fa Fb Fc Htype Hbutton Hcode Ht.
  set (code := material_code_input w) in *.
  pose proof (analyze_runs code (Some a) (Some b) (Some c) (objects s)
                (valid_ref_of _ _ _ Ha Fa) (valid_ref_of _ _ _ Hb Fb)
                (valid_ref_of _ _ _ Hc Fc)) as R1.
  cbn [deref] in R1. rewrite Ha, Hb, Hc in R1.
  destruct (material_analysis_run client llm ChatOpenAI invoke_content proxy_client
              code
              {| objects := objects s; session_state := session_state s;
                 page := page s ++ material_header |}
              a b c Ts Tp Tr Ka Kb Kc Ha Hb Hc Fa Fb Fc Ht)
    as (ad & text & s' & fs & fp & fr & Ead & Etext & Erun & Hpage & _).
  rewrite Ead in R1. destruct R1 as [g1 R1].
  assert (Hrun : data_analysis client llm ChatOpenAI invoke_content proxy_client w s
                 = Some (Ok tt, s')).
  { rewrite (data_analysis_material _ _ _ _ _ w s a b c Ka Kb Kc Htype Hbutton).
    fold code. apply String.eqb_neq in Hcode. rewrite Hcode. exact Erun. }
  apply andb_true_iff in Fa as [Ra _]. apply andb_true_iff in Fb as [Rb _].
  apply andb_true_iff in Fc as [Rc _].
  destruct (analysis_counts code Ts Tp Tr ad Ra Rb Rc Ead) as (Cs & Cp & Cr).
  exists ad, (objects s ++ g1), text, s'. eexists.
  split; [exact R1|]. split; [exact Etext|]. split; [exact Hrun|].
  split; [exact (proj2 (steady_data_analysis _ _ _ _ _ w s _ s' Hrun))|].
  rewrite Hpage. cbn [page]. rewrite Cs, Cp, Cr.
  rewrite <- !app_assoc. reflexivity.
Qed.

Lemma analysis_shows_counts_and_reply_witness :
  exists ad h1 text s' rest,
    analyze_material_data "M1" (Some 0) (Some 1) (Some 2) scenario
    = Some (Ok ad, h1)
    /\ ask_llm_simple unit unit (fun _ _ => Ok tt) echo_service (Some tt)
         (analysis_prompt_text "M1" ad
            (columns scenario_sales) (first_five (Some scenario_sales))
            (columns scenario_production) (first_five (Some scenario_production))
            (columns scenario_reservations)
            (first_five (Some scenario_reservations))) = Ok text
    /\ echo_analysis ask_M1 loaded_session = Some (Ok tt, s')
    /\ session_state s' = session_state loaded_session
    /\ page s'
       = page loaded_session ++ material_header
         ++ results_elements "M1" (hits "M1" scenario_sales)
              (hits "M1" scenario_production) (hits "M1" scenario_reservations)
              text
         ++ rest.
Proof.
  apply (analysis_shows_counts_and_reply unit unit (fun _ _ => Ok tt) echo_service
           (Some tt) ask_M1 loaded_session 0 1 2
           scenario_sales scenario_production scenario_reservations);
    try reflexivity.
  discriminate.
Defined.

(** X15. In the same run the page ends with the detail tables, in the
    order sales, production, reservations: a table is shown exactly when
    the code selects a row of it, and the frame shown has the columns of the
    loaded table and its selected rows. *)
Theorem detail_tables_hold_selected_rows (client llm : Type)
    (ChatOpenAI : string -> client -> result exception llm)
    (invoke_content : llm -> string -> result exception string)
    (proxy_client : option client) w s a b c Ts Tp Tr :
  dict_get "sales_df" (session_state s) = Some (Some a) ->
  dict_get "production_df" (session_state s) = Some (Some b) ->
  dict_get "reservations_df" (session_state s) = Some (Some c) ->
  nth_error (objects s) a = Some Ts ->
  nth_error (objects s) b = Some Tp ->
  nth_error (objects s) c = Some Tr ->
  frame_ok Ts = true -> frame_ok Tp = true -> frame_ok Tr = true ->
  analysis_type w = "Material Analysis" ->
  analyze_button w = true ->
  material_code_input w <> EmptyString ->
  is_literal (material_code_input w) = true ->
  exists text s' fs fp fr,
    data_analysis client llm ChatOpenAI invoke_content proxy_client w s
    = Some (Ok tt, s')
    /\ page s'
       = (page s ++ material_header
          ++ results_elements (material_code_input w)
               (hits (material_code_input w) Ts)
               (hits (material_code_input w) Tp)
               (hits (material_code_input w) Tr) text)
         ++ detail_elements "Sales" (hits (material_code_input w) Ts) fs
         ++ detail_elements "Production" (hits (material_code_input w) Tp) fp
         ++ detail_elements "Reservations" (hits (material_code_input w) Tr) fr
    /\ ((0 < hits (material_code_input w) Ts)%Z ->
        nth_error (objects s') fs = Some (selection (material_code_input w) Ts))
    /\ ((0 < hits (material_code_input w) Tp)%Z ->
        nth_error (objects s') fp = Some (selection (material_code_input w) Tp))
    /\ ((0 < hits (material_code_input w) Tr)%Z ->
        nth_error (objects s') fr = Some (selection (material_code_input w) Tr)).
Proof.
  intros Ka Kb Kc Ha Hb Hc Fa Fb Fc Htype Hbutton Hcode Ht.
  set (code := material_code_input w) in *.
  destruct (material_analysis_run client llm ChatOpenAI invoke_content proxy_client
              code
              {| objects := objects s; session_state := session_state s;
                 page := page s ++ material_header |}
              a b c Ts Tp Tr Ka Kb Kc Ha Hb Hc Fa Fb Fc Ht)
    as (ad & text & s' & fs & fp & fr & Ead & Etext & Erun & Hpage & Ds & Dp & Dr).
  apply andb_true_iff in Fa as [Ra _]. apply andb_true_iff in Fb as [Rb _].
  apply andb_true_iff in Fc as [Rc _].
  destruct (analysis_counts code Ts Tp Tr ad Ra Rb Rc Ead) as (Cs & Cp & Cr).
  rewrite Cs, Cp, Cr in *.
  exists text, s', fs, fp, fr.
  split.
  { rewrite (data_analysis_material _ _ _ _ _ w s a b c Ka Kb Kc Htype Hbutton).
    fold code. apply String.eqb_neq in Hcode. rewrite Hcode. exact Erun. }
  split; [|now repeat split].
  rewrite Hpage. cbn [page]. rewrite <- !app_assoc. reflexivity.
Qed.

Lemma detail_tables_hold_selected_rows_witness :
  exists text s' fs fp fr,
    echo_analysis ask_M1 loaded_session = Some (Ok tt, s')
    /\ page s'
       = (page loaded_session ++ material_header
          ++ results_elements "M1" (hits "M1" scenario_sales)
               (hits "M1" scenario_production)
               (hits "M1" scenario_reservations) text)
         ++ detail_elements "Sales" (hits "M1" scenario_sales) fs
         ++ detail_elements "Production" (hits "M1" scenario_production) fp
         ++ detail_elements "Reservations" (hits "M1" scenario_reservations) fr
    /\ ((0 < hits "M1" scenario_sales)%Z ->
        nth_error (objects s') fs = Some (selection "M1" scenario_sales))
    /\ ((0 < hits "M1" scenario_production)%Z ->
        nth_error (objects s') fp = Some (selection "M1" scenario_production))
    /\ ((0 < hits "M1" scenario_reservations)%Z ->
        nth_error (objects s') fr = Some (selection "M1" scenario_reservations)).
Proof.
  apply (detail_tables_hold_selected_rows unit unit (fun _ _ => Ok tt) echo_service
           (Some tt) ask_M1 loaded_session 0 1 2
           scenario_sales scenario_production scenario_reservations);
    try reflexivity.
  discriminate.
Defined.

(** X16. A material code that is not a pattern, with a loaded table that
    has a row and a column: the [re.error] of the filter leaves the
    analysis tab, which has shown its header only; the slots of the session
    are unchanged. *)
Theorem bad_code_stops_analysis (client llm : Type)
    (ChatOpenAI : string -> client -> result exception llm)
    (invoke_content : llm -> string -> result exception string)
    (proxy_client : option client) w s a b c Ts Tp Tr :
  dict_get "sales_df" (session_state s) = Some (Some a) ->
  dict_get "production_df" (session_state s) = Some (Some b) ->
  dict_get "reservations_df" (session_state s) = Some (Some c) ->
  nth_error (objects s) a = Some Ts ->
  nth_error (objects s) b = Some Tp ->
  nth_error (objects s) c = Some Tr ->
  frame_ok Ts = true -> frame_ok Tp = true -> frame_ok Tr = true ->
  analysis_type w = "Material Analysis" ->
  analyze_button w = true ->
  re_compile (material_code_input w) true = Some (Raise re_error) ->
  no_cells Ts && no_cells Tp && no_cells Tr = false ->
  exists s',
    data_analysis client llm ChatOpenAI invoke_content proxy_client w s
    = Some (Raise (inl re_error), s')
    /\ session_state s' = session_state s
    /\ page s' = page s ++ material_header.
Proof.
  intros Ka Kb Kc Ha Hb Hc Fa Fb Fc Htype Hbutton Hbad Hcells.
  pose proof (analyze_runs (material_code_input w) (Some a) (Some b) (Some c)
                (objects s)
                (valid_ref_of _ _ _ Ha Fa) (valid_ref_of _ _ _ Hb Fb)
                (valid_ref_of _ _ _ Hc Fc)) as R1.
  cbn [deref] in R1. rewrite Ha, Hb, Hc in R1.
  rewrite (analysis_of_bad _ Ts Tp Tr Hbad Hcells) in R1. destruct R1 as [g1 R1].
  rewrite (data_analysis_material _ _ _ _ _ w s a b c Ka Kb Kc Htype Hbutton).
  rewrite (bad_token_not_empty _ Hbad). cbn [negb].
  unfold material_analysis.
  step_get Ka. step_get Kb. step_get Kc.
  match goal with
  | |- context [app_bind (lift_M ?m) ?k ?st] =>
      rewrite (bind_raise (lift_M m) k st _ _ (lift_M_raise m st _ _ R1))
  end.
  eexists. split; [reflexivity|]. now split.
Qed.

Lemma bad_code_stops_analysis_witness :
  exists s',
    echo_analysis ask_open_paren loaded_session = Some (Raise (inl re_error), s')
    /\ session_state s' = session_state loaded_session
    /\ page s' = page loaded_session ++ material_header.
Proof.
  apply (bad_code_stops_analysis unit unit (fun _ _ => Ok tt) echo_service
           (Some tt) ask_open_paren loaded_session 0 1 2
           scenario_sales scenario_production scenario_reservations);
    reflexivity.
Defined.

(** X17. A general query with a question, the three tables loaded: the
    run ends normally and shows, after the header, the reply of
    [ask_llm_simple] to the prompt made of the question and, for each table,
    its shape, its columns and its first five records; the slots of the
    session are unchanged. *)
Theorem query_shows_reply (client llm : Type)
    (ChatOpenAI : string -> client -> result exception llm)
    (invoke_content : llm -> string -> result exception string)
    (proxy_client : option client) w s a b c Ts Tp Tr :
  dict_get "sales_df" (session_state s) = Some (Some a) ->
  dict_get "production_df" (session_state s) = Some (Some b) ->
  dict_get "reservations_df" (session_state s) = Some (Some c) ->
  nth_error (objects s) a = Some Ts ->
  nth_error (objects s) b = Some Tp ->
  nth_error (objects s) c = Some Tr ->
  analysis_type w = "General Query" ->
  ask_button w = true ->
  user_query_input w <> EmptyString ->
  exists text s',
    ask_llm_simple client llm ChatOpenAI invoke_content proxy_client
      (general_prompt_text (user_query_input w)
         (shape_of Ts) (columns Ts) (first_five (Some Ts))
         (shape_of Tp) (columns Tp) (first_five (Some Tp))
         (shape_of Tr) (columns Tr) (first_five (Some Tr))) = Ok text
    /\ data_analysis client llm ChatOpenAI invoke_content proxy_client w s
       = Some (Ok tt, s')
    /\ session_state s' = session_state s
    /\ page s'
       = page s ++ general_header ++ [st_subheader "AI Response"; st_write text].
Proof.
  intros Ka Kb Kc Ha Hb Hc Htype Hbutton Hquery.
  destruct (general_prompt_runs (user_query_input w) a b c (objects s) Ts Tp Tr
              Ha Hb Hc) as [g R].
  destruct (ask_total client llm ChatOpenAI invoke_content proxy_client
              (general_prompt_text (user_query_input w)
                 (shape_of Ts) (columns Ts) (first_five (Some Ts))
                 (shape_of Tp) (columns Tp) (first_five (Some Tp))
                 (shape_of Tr) (columns Tr) (first_five (Some Tr))))
    as [text Etext].
  exists text.
  rewrite (data_analysis_general _ _ _ _ _ w s a b c Ka Kb Kc Htype Hbutton).
  apply String.eqb_neq in Hquery. rewrite Hquery. cbn [negb].
  unfold general_query.
  step_frame Ka. step_frame Kb. step_frame Kc. step_M R.
  rewrite Etext. cbn [lift_client].
  rewrite (bind_ok (app_ret text) _ _ text _ eq_refl).
  step_show. rewrite show_run. cbn [objects session_state page].
  eexists. split; [reflexivity|]. split; [reflexivity|].
  split; [reflexivity|]. cbn [page]. now rewrite <- !app_assoc.
Qed.

Lemma query_shows_reply_witness :
  exists text s',
    ask_llm_simple unit unit (fun _ _ => Ok tt) echo_service (Some tt)
      (general_prompt_text "Which orders are late?"
         (shape_of scenario_sales) (columns scenario_sales)
         (first_five (Some scenario_sales))
         (shape_of scenario_production) (columns scenario_production)
         (first_five (Some scenario_production))
         (shape_of scenario_reservations) (columns scenario_reservations)
         (first_five (Some scenario_reservations))) = Ok text
    /\ echo_analysis ask_question loaded_session = Some (Ok tt, s')
    /\ session_state s' = session_state loaded_session
    /\ page s'
       = page loaded_session ++ general_header
         ++ [st_subheader "AI Response"; st_write text].
Proof.
  apply (query_shows_reply unit unit (fun _ _ => Ok tt) echo_service (Some tt)
           ask_question loaded_session 0 1 2
           scenario_sales scenario_production scenario_reservations);
    try reflexivity.
  discriminate.
Defined.

(** X18. However a run of the analysis tab ends, with a result, with
    [re.error] or with an exception, it has not touched the slots of
    [st.session_state], the frames that were there are unchanged, and the
    page has only grown. *)
Theorem analysis_keeps_tables (client llm : Type)
    (ChatOpenAI : string -> client -> result exception llm)
    (invoke_content : llm -> string -> result exception string)
    (proxy_client : option client) w s r s' :
  data_analysis client llm ChatOpenAI invoke_content proxy_client w s
  = Some (r, s') ->
  session_state s' = session_state s
  /\ (exists g, objects s' = objects s ++ g)
  /\ (exists es, page s' = page s ++ es).
Proof.
  intros Hrun.
  destruct (steady_data_analysis _ _ _ _ _ w s r s' Hrun) as [[Ho Hp] Hs].
  split; [exact Hs|]. split; [exact Ho | exact Hp].
Qed.

Lemma analysis_keeps_tables_witness :
  exists r s',
    echo_analysis ask_open_paren loaded_session = Some (r, s')
    /\ session_state s' = session_state loaded_session
    /\ (exists g, objects s' = objects loaded_session ++ g)
    /\ (exists es, page s' = page loaded_session ++ es).
Proof.
  eexists. eexists. split; [vm_compute; reflexivity|].
  eapply (analysis_keeps_tables unit unit (fun _ _ => Ok tt) echo_service (Some tt)
            ask_open_paren loaded_session).
  vm_compute. reflexivity.
Defined.

(** ** What the loading tab shows *)

(** X19. With the three tables loaded and no file uploaded in this run, the
    loading tab shows each stored table with its shape, in the order sales,
    production, reservations, and then the summary: a new table that has a
    line for each role with the numbers of rows and of columns of its table.
    The slots and the stored tables are unchanged. *)
Theorem loading_shows_tables_and_summary w s a b c Ts Tp Tr :
  sales_file w = None ->
  production_file w = None ->
  reservations_file w = None ->
  dict_get "sales_df" (session_state s) = Some (Some a) ->
  dict_get "production_df" (session_state s) = Some (Some b) ->
  dict_get "reservations_df" (session_state s) = Some (Some c) ->
  nth_error (objects s) a = Some Ts ->
  nth_error (objects s) b = Some Tp ->
  nth_error (objects s) c = Some Tr ->
  data_loading w s
  = Some (Ok tt,
          {| objects :=
               objects s
               ++ [summary_frame (Z.of_nat (nrows Ts)) (Z.of_nat (nrows Tp))
                     (Z.of_nat (nrows Tr)) (Z.of_nat (ncols Ts))
                     (Z.of_nat (ncols Tp)) (Z.of_nat (ncols Tr))];
             session_state := session_state s;
             page := page s ++ loading_header
                     ++ shown_table "Sales" a Ts
                     ++ shown_table "Production" b Tp
                     ++ shown_table "Reservations" c Tr
                     ++ summary_elements (List.length (objects s)) |}).
Proof.
  destruct s as [h ss p]. cbn [objects session_state page].
  intros Fa Fb Fc Ka Kb Kc Ha Hb Hc.
  unfold data_loading, upload_block, display_block, all_loaded, summary_block.
  rewrite Fa, Fb, Fc. unfold_page.
  run_page ltac:(rewrite ?Ka, ?Kb, ?Kc, ?Ha, ?Hb, ?Hc; cbn [andb fst snd]).
  unfold loading_header, shown_table, summary_elements, shape_of.
  rewrite <- !app_assoc. reflexivity.
Qed.

Lemma loading_shows_tables_and_summary_witness :
  data_loading idle loaded_session
  = Some (Ok tt,
          {| objects :=
               objects loaded_session
               ++ [summary_frame (Z.of_nat (nrows scenario_sales))
                     (Z.of_nat (nrows scenario_production))
                     (Z.of_nat (nrows scenario_reservations))
                     (Z.of_nat (ncols scenario_sales))
                     (Z.of_nat (ncols scenario_production))
                     (Z.of_nat (ncols scenario_reservations))];
             session_state := session_state loaded_session;
             page := page loaded_session ++ loading_header
                     ++ shown_table "Sales" 0 scenario_sales
                     ++ shown_table "Production" 1 scenario_production
                     ++ shown_table "Reservations" 2 scenario_reservations
                     ++ summary_elements (List.length (objects loaded_session)) |}).
Proof.
  apply (loading_shows_tables_and_summary idle loaded_session 0 1 2
           scenario_sales scenario_production scenario_reservations);
    reflexivity.
Defined.
